(** * Spec2Test: a shallow embedding of the test-case generator

    The program reads a requirement document, asks a language-model API for
    test cases, validates the answer and writes a spreadsheet.  The modules
    below follow the source files one by one:

    - [extract_text]      src/extract_text.py
    - [OpenAIEngine]      src/ai_engines/openai_engine.py
    - [GeminiEngine]      src/ai_engines/gemini_engine.py
    - [export_excel]      src/export_excel.py
    - [main]              src/main.py

    Python values are an inductive type, dictionaries are finite maps with
    string keys, and effectful code runs in a state-and-exception monad whose
    state holds the interpreter-level globals, the engine objects and a log
    of everything the program prints, requests and writes.  What the program
    takes from third-party packages and from the operating system (the JSON
    and YAML decoders, the file system, the two remote APIs) is a record of
    oracles, [Platform], over which every statement is quantified. *)

From Stdlib Require Import ZArith String Ascii List Bool Lia Sorted.
From Stdlib Require Import Floats.PrimFloat.
From stdpp Require Import gmap strings list pretty.

Set Warnings "-register-all,-inexact-float".

Local Open Scope string_scope.
Local Open Scope Z_scope.
Local Open Scope list_scope.

(** ** Python values *)

(** The values that [json.loads] and [yaml.safe_load] build.  Integers are
    unbounded, floats are IEEE binary64, and a dictionary is looked up by
    string keys only, in the decoders' output as in the program. *)
Inductive pyval : Type :=
  | PNone
  | PBool (b : bool)
  | PInt (n : Z)
  | PFloat (f : float)
  | PStr (s : string)
  | PList (l : list pyval)
  | PDict (d : gmap string pyval).

Abbreviation pydict := (gmap string pyval).

(** [isinstance(v, dict)] and [isinstance(v, list)]. *)
Definition is_dict (v : pyval) : bool :=
  match v with PDict _ => true | _ => false end.

Definition is_list (v : pyval) : bool :=
  match v with PList _ => true | _ => false end.

(** [d.get(key, default)]: the stored value when the key is present,
    whatever that value is, and the default otherwise. *)
Definition dict_get (d : pydict) (key : string) (dflt : pyval) : pyval :=
  default dflt (d !! key).

(** [type(v).__name__] *)
Definition type_name (v : pyval) : string :=
  match v with
  | PNone => "NoneType"
  | PBool _ => "bool"
  | PInt _ => "int"
  | PFloat _ => "float"
  | PStr _ => "str"
  | PList _ => "list"
  | PDict _ => "dict"
  end.

(** Truth value of an object, as [if not x] tests it. *)
Definition truthy (v : pyval) : bool :=
  match v with
  | PNone => false
  | PBool b => b
  | PInt n => negb (n =? 0)
  | PFloat f => negb (PrimFloat.eqb f PrimFloat.zero)
  | PStr s => negb (String.eqb s "")
  | PList l => match l with [] => false | _ => true end
  | PDict d => negb (bool_decide (d = ∅))
  end.

(** ** Strings

    A Python [str] is kept as the bytes of its UTF-8 encoding.  The
    characters the program searches for and compares with are ASCII, and an
    ASCII byte never occurs inside a multi-byte sequence, so searching and
    slicing at those characters give the same text at the byte level as at
    the code-point level. *)

Definition dquote : string := String (ascii_of_nat 34) "".
Definition newline : string := String (ascii_of_nat 10) "".

(** [len(s)]: the number of code points, that is of bytes that are not
    continuation bytes (10xxxxxx). *)
Fixpoint py_len (s : string) : Z :=
  match s with
  | EmptyString => 0
  | String c r =>
      (if Z.land (Z.of_nat (nat_of_ascii c)) 192 =? 128 then 0 else 1) + py_len r
  end.

(** [s.find(c)] for a one-character needle: the first index, or -1. *)
Fixpoint find_from (c : ascii) (s : string) (i : Z) : Z :=
  match s with
  | EmptyString => -1
  | String a r => if Ascii.eqb a c then i else find_from c r (i + 1)
  end.

Definition find (s : string) (c : ascii) : Z := find_from c s 0.

(** [s.rfind(c)]: the last index, or -1. *)
Fixpoint rfind_from (c : ascii) (s : string) (i : Z) (last : Z) : Z :=
  match s with
  | EmptyString => last
  | String a r => rfind_from c r (i + 1) (if Ascii.eqb a c then i else last)
  end.

Definition rfind (s : string) (c : ascii) : Z := rfind_from c s 0 (-1).

(** [s[lo:hi]] with Python's clamping of both bounds. *)
Definition clamp_index (len i : Z) : Z :=
  if i <? 0 then Z.max (i + len) 0 else Z.min i len.

Definition slice (s : string) (lo hi : Z) : string :=
  let len := Z.of_nat (String.length s) in
  let a := clamp_index len lo in
  let b := clamp_index len hi in
  String.substring (Z.to_nat a) (Z.to_nat (b - a)) s.

(** [s[lo:]]. *)
Definition slice_from (s : string) (lo : Z) : string :=
  slice s lo (Z.of_nat (String.length s)).

(** [s.lower()] of an ASCII string. *)
Definition lower_char (c : ascii) : ascii :=
  let n := nat_of_ascii c in
  if ((65 <=? n) && (n <=? 90))%nat then ascii_of_nat (n + 32) else c.

Fixpoint lower_ascii (s : string) : string :=
  match s with
  | EmptyString => EmptyString
  | String c r => String (lower_char c) (lower_ascii r)
  end.

Fixpoint is_ascii_string (s : string) : bool :=
  match s with
  | EmptyString => true
  | String c r => (nat_of_ascii c <? 128)%nat && is_ascii_string r
  end.

(** [s.strip()] with no argument.  [space_prefix s] is the number of bytes
    of the whitespace character [s] starts with (0 when it starts with none):
    the ASCII ones and the UTF-8 encodings of the other characters for which
    [str.isspace] holds. *)
Definition space_prefix (s : string) : nat :=
  match map (fun c => Z.of_nat (nat_of_ascii c)) (list_ascii_of_string s) with
  | b0 :: t =>
      if ((9 <=? b0) && (b0 <=? 13)) || ((28 <=? b0) && (b0 <=? 32)) then 1%nat
      else match t with
      | b1 :: t' =>
          if (b0 =? 194) && ((b1 =? 133) || (b1 =? 160)) then 2%nat
          else match t' with
          | b2 :: _ =>
              if (b0 =? 225) && (b1 =? 154) && (b2 =? 128) then 3%nat
              else if (b0 =? 226) && (b1 =? 128)
                      && (((128 <=? b2) && (b2 <=? 138))
                          || (b2 =? 168) || (b2 =? 169) || (b2 =? 175)) then 3%nat
              else if (b0 =? 226) && (b1 =? 129) && (b2 =? 159) then 3%nat
              else if (b0 =? 227) && (b1 =? 128) && (b2 =? 128) then 3%nat
              else 0%nat
          | [] => 0%nat
          end
      | [] => 0%nat
      end
  | [] => 0%nat
  end.

Fixpoint drop_string (n : nat) (s : string) : string :=
  match n, s with
  | O, _ => s
  | S n', String _ r => drop_string n' r
  | S _, EmptyString => EmptyString
  end.

Fixpoint lstrip_fuel (fuel : nat) (s : string) : string :=
  match fuel with
  | O => s
  | S fuel' =>
      match space_prefix s with
      | O => s
      | n => lstrip_fuel fuel' (drop_string n s)
      end
  end.

Definition lstrip (s : string) : string := lstrip_fuel (String.length s) s.

Definition all_space (s : string) : bool := String.eqb (lstrip s) "".

Fixpoint rstrip (s : string) : string :=
  match s with
  | EmptyString => EmptyString
  | String c r => if all_space s then EmptyString else String c (rstrip r)
  end.

Definition strip (s : string) : string := rstrip (lstrip s).

(** [sep.join(parts)]. *)
Fixpoint join (sep : string) (parts : list string) : string :=
  match parts with
  | [] => ""
  | [p] => p
  | p :: rest => p +:+ sep +:+ join sep rest
  end.

(** [enumerate(l)] *)
Definition enumerate {A} (l : list A) : list (Z * A) :=
  imap (fun i x => (Z.of_nat i, x)) l.

(** Decimal rendering of an integer, [f"{n}"]. *)
Definition fmt_int (n : Z) : string := pretty n.

(** [f"{n:03d}"] for a non-negative [n]: zero-filled on the left to a width
    of three, and longer numerals are left as they are. *)
Definition fmt_03d (n : Z) : string :=
  let s := fmt_int n in
  String.concat "" (repeat "0" (3 - String.length s)%nat) +:+ s.

(** ** Exceptions

    [exn] holds the instances of [Exception] and of its subclasses, each
    with the text [str(e)] gives.  Every class named in the source is a
    constructor, with the base class Python gives it; other classes sit
    directly under [Exception]. *)
Inductive exc_class : Type :=
  | Exception
  | ValueError
  | ImportError
  | AttributeError
  | OSError
  | FileNotFoundError
  | UnicodeDecodeError
  | JSONDecodeError
  | YAMLError
  | OtherError (name : string).

#[global] Instance exc_class_eq_dec : EqDecision exc_class.
Proof. solve_decision. Defined.

Definition base_class (c : exc_class) : option exc_class :=
  match c with
  | Exception => None
  | UnicodeDecodeError | JSONDecodeError => Some ValueError
  | FileNotFoundError => Some OSError
  | _ => Some Exception
  end.

Fixpoint ancestors (depth : nat) (c : exc_class) : list exc_class :=
  c :: match depth, base_class c with
       | S d, Some b => ancestors d b
       | _, _ => []
       end.

Definition issubclass (c d : exc_class) : bool :=
  bool_decide (d ∈ ancestors 3 c).

Record exn : Type := Exn { exn_class : exc_class; exn_msg : string }.

(** [isinstance(e, c)], the test an [except c] clause makes. *)
Definition isinstance (e : exn) (c : exc_class) : bool :=
  issubclass (exn_class e) c.

(** How a call ends: with a value, with an exception of class [Exception],
    or with [SystemExit], which [sys.exit] raises and which derives from
    [BaseException] only, so that no [except Exception] clause sees it. *)
Inductive outcome (A : Type) : Type :=
  | Return (a : A)
  | Raise (e : exn)
  | SystemExit (code : Z).
Arguments Return {A} a.
Arguments Raise {A} e.
Arguments SystemExit {A} code.

(** ** Program state *)

(** What the program does to the outside world, in the order it does it. *)
Inductive event : Type :=
  | EvPrint (line : string)
  | EvOpenAICreate (api_key model : pyval)
                   (messages : list (string * string)) (temperature : float)
  | EvGeminiGenerate (model_name : pyval) (prompt : string)
  | EvExcelWrite (path : string) (rows : list pydict).

Abbreviation history := (list event).

(** Engine objects live in a heap.  An attribute holds a plain value or one
    of the two client objects of the API packages. *)
Inductive pyclass : Type := COpenAIEngine | CGeminiEngine.

Inductive attr : Type :=
  | AVal (v : pyval)
  | AOpenAIClient (api_key : pyval)
  | AGenerativeModel (model_name : pyval).

Record instance : Type :=
  Instance_ { inst_class : pyclass; inst_attrs : gmap string attr }.

Abbreviation loc := nat.

(** The module-level names the source assigns at import time, the key
    [genai.configure] stores, the heap and the log. *)
Record state : Type := State {
  PDF_AVAILABLE : bool;
  DOCX_AVAILABLE : bool;
  OPENAI_AVAILABLE : bool;
  GEMINI_AVAILABLE : bool;
  genai_api_key : option pyval;
  heap : gmap loc instance;
  log : history
}.

Definition set_log (f : history -> history) (s : state) : state :=
  State (PDF_AVAILABLE s) (DOCX_AVAILABLE s) (OPENAI_AVAILABLE s)
        (GEMINI_AVAILABLE s) (genai_api_key s) (heap s) (f (log s)).

Definition set_heap (f : gmap loc instance -> gmap loc instance) (s : state) : state :=
  State (PDF_AVAILABLE s) (DOCX_AVAILABLE s) (OPENAI_AVAILABLE s)
        (GEMINI_AVAILABLE s) (genai_api_key s) (f (heap s)) (log s).

Definition set_genai_api_key (k : option pyval) (s : state) : state :=
  State (PDF_AVAILABLE s) (DOCX_AVAILABLE s) (OPENAI_AVAILABLE s)
        (GEMINI_AVAILABLE s) k (heap s) (log s).

(** ** argparse

    A parser is the list of the actions [add_argument] declared, each a
    [store] action taking one value.  The words of a command line that this
    model reads itself are the declared option strings, written in full and
    followed by their value as a separate word, and the words that do not
    begin with a dash.  What argparse does with any other word (the help
    flags it adds on its own, abbreviated or [=]-joined options, a bare
    double dash, negative numbers) is left to the platform. *)
Module argparse.

Record Action : Type := {
  option_strings : list string;
  dest : string;
  default_value : option string;
  required : bool;
  help : string
}.

Record ArgumentParser : Type := {
  description : string;
  actions : list Action
}.

Abbreviation Namespace := (gmap string string).

Definition starts_with_dash (w : string) : bool :=
  match w with String "-" _ => true | _ => false end.

Fixpoint lstrip_dashes (w : string) : string :=
  match w with
  | String "-" r => lstrip_dashes r
  | _ => w
  end.

Fixpoint dashes_to_underscores (w : string) : string :=
  match w with
  | EmptyString => EmptyString
  | String c r => String (if Ascii.eqb c "-" then "_"%char else c) (dashes_to_underscores r)
  end.

Definition is_long (w : string) : bool :=
  match w with String "-" (String "-" _) => true | _ => false end.

(** The destination of an optional argument: its first long option
    string, or else its first option string, without the leading dashes
    and with the inner ones turned into underscores. *)
Definition optional_dest (flags : list string) : string :=
  let chosen := match List.find is_long flags with
                | Some f => f
                | None => List.hd "" flags
                end in
  dashes_to_underscores (lstrip_dashes chosen).

(** [argparse.ArgumentParser(description=...)] *)
Definition new (description : string) : ArgumentParser :=
  {| description := description; actions := [] |}.

(** [parser.add_argument(name_or_flags..., default=..., help=...)]: one
    name without a dash declares a required positional argument,
    option strings declare an optional one. *)
Definition add_argument (parser : ArgumentParser) (name_or_flags : list string)
    (default : option string) (help : string) : ArgumentParser :=
  let action :=
    match name_or_flags with
    | [name] =>
        if starts_with_dash name then
          {| option_strings := [name]; dest := optional_dest [name];
             default_value := default; required := false; help := help |}
        else
          {| option_strings := []; dest := name;
             default_value := default; required := true; help := help |}
    | flags =>
        {| option_strings := flags; dest := optional_dest flags;
           default_value := default; required := false; help := help |}
    end in
  {| description := description parser; actions := actions parser ++ [action] |}.

Definition is_positional (a : Action) : bool :=
  match option_strings a with [] => true | _ => false end.

Definition positionals (parser : ArgumentParser) : list Action :=
  List.filter is_positional (actions parser).

Definition optionals (parser : ArgumentParser) : list Action :=
  List.filter (fun a => negb (is_positional a)) (actions parser).

Definition find_option (parser : ArgumentParser) (w : string) : option Action :=
  List.find (fun a => bool_decide (w ∈ option_strings a)) (optionals parser).

(** The namespace before any word is read: every default that is set. *)
Definition defaults (parser : ArgumentParser) : Namespace :=
  fold_left (fun ns a => match default_value a with
                         | Some v => <[dest a := v]> ns
                         | None => ns
                         end)
            (actions parser) ∅.

(** The words this model reads itself. *)
Definition plain_word (parser : ArgumentParser) (w : string) : bool :=
  negb (starts_with_dash w) || bool_decide (is_Some (find_option parser w)).

(** Reading the words from left to right.  An option string takes the
    next word as its value, and it is an error when there is none or when
    it is an option string itself; another word goes to the next
    positional argument still unfilled, or is left over.  At the end a
    positional argument left unfilled or a word left over is an error.
    An error ends the process with status 2. *)
Fixpoint consume (parser : ArgumentParser) (argv : list string)
    (unfilled : list Action) (left_over : bool) (ns : Namespace) : Namespace + Z :=
  match argv with
  | [] =>
      match unfilled with
      | [] => if left_over then inr 2 else inl ns
      | _ :: _ => inr 2
      end
  | w :: rest =>
      match find_option parser w with
      | Some a =>
          match rest with
          | v :: rest' =>
              if bool_decide (is_Some (find_option parser v)) then inr 2
              else consume parser rest' unfilled left_over (<[dest a := v]> ns)
          | [] => inr 2
          end
      | None =>
          match unfilled with
          | a :: unfilled' =>
              consume parser rest unfilled' left_over (<[dest a := w]> ns)
          | [] => consume parser rest [] true ns
          end
      end
  end.

Definition parse_plain (parser : ArgumentParser) (argv : list string) : Namespace + Z :=
  consume parser argv (positionals parser) false (defaults parser).

End argparse.

(** ** The outside world

    The decoders and [repr] are functions of their argument.  The file
    system and the remote services answer as a function of the request and
    of what the program has done so far. *)
Inductive encoding : Type := UTF8 | Latin1.

Record Platform : Type := {
  (* str.lower() of a string with non-ASCII characters *)
  unicode_lower : string -> string;
  (* what parser.parse_args(argv) prints and returns, or the status it exits
     with, for a command line with words outside the modelled ones *)
  argparse_other : argparse.ArgumentParser -> list string ->
                   list string * (argparse.Namespace + Z);
  (* json.loads(text) *)
  json_loads : string -> exn + pyval;
  (* yaml.safe_load(text) *)
  yaml_safe_load : string -> exn + pyval;
  (* repr of floats, lists and dictionaries *)
  py_repr : pyval -> string;
  (* Path(p).exists(): the answer, or the OSError that os.stat raises and
     pathlib lets through (a name too long, a directory that may not be
     searched) *)
  path_exists : history -> string -> exn + bool;
  (* open(p, 'r', encoding=enc) and reading the whole file *)
  read_text : history -> string -> encoding -> exn + string;
  (* the text of each page of PyPDF2.PdfReader(open(p, 'rb')) *)
  pdf_pages : history -> string -> exn + list string;
  (* the text of each paragraph of docx.Document(p) *)
  docx_paragraphs : history -> string -> exn + list string;
  (* writing the frame with pandas and openpyxl; None when it succeeds *)
  excel_write : history -> string -> list pydict -> option exn;
  (* client.chat.completions.create(...).choices[0].message.content *)
  openai_create :
    history -> pyval -> pyval -> list (string * string) -> float -> exn + string;
  (* genai.GenerativeModel(model): the exception the constructor raises, if
     any (it takes the name of a model, and raises TypeError on a value it
     cannot treat as one) *)
  generative_model : pyval -> option exn;
  (* model.generate_content(prompt).text *)
  gemini_generate : history -> option pyval -> pyval -> string -> exn + string
}.

(** ** The monad *)

Definition M (A : Type) : Type := state -> outcome A * state.

#[global] Instance M_ret : MRet M := fun A a s => (Return a, s).

#[global] Instance M_bind : MBind M := fun A B f m s =>
  match m s with
  | (Return a, s') => f a s'
  | (Raise e, s') => (Raise e, s')
  | (SystemExit c, s') => (SystemExit c, s')
  end.

Definition raise {A} (e : exn) : M A := fun s => (Raise e, s).

(** [sys.exit(code)] *)
Definition sys_exit {A} (code : Z) : M A := fun s => (SystemExit code, s).

Definition get_state : M state := fun s => (Return s, s).

Definition emit (ev : event) : M unit :=
  fun s => (Return tt, set_log (fun l => l ++ [ev]) s).

(** [print(line)] *)
Definition print (line : string) : M unit := emit (EvPrint line).

(** The answer of an oracle that may raise. *)
Definition lift {A} (r : exn + A) : M A :=
  match r with inl e => raise e | inr a => mret a end.

(** [try: body  except c1 as e: h1 e  except c2 as e: h2 e ...]: the first
    clause whose class the exception is an instance of handles it; with no
    such clause, and for [SystemExit], the outcome of the body stands. *)
Definition try_except {A} (body : M A)
    (handlers : list (exc_class * (exn -> M A))) : M A :=
  fun s =>
    match body s with
    | (Raise e, s') =>
        match List.find (fun h => isinstance e (fst h)) handlers with
        | Some h => snd h e s'
        | None => (Raise e, s')
        end
    | r => r
    end.

(** Objects. *)
Definition alloc (c : pyclass) : M loc := fun s =>
  let l := fresh (dom (heap s)) in
  (Return l, set_heap (insert l (Instance_ c ∅)) s).

Definition class_of (self : loc) : M pyclass := fun s =>
  match heap s !! self with
  | Some i => (Return (inst_class i), s)
  | None => (Raise (Exn AttributeError "no such object"), s)
  end.

(** [self.name = a] *)
Definition setattr (self : loc) (name : string) (a : attr) : M unit := fun s =>
  (Return tt,
   set_heap (alter (fun i => Instance_ (inst_class i) (<[name := a]> (inst_attrs i))) self) s).

(** [self.name] *)
Definition getattr (self : loc) (name : string) : M attr := fun s =>
  match heap s !! self ≫= fun i => inst_attrs i !! name with
  | Some a => (Return a, s)
  | None => (Raise (Exn AttributeError ("object has no attribute " +:+ name)), s)
  end.

(** [s.lower()] *)
Definition lower (P : Platform) (s : string) : string :=
  if is_ascii_string s then lower_ascii s else unicode_lower P s.

(** [str(v)], which is also what an f-string writes for [{v}]. *)
Definition py_str (P : Platform) (v : pyval) : string :=
  match v with
  | PNone => "None"
  | PBool true => "True"
  | PBool false => "False"
  | PInt n => fmt_int n
  | PStr s => s
  | _ => py_repr P v
  end.

(** The answer of the outside world to a request made now. *)
Definition ask {A} (f : history -> exn + A) : M A :=
  fun s => lift (f (log s)) s.

Definition quoted (s : string) : string := dquote +:+ s +:+ dquote.

(** ** pathlib

    [Path(p)] for a POSIX path: the components between slashes, without the
    empty ones and the single dots. *)
Fixpoint split_slash (s : string) (cur : string) : list string :=
  match s with
  | EmptyString => [cur]
  | String c r =>
      if Ascii.eqb c "/" then cur :: split_slash r ""
      else split_slash r (cur +:+ String c "")
  end.

Definition path_parts (p : string) : list string :=
  List.filter (fun c => negb (String.eqb c "") && negb (String.eqb c "."))
              (split_slash p "").

(** [Path(p).name] *)
Definition path_name (p : string) : string := List.last (path_parts p) "".

(** [Path(p).suffix]: the last dot of the name and what follows it, unless
    that dot is the first or the last character of the name. *)
Definition path_suffix (p : string) : string :=
  let name := path_name p in
  let i := rfind name "." in
  if (0 <? i) && (i <? Z.of_nat (String.length name) - 1)
  then slice_from name i else "".

(** [str(Path(p))] *)
Definition path_root (p : string) : string :=
  match p with
  | String "/" (String "/" (String "/" _)) => "/"
  | String "/" (String "/" _) => "//"
  | String "/" _ => "/"
  | _ => ""
  end.

Definition path_str (p : string) : string :=
  let s := path_root p +:+ join "/" (path_parts p) in
  if String.eqb s "" then "." else s.

(** * src/extract_text.py *)
Module extract_text.
Section with_platform.
Variable P : Platform.

Definition extract_text_from_pdf (file_path : string) : M string :=
  st ← get_state;
  if negb (PDF_AVAILABLE st) then
    raise (Exn ImportError
      "PyPDF2 is required to read PDF files. Install with: pip install PyPDF2")
  else
    try_except
      (pages ← ask (fun h => pdf_pages P h file_path);
       mret (fold_left (fun text_content page => text_content +:+ (page +:+ newline))
                       pages ""))
      [(Exception, fun e =>
          raise (Exn Exception ("Error reading PDF file: " +:+ exn_msg e)))].

Definition extract_text_from_docx (file_path : string) : M string :=
  st ← get_state;
  if negb (DOCX_AVAILABLE st) then
    raise (Exn ImportError
      "python-docx is required to read DOCX files. Install with: pip install python-docx")
  else
    try_except
      (paragraphs ← ask (fun h => docx_paragraphs P h file_path);
       mret (fold_left (fun text_content par => text_content +:+ (par +:+ newline))
                       paragraphs ""))
      [(Exception, fun e =>
          raise (Exn Exception ("Error reading DOCX file: " +:+ exn_msg e)))].

Definition extract_text_from_txt (file_path : string) : M string :=
  try_except
    (ask (fun h => read_text P h file_path UTF8))
    [(UnicodeDecodeError, fun _ =>
        (* Try with different encoding if UTF-8 fails *)
        try_except
          (ask (fun h => read_text P h file_path Latin1))
          [(Exception, fun e =>
              raise (Exn Exception ("Error reading TXT file: " +:+ exn_msg e)))]);
     (Exception, fun e =>
        raise (Exn Exception ("Error reading TXT file: " +:+ exn_msg e)))].

Definition extract_text_from_file (file_path : string) : M string :=
  let extension := lower P (path_suffix file_path) in
  if String.eqb extension ".pdf" then extract_text_from_pdf file_path
  else if String.eqb extension ".docx" then extract_text_from_docx file_path
  else if String.eqb extension ".txt" then extract_text_from_txt file_path
  else raise (Exn ValueError
         ("Unsupported file format: " +:+ extension
          +:+ ". Supported formats: .pdf, .docx, .txt")).
End with_platform.
End extract_text.

(** * src/ai_engines/openai_engine.py *)
Module OpenAIEngine.
Section with_platform.
Variable P : Platform.

Definition __init__ (self : loc) (api_key model : pyval) : M unit :=
  st ← get_state;
  if negb (OPENAI_AVAILABLE st) then
    raise (Exn ImportError
      "OpenAI package is required. Install with: pip install openai")
  else if negb (truthy api_key) then
    raise (Exn ValueError "OpenAI API key is required")
  else
    setattr self "client" (AOpenAIClient api_key);;
    setattr self "model" (AVal model).

(** [OpenAIEngine(api_key=..., model=...)] *)
Definition new (api_key model : pyval) : M loc :=
  self ← alloc COpenAIEngine;
  __init__ self api_key model;;
  mret self.

Definition _build_prompt (requirement_text : string) : string :=
"
Please analyze the following software requirement document and generate comprehensive manual test cases.

REQUIREMENT DOCUMENT:
" +:+ requirement_text +:+ "

INSTRUCTIONS:
1. Identify all features and functionalities described in the requirements
2. For each feature, generate relevant test cases
3. Include positive, negative, and edge case scenarios
4. Format the output as a JSON array where each test case has:
   - feature: The feature/functionality being tested
   - test_id: A unique identifier (e.g., TC001, TC002, etc.)
   - title: A clear, descriptive test case title
   - steps: An array of step-by-step instructions
   - expected_result: The expected outcome
   - priority: Test priority (High, Medium, or Low)

EXAMPLE FORMAT:
[
    {
        " +:+ quoted "feature" +:+ ": " +:+ quoted "User Login" +:+ ",
        " +:+ quoted "test_id" +:+ ": " +:+ quoted "TC001" +:+ ",
        " +:+ quoted "title" +:+ ": " +:+ quoted "Verify successful login with valid credentials" +:+ ",
        " +:+ quoted "steps" +:+ ": [
            " +:+ quoted "Navigate to login page" +:+ ",
            " +:+ quoted "Enter valid username" +:+ ",
            " +:+ quoted "Enter valid password" +:+ ",
            " +:+ quoted "Click Login button" +:+ "
        ],
        " +:+ quoted "expected_result" +:+ ": " +:+ quoted "User successfully logs in and is redirected to dashboard" +:+ ",
        " +:+ quoted "priority" +:+ ": " +:+ quoted "High" +:+ "
    }
]

Please provide ONLY the JSON array response, no additional text.
".

Definition _parse_response (response_content : string) : M (list pydict) :=
  try_except
    ((* Try to find JSON content in the response *)
     let start_idx := find response_content "[" in
     let end_idx := rfind response_content "]" + 1 in
     if (start_idx =? -1) || (end_idx =? 0) then
       raise (Exn ValueError "No JSON array found in response")
     else
       let json_content := slice response_content start_idx end_idx in
       testcases ← lift (json_loads P json_content);
       (* Validate the structure *)
       match testcases with
       | PList testcases =>
           mret (fold_left
             (fun validated_testcases '(i, tc) =>
                match tc with
                | PDict tc =>
                    (* Ensure required fields exist *)
                    let validated_tc : pydict := list_to_map [
                      ("feature", dict_get tc "feature" (PStr ("Feature " +:+ fmt_int (i + 1))));
                      ("test_id", dict_get tc "test_id" (PStr ("TC" +:+ fmt_03d (i + 1))));
                      ("title", dict_get tc "title" (PStr ("Test Case " +:+ fmt_int (i + 1))));
                      ("steps", dict_get tc "steps" (PList []));
                      ("expected_result", dict_get tc "expected_result" (PStr ""));
                      ("priority", dict_get tc "priority" (PStr "Medium")) ] in
                    validated_testcases ++ [validated_tc]
                | _ => validated_testcases
                end)
             (enumerate testcases) [])
       | _ => raise (Exn ValueError "Response is not a list of test cases")
       end)
    [(JSONDecodeError, fun e =>
        raise (Exn Exception ("Failed to parse JSON response: " +:+ exn_msg e)));
     (Exception, fun e =>
        raise (Exn Exception ("Error parsing OpenAI response: " +:+ exn_msg e)))].

(** [self.client.chat.completions.create(model=..., messages=...,
    temperature=...)] and the content of its first choice. *)
Definition chat_completions_create (client model : attr)
    (messages : list (string * string)) (temperature : float) : M string :=
  match client, model with
  | AOpenAIClient api_key, AVal model =>
      emit (EvOpenAICreate api_key model messages temperature);;
      ask (fun h => openai_create P h api_key model messages temperature)
  | _, _ => raise (Exn AttributeError "object has no attribute chat")
  end.

(** The [messages] argument of the request. *)
Definition messages (prompt : string) : list (string * string) :=
  [("system", "You are an expert software testing analyst. Generate comprehensive manual test cases based on software requirements.");
   ("user", prompt)].

Definition generate_testcases (self : loc) (requirement_text : string)
    : M (list pydict) :=
  let prompt := _build_prompt requirement_text in
  try_except
    (client ← getattr self "client";
     model ← getattr self "model";
     content ← chat_completions_create client model (messages prompt) 0.3%float;
     _parse_response content)
    [(Exception, fun e =>
        raise (Exn Exception ("Error calling OpenAI API: " +:+ exn_msg e)))].
End with_platform.
End OpenAIEngine.

(** * src/ai_engines/gemini_engine.py *)
Module GeminiEngine.
Section with_platform.
Variable P : Platform.

(** [genai.configure(api_key=...)] *)
Definition genai_configure (api_key : pyval) : M unit :=
  fun s => (Return tt, set_genai_api_key (Some api_key) s).

(** [genai.GenerativeModel(model)] *)
Definition GenerativeModel (model : pyval) : M attr :=
  match generative_model P model with
  | Some e => raise e
  | None => mret (AGenerativeModel model)
  end.

Definition __init__ (self : loc) (api_key model : pyval) : M unit :=
  st ← get_state;
  if negb (GEMINI_AVAILABLE st) then
    raise (Exn ImportError
      "Google Generative AI package is required. Install with: pip install google-generativeai")
  else if negb (truthy api_key) then
    raise (Exn ValueError "Gemini API key is required")
  else
    genai_configure api_key;;
    generative ← GenerativeModel model;
    setattr self "model" generative.

(** [GeminiEngine(api_key=..., model=...)] *)
Definition new (api_key model : pyval) : M loc :=
  self ← alloc CGeminiEngine;
  __init__ self api_key model;;
  mret self.

Definition _build_prompt (requirement_text : string) : string :=
"
Please analyze the following software requirement document and generate comprehensive manual test cases.

REQUIREMENT DOCUMENT:
" +:+ requirement_text +:+ "

INSTRUCTIONS:
1. Identify all features and functionalities described in the requirements
2. For each feature, generate relevant test cases
3. Include positive, negative, and edge case scenarios
4. Format the output as a JSON array where each test case has:
   - feature: The feature/functionality being tested
   - test_id: A unique identifier (e.g., TC001, TC002, etc.)
   - title: A clear, descriptive test case title
   - steps: An array of step-by-step instructions
   - expected_result: The expected outcome
   - priority: Test priority (High, Medium, or Low)

EXAMPLE FORMAT:
[
    {
        " +:+ quoted "feature" +:+ ": " +:+ quoted "User Login" +:+ ",
        " +:+ quoted "test_id" +:+ ": " +:+ quoted "TC001" +:+ ",
        " +:+ quoted "title" +:+ ": " +:+ quoted "Verify successful login with valid credentials" +:+ ",
        " +:+ quoted "steps" +:+ ": [
            " +:+ quoted "Navigate to login page" +:+ ",
            " +:+ quoted "Enter valid username" +:+ ",
            " +:+ quoted "Enter valid password" +:+ ",
            " +:+ quoted "Click Login button" +:+ "
        ],
        " +:+ quoted "expected_result" +:+ ": " +:+ quoted "User successfully logs in and is redirected to dashboard" +:+ ",
        " +:+ quoted "priority" +:+ ": " +:+ quoted "High" +:+ "
    }
]

Please provide ONLY the JSON array response, no additional text.
".

Definition _parse_response (response_content : string) : M (list pydict) :=
  try_except
    ((* Try to find JSON content in the response *)
     let start_idx := find response_content "[" in
     let end_idx := rfind response_content "]" + 1 in
     if (start_idx =? -1) || (end_idx =? 0) then
       raise (Exn ValueError "No JSON array found in response")
     else
       let json_content := slice response_content start_idx end_idx in
       testcases ← lift (json_loads P json_content);
       (* Validate the structure *)
       match testcases with
       | PList testcases =>
           mret (fold_left
             (fun validated_testcases '(i, tc) =>
                match tc with
                | PDict tc =>
                    (* Ensure required fields exist *)
                    let validated_tc : pydict := list_to_map [
                      ("feature", dict_get tc "feature" (PStr ("Feature " +:+ fmt_int (i + 1))));
                      ("test_id", dict_get tc "test_id" (PStr ("TC" +:+ fmt_03d (i + 1))));
                      ("title", dict_get tc "title" (PStr ("Test Case " +:+ fmt_int (i + 1))));
                      ("steps", dict_get tc "steps" (PList []));
                      ("expected_result", dict_get tc "expected_result" (PStr ""));
                      ("priority", dict_get tc "priority" (PStr "Medium")) ] in
                    validated_testcases ++ [validated_tc]
                | _ => validated_testcases
                end)
             (enumerate testcases) [])
       | _ => raise (Exn ValueError "Response is not a list of test cases")
       end)
    [(JSONDecodeError, fun e =>
        raise (Exn Exception ("Failed to parse JSON response: " +:+ exn_msg e)));
     (Exception, fun e =>
        raise (Exn Exception ("Error parsing Gemini response: " +:+ exn_msg e)))].

(** [self.model.generate_content(prompt)] and its [text]. *)
Definition generate_content (model : attr) (prompt : string) : M string :=
  match model with
  | AGenerativeModel name =>
      emit (EvGeminiGenerate name prompt);;
      st ← get_state;
      let key := genai_api_key st in
      ask (fun h => gemini_generate P h key name prompt)
  | _ => raise (Exn AttributeError "object has no attribute generate_content")
  end.

Definition generate_testcases (self : loc) (requirement_text : string)
    : M (list pydict) :=
  let prompt := _build_prompt requirement_text in
  try_except
    (model ← getattr self "model";
     text ← generate_content model prompt;
     _parse_response text)
    [(Exception, fun e =>
        raise (Exn Exception ("Error calling Gemini API: " +:+ exn_msg e)))].
End with_platform.
End GeminiEngine.

(** * src/export_excel.py *)
Module export_excel.
Section with_platform.
Variable P : Platform.

(** Convert steps list to numbered string *)
Definition steps_text (tc : pydict) : string :=
  match dict_get tc "steps" PNone with
  | PList steps =>
      join newline
        (map (fun '(i, step) => fmt_int (i + 1) +:+ ". " +:+ py_str P step)
             (enumerate steps))
  | _ => py_str P (dict_get tc "steps" (PStr ""))
  end.

Definition make_row (tc : pydict) : pydict :=
  list_to_map [
    ("Test ID", dict_get tc "test_id" (PStr ""));
    ("Feature", dict_get tc "feature" (PStr ""));
    ("Test Case Title", dict_get tc "title" (PStr ""));
    ("Test Steps", PStr (steps_text tc));
    ("Expected Result", dict_get tc "expected_result" (PStr ""));
    ("Priority", dict_get tc "priority" (PStr "Medium"));
    ("Status", PStr "Not Executed");
    ("Actual Result", PStr "");
    ("Notes", PStr "") ].

(** Prepare data for DataFrame *)
Definition build_rows (testcases : list pydict) : list pydict :=
  fold_left (fun rows tc => rows ++ [make_row tc]) testcases [].

(** Building the frame, creating the parent directory, writing the sheet
    and formatting it are the platform's: the attempt is logged with the
    rows, and it succeeds or raises. *)
Definition write_excel (output_path : string) (rows : list pydict) : M unit :=
  emit (EvExcelWrite output_path rows);;
  st ← get_state;
  match excel_write P (log st) output_path rows with
  | Some e => raise e
  | None => mret tt
  end.

Definition save_testcases_to_excel (testcases : list pydict)
    (output_path : string) : M unit :=
  match testcases with
  | [] => raise (Exn ValueError "No test cases to export")
  | _ :: _ =>
      let rows := build_rows testcases in
      let output_path := path_str output_path in
      write_excel output_path rows;;
      print ("✅ Excel file saved successfully: " +:+ output_path)
  end.

(** Auto-adjust column widths: the loop over the cells of one column of
    the sheet, given by the values of its cells, and the width the column
    is set to. *)
Definition max_length (column : list pyval) : Z :=
  fold_left
    (fun max_length value =>
       if py_len (py_str P value) >? max_length then py_len (py_str P value)
       else max_length)
    column 0.

(** Set reasonable limits for column width *)
Definition adjusted_width (column : list pyval) : Z :=
  Z.min (max_length column + 2) 50.

(** Create sample test cases for testing purposes. *)
Definition create_sample_testcases : list pydict :=
  [ list_to_map [
      ("feature", PStr "User Authentication");
      ("test_id", PStr "TC001");
      ("title", PStr "Verify successful login with valid credentials");
      ("steps", PList [
         PStr "Navigate to login page";
         PStr "Enter valid username";
         PStr "Enter valid password";
         PStr "Click Login button" ]);
      ("expected_result",
       PStr "User successfully logs in and is redirected to dashboard");
      ("priority", PStr "High") ];
    list_to_map [
      ("feature", PStr "User Authentication");
      ("test_id", PStr "TC002");
      ("title", PStr "Verify login failure with invalid credentials");
      ("steps", PList [
         PStr "Navigate to login page";
         PStr "Enter invalid username";
         PStr "Enter invalid password";
         PStr "Click Login button" ]);
      ("expected_result",
       PStr "Error message displayed and user remains on login page");
      ("priority", PStr "High") ];
    list_to_map [
      ("feature", PStr "User Profile");
      ("test_id", PStr "TC003");
      ("title", PStr "Verify user can update profile information");
      ("steps", PList [
         PStr "Login with valid credentials";
         PStr "Navigate to profile page";
         PStr "Update profile information";
         PStr "Click Save button" ]);
      ("expected_result",
       PStr "Profile information is updated successfully with confirmation message");
      ("priority", PStr "Medium") ] ].

(** The module run as a script: test the export function with sample data. *)
Definition __main__ : M unit :=
  let sample_testcases := create_sample_testcases in
  save_testcases_to_excel sample_testcases "sample_testcases.xlsx";;
  print "Sample Excel file created for testing purposes.".
End with_platform.
End export_excel.

(** * src/main.py *)
Module main.
Section with_platform.
Variable P : Platform.

(** [parser.parse_args()] on the words after the program name. *)
Definition parse_args (parser : argparse.ArgumentParser) (argv : list string)
    : M argparse.Namespace :=
  let exit_or_return (r : argparse.Namespace + Z) : M argparse.Namespace :=
    match r with inl ns => mret ns | inr code => sys_exit code end in
  if forallb (argparse.plain_word parser) argv then
    exit_or_return (argparse.parse_plain parser argv)
  else
    let '(printed, r) := argparse_other P parser argv in
    fold_left (fun m line => m;; print line) printed (mret tt);;
    exit_or_return r.

(** [obj.get(key, default)] on a value that may not be a dictionary. *)
Definition py_get (obj : pyval) (key : string) (dflt : pyval) : M pyval :=
  match obj with
  | PDict d => mret (dict_get d key dflt)
  | _ => raise (Exn AttributeError
                  ("'" +:+ type_name obj +:+ "' object has no attribute 'get'"))
  end.

(** [obj.lower()] on a value that may not be a string. *)
Definition py_lower (obj : pyval) : M string :=
  match obj with
  | PStr s => mret (lower P s)
  | _ => raise (Exn AttributeError
                  ("'" +:+ type_name obj +:+ "' object has no attribute 'lower'"))
  end.

Definition load_config (config_path : string) : M pyval :=
  try_except
    (text ← ask (fun h => read_text P h config_path UTF8);
     lift (yaml_safe_load P text))
    [(FileNotFoundError, fun _ =>
        print ("❌ Configuration file '" +:+ config_path +:+ "' not found.");;
        sys_exit 1);
     (YAMLError, fun e =>
        print ("❌ Error parsing configuration file: " +:+ exn_msg e);;
        sys_exit 1)].

Definition get_ai_engine (config : pyval) : M loc :=
  v ← py_get config "ai_engine" (PStr "openai");
  engine_type ← py_lower v;
  if String.eqb engine_type "openai" then
    openai_config ← py_get config "openai" (PDict ∅);
    api_key ← py_get openai_config "api_key" PNone;
    model ← py_get openai_config "model" (PStr "gpt-4");
    OpenAIEngine.new api_key model
  else if String.eqb engine_type "gemini" then
    gemini_config ← py_get config "gemini" (PDict ∅);
    api_key ← py_get gemini_config "api_key" PNone;
    model ← py_get gemini_config "model" (PStr "gemini-pro");
    GeminiEngine.new P api_key model
  else
    print ("❌ Unsupported AI engine: " +:+ engine_type);;
    sys_exit 1.

(** [ai_engine.generate_testcases(text)]: the method of the object's class. *)
Definition generate_testcases (ai_engine : loc) (requirement_text : string)
    : M (list pydict) :=
  c ← class_of ai_engine;
  match c with
  | COpenAIEngine => OpenAIEngine.generate_testcases P ai_engine requirement_text
  | CGeminiEngine => GeminiEngine.generate_testcases P ai_engine requirement_text
  end.

Definition parser : argparse.ArgumentParser :=
  let parser := argparse.new "Generate test cases from requirement documents using AI" in
  let parser := argparse.add_argument parser ["input_file"] None
                  "Path to the requirement document (PDF, DOCX, or TXT)" in
  let parser := argparse.add_argument parser ["-o"; "--output"] (Some "testcases.xlsx")
                  "Output Excel file path (default: testcases.xlsx)" in
  let parser := argparse.add_argument parser ["-c"; "--config"] (Some "config.yaml")
                  "Configuration file path (default: config.yaml)" in
  parser.

(** [Path(p).exists()] *)
Definition exists_ (p : string) : M bool :=
  ask (fun h => path_exists P h p).

(** The body of the [try] statement of [main]. *)
Definition pipeline (args : argparse.Namespace) : M unit :=
  (* Extract text from the document *)
  text_content ← extract_text.extract_text_from_file P (args !!! "input_file");
  if negb (truthy (PStr (strip text_content))) then
    print "❌ No text content found in the document.";;
    sys_exit 1
  else
    print ("✅ Extracted " +:+ fmt_int (py_len text_content)
           +:+ " characters from document");;
    (* Load configuration and initialize AI engine *)
    config ← load_config (args !!! "config");
    ai_engine ← get_ai_engine config;
    engine_name ← py_get config "ai_engine" (PStr "openai");
    print ("🤖 Using AI engine: " +:+ py_str P engine_name);;
    (* Generate test cases using AI *)
    print "🧪 Generating test cases...";;
    testcases ← generate_testcases ai_engine text_content;
    if negb (truthy (PList (PDict <$> testcases))) then
      print "❌ No test cases were generated.";;
      sys_exit 1
    else
      print ("✅ Generated " +:+ fmt_int (Z.of_nat (length testcases))
             +:+ " test cases");;
      (* Export to Excel *)
      print ("💾 Saving test cases to: " +:+ args !!! "output");;
      export_excel.save_testcases_to_excel P testcases (args !!! "output");;
      print "🎉 Test case generation completed successfully!".

Definition main (argv : list string) : M unit :=
  args ← parse_args parser argv;
  (* Validate input file *)
  found ← exists_ (args !!! "input_file");
  if negb found then
    print ("❌ Input file '" +:+ args !!! "input_file" +:+ "' not found.");;
    sys_exit 1
  else
    print ("📖 Reading requirement document: " +:+ args !!! "input_file");;
    try_except
      (pipeline args)
      [(Exception, fun e =>
          print ("❌ Error during processing: " +:+ exn_msg e);;
          sys_exit 1)].
End with_platform.
End main.

(** * A test platform

    A small platform to run the program on: a decoder for the JSON texts
    made of null, true, false, integers, strings with the one-letter
    escapes, arrays and objects (used for the configuration file as well,
    such a text being a YAML flow document too), three files, and two
    services that answer with the text they are given. *)
Module demo.

Definition is_ws (c : ascii) : bool :=
  let n := nat_of_ascii c in
  ((n =? 32) || (n =? 9) || (n =? 10) || (n =? 13))%nat.

Fixpoint skip_ws (s : string) : string :=
  match s with
  | String c r => if is_ws c then skip_ws r else s
  | EmptyString => s
  end.

Definition is_quote (c : ascii) : bool := (nat_of_ascii c =? 34)%nat.

Definition unescape (c : ascii) : option ascii :=
  if is_quote c then Some c
  else match c with
       | "\"%char | "/"%char => Some c
       | "n"%char => Some (ascii_of_nat 10)
       | "t"%char => Some (ascii_of_nat 9)
       | "r"%char => Some (ascii_of_nat 13)
       | "b"%char => Some (ascii_of_nat 8)
       | "f"%char => Some (ascii_of_nat 12)
       | _ => None
       end.

(** The characters of a string after its opening quote, and what
    follows the closing one. *)
Fixpoint string_body (s : string) : option (string * string) :=
  match s with
  | EmptyString => None
  | String c r =>
      if is_quote c then Some ("", r)
      else if Ascii.eqb c "\" then
        match r with
        | String d r' =>
            match unescape d, string_body r' with
            | Some d', Some (body, rest) => Some (String d' body, rest)
            | _, _ => None
            end
        | EmptyString => None
        end
      else if (nat_of_ascii c <? 32)%nat then None
      else match string_body r with
           | Some (body, rest) => Some (String c body, rest)
           | None => None
           end
  end.

Definition digit (c : ascii) : option Z :=
  let n := nat_of_ascii c in
  if ((48 <=? n) && (n <=? 57))%nat then Some (Z.of_nat n - 48) else None.

Fixpoint digits (s : string) (acc : Z) : Z * string :=
  match s with
  | String c r =>
      match digit c with
      | Some d => digits r (10 * acc + d)
      | None => (acc, s)
      end
  | EmptyString => (acc, s)
  end.

Definition number (s : string) : option (Z * string) :=
  match s with
  | String c r =>
      match digit c with
      | Some 0 => Some (0, r)
      | Some d => Some (digits r d)
      | None => None
      end
  | EmptyString => None
  end.

Definition after_number (v : Z) (rest : string) : option (pyval * string) :=
  match rest with
  | String "."%char _ | String "e"%char _ | String "E"%char _ => None
  | _ => Some (PInt v, rest)
  end.

Fixpoint value (fuel : nat) (s : string) : option (pyval * string) :=
  match fuel with
  | O => None
  | S fuel =>
      match skip_ws s with
      | String "n" (String "u" (String "l" (String "l" r))) => Some (PNone, r)
      | String "t" (String "r" (String "u" (String "e" r))) => Some (PBool true, r)
      | String "f" (String "a" (String "l" (String "s" (String "e" r)))) =>
          Some (PBool false, r)
      | String "[" r =>
          match skip_ws r with
          | String "]" r' => Some (PList [], r')
          | _ => elements fuel r []
          end
      | String "{" r =>
          match skip_ws r with
          | String "}" r' => Some (PDict ∅, r')
          | _ => members fuel r ∅
          end
      | String "-" r =>
          match number r with
          | Some (v, rest) => after_number (- v) rest
          | None => None
          end
      | String c r =>
          if is_quote c then
            match string_body r with
            | Some (body, rest) => Some (PStr body, rest)
            | None => None
            end
          else
            match number (String c r) with
            | Some (v, rest) => after_number v rest
            | None => None
            end
      | EmptyString => None
      end
  end
with elements (fuel : nat) (s : string) (acc : list pyval) : option (pyval * string) :=
  match fuel with
  | O => None
  | S fuel =>
      match value fuel s with
      | Some (v, rest) =>
          match skip_ws rest with
          | String "," rest' => elements fuel rest' (acc ++ [v])
          | String "]" rest' => Some (PList (acc ++ [v]), rest')
          | _ => None
          end
      | None => None
      end
  end
with members (fuel : nat) (s : string) (acc : pydict) : option (pyval * string) :=
  match fuel with
  | O => None
  | S fuel =>
      match skip_ws s with
      | String c r =>
          if is_quote c then
            match string_body r with
            | Some (key, rest) =>
                match skip_ws rest with
                | String ":" rest' =>
                    match value fuel rest' with
                    | Some (v, rest'') =>
                        match skip_ws rest'' with
                        | String "," r3 => members fuel r3 (<[key := v]> acc)
                        | String "}" r3 => Some (PDict (<[key := v]> acc), r3)
                        | _ => None
                        end
                    | None => None
                    end
                | _ => None
                end
            | None => None
            end
          else None
      | EmptyString => None
      end
  end.

Definition decode (error : exc_class) (text : string) : exn + pyval :=
  match value (S (String.length text)) text with
  | Some (v, rest) =>
      match skip_ws rest with
      | EmptyString => inr v
      | _ => inl (Exn error "Extra data")
      end
  | None => inl (Exn error "Expecting value")
  end.

Definition requirement : string :=
  "The user logs in with a name and a password.".

Definition config_text : string :=
  "{" +:+ quoted "ai_engine" +:+ ": " +:+ quoted "OpenAI" +:+ ", "
  +:+ quoted "openai" +:+ ": {" +:+ quoted "api_key" +:+ ": " +:+ quoted "sk-test" +:+ "}}".

(** The answer of the service: an array around which the model talks,
    with a complete case, a stray number and a case with a title only. *)
Definition answer : string :=
  "Here you are: [{" +:+ quoted "feature" +:+ ": " +:+ quoted "Login" +:+ ", "
  +:+ quoted "test_id" +:+ ": " +:+ quoted "TC001" +:+ ", "
  +:+ quoted "title" +:+ ": " +:+ quoted "Valid login" +:+ ", "
  +:+ quoted "steps" +:+ ": [" +:+ quoted "Open the page" +:+ ", "
  +:+ quoted "Sign in" +:+ "], "
  +:+ quoted "expected_result" +:+ ": " +:+ quoted "Dashboard" +:+ ", "
  +:+ quoted "priority" +:+ ": " +:+ quoted "High" +:+ "}, 42, {"
  +:+ quoted "title" +:+ ": " +:+ quoted "Wrong password" +:+ "}] Good luck.".

Definition files (p : string) (enc : encoding) : exn + string :=
  if String.eqb p "req.txt" then inr requirement
  else if String.eqb p "SPEC.TXT" then inr requirement
  else if String.eqb p "config.yaml" then inr config_text
  else if String.eqb p "broken.yaml" then inr "{ai_engine"
  else if String.eqb p "legacy.txt" then
    match enc with
    | UTF8 => inl (Exn UnicodeDecodeError "invalid start byte")
    | Latin1 => inr requirement
    end
  else inl (Exn FileNotFoundError ("No such file or directory: " +:+ p)).

(** The constructor of the generative model: it looks for a slash in the
    name it is given and puts 'models/' before a name without one, so that
    it raises TypeError on a value that is no string, unless the search for
    the slash succeeds. *)
Definition generative_model_error (model : pyval) : option exn :=
  let concatenating (type : string) :=
    Some (Exn (OtherError "TypeError")
            ("can only concatenate str (not " +:+ quoted type +:+ ") to str")) in
  match model with
  | PStr _ => None
  | PList l =>
      if existsb (fun v => match v with PStr s => String.eqb s "/" | _ => false end) l
      then None else concatenating "list"
  | PDict d =>
      if bool_decide (is_Some (d !! "/")) then None else concatenating "dict"
  | _ =>
      Some (Exn (OtherError "TypeError")
              ("argument of type '" +:+ type_name model +:+ "' is not iterable"))
  end.

Definition platform : Platform := {|
  unicode_lower := fun s => s;
  argparse_other := fun _ _ => ([], inr 2);
  json_loads := decode JSONDecodeError;
  yaml_safe_load := decode YAMLError;
  py_repr := fun _ => "<object>";
  path_exists := fun _ p => match files p UTF8 with
                            | inl (Exn FileNotFoundError _) => inr false
                            | _ => inr true
                            end;
  read_text := fun _ => files;
  pdf_pages := fun _ _ => inl (Exn OSError "not a PDF file");
  docx_paragraphs := fun _ _ => inl (Exn OSError "not a DOCX file");
  excel_write := fun _ _ _ => None;
  openai_create := fun _ _ _ _ _ => inr answer;
  generative_model := generative_model_error;
  gemini_generate := fun _ _ _ _ => inr answer
|}.

(** A platform whose service is down. *)
Definition offline : Platform := {|
  unicode_lower := unicode_lower platform;
  argparse_other := argparse_other platform;
  json_loads := json_loads platform;
  yaml_safe_load := yaml_safe_load platform;
  py_repr := py_repr platform;
  path_exists := path_exists platform;
  read_text := read_text platform;
  pdf_pages := pdf_pages platform;
  docx_paragraphs := docx_paragraphs platform;
  excel_write := excel_write platform;
  openai_create := fun _ _ _ _ _ => inl (Exn (OtherError "APIConnectionError") "Connection error.");
  generative_model := generative_model platform;
  gemini_generate := fun _ _ _ _ => inl (Exn (OtherError "ServiceUnavailable") "503")
|}.

(** The arguments of a run on [req.txt] with the default paths. *)
Definition args : argparse.Namespace :=
{[ "input_file" := "req.txt"; "output" := "testcases.xlsx";
   "config" := "config.yaml" ]}.

(** The interpreter after the imports, with every package installed. *)
Definition start : state := {|
  PDF_AVAILABLE := true; DOCX_AVAILABLE := true;
  OPENAI_AVAILABLE := true; GEMINI_AVAILABLE := true;
  genai_api_key := None; heap := ∅; log := []
|}.

End demo.


(** * Further test data

    More documents, answers and platforms to run the program on. *)
Module scenarios.

(** What the array of [demo.answer] decodes to. *)
Definition parsed_answer : list pyval :=
  match json_loads demo.platform
          (slice demo.answer (find demo.answer "[") (rfind demo.answer "]" + 1)) with
  | inr (PList l) => l
  | _ => []
  end.

(** An answer whose only test case is complete. *)
Definition complete_answer : string :=
  "Result: [{" +:+ quoted "feature" +:+ ": " +:+ quoted "Search" +:+ ", "
  +:+ quoted "test_id" +:+ ": " +:+ quoted "TC010" +:+ ", "
  +:+ quoted "title" +:+ ": " +:+ quoted "Empty query" +:+ ", "
  +:+ quoted "steps" +:+ ": [" +:+ quoted "Press Enter" +:+ "], "
  +:+ quoted "expected_result" +:+ ": " +:+ quoted "A hint is shown" +:+ ", "
  +:+ quoted "priority" +:+ ": " +:+ quoted "Low" +:+ "}]".

Definition complete_testcases : list pydict :=
  [ list_to_map [
      ("feature", PStr "Search"); ("test_id", PStr "TC010");
      ("title", PStr "Empty query"); ("steps", PList [PStr "Press Enter"]);
      ("expected_result", PStr "A hint is shown"); ("priority", PStr "Low") ] ].

(** A platform that is [P] but for its two services, which answer [a]. *)
Definition with_answer (P : Platform) (a : exn + string) : Platform := {|
  unicode_lower := unicode_lower P;
  argparse_other := argparse_other P;
  json_loads := json_loads P;
  yaml_safe_load := yaml_safe_load P;
  py_repr := py_repr P;
  path_exists := path_exists P;
  read_text := read_text P;
  pdf_pages := pdf_pages P;
  docx_paragraphs := docx_paragraphs P;
  excel_write := excel_write P;
  openai_create := fun _ _ _ _ _ => a;
  generative_model := generative_model P;
  gemini_generate := fun _ _ _ _ => a
|}.

(** A platform that is [P] but for the file at [path], which exists and
    reads as [content] says. *)
Definition with_file (P : Platform) (path : string)
    (content : encoding -> exn + string) : Platform := {|
  unicode_lower := unicode_lower P;
  argparse_other := argparse_other P;
  json_loads := json_loads P;
  yaml_safe_load := yaml_safe_load P;
  py_repr := py_repr P;
  path_exists := fun h p => if String.eqb p path then inr true else path_exists P h p;
  read_text := fun h p enc => if String.eqb p path then content enc else read_text P h p enc;
  pdf_pages := pdf_pages P;
  docx_paragraphs := docx_paragraphs P;
  excel_write := excel_write P;
  openai_create := openai_create P;
  generative_model := generative_model P;
  gemini_generate := gemini_generate P
|}.

(** A platform that is [P] but for the PDF and the DOCX document at
    [path], which exist and have the pages and paragraphs given. *)
Definition with_document (P : Platform) (path : string)
    (pages paragraphs : exn + list string) : Platform := {|
  unicode_lower := unicode_lower P;
  argparse_other := argparse_other P;
  json_loads := json_loads P;
  yaml_safe_load := yaml_safe_load P;
  py_repr := py_repr P;
  path_exists := fun h p => if String.eqb p path then inr true else path_exists P h p;
  read_text := read_text P;
  pdf_pages := fun h p => if String.eqb p path then pages else pdf_pages P h p;
  docx_paragraphs := fun h p => if String.eqb p path then paragraphs else docx_paragraphs P h p;
  excel_write := excel_write P;
  openai_create := openai_create P;
  generative_model := generative_model P;
  gemini_generate := gemini_generate P
|}.

(** A platform that is [P] but for the path [path], on which
    [Path.exists] raises [e]. *)
Definition with_exists_error (P : Platform) (path : string) (e : exn) : Platform := {|
  unicode_lower := unicode_lower P;
  argparse_other := argparse_other P;
  json_loads := json_loads P;
  yaml_safe_load := yaml_safe_load P;
  py_repr := py_repr P;
  path_exists := fun h p => if String.eqb p path then inl e else path_exists P h p;
  read_text := read_text P;
  pdf_pages := pdf_pages P;
  docx_paragraphs := docx_paragraphs P;
  excel_write := excel_write P;
  openai_create := openai_create P;
  generative_model := generative_model P;
  gemini_generate := gemini_generate P
|}.

(** The state after the OpenAI engine of the test configuration is built. *)
Definition openai_built : state :=
  snd (OpenAIEngine.new (PStr "sk-test") (PStr "gpt-4") demo.start).

(** The state after a Gemini engine is built. *)
Definition gemini_built : state :=
  snd (GeminiEngine.new demo.platform (PStr "g-key") (PStr "gemini-pro") demo.start).

(** The test configuration, decoded. *)
Definition openai_section : pydict := {[ "api_key" := PStr "sk-test" ]}.

Definition config : pydict :=
  <["openai" := PDict openai_section]> {[ "ai_engine" := PStr "OpenAI" ]}.

(** A configuration for the Gemini engine. *)
Definition gemini_section : pydict := {[ "api_key" := PStr "g-key" ]}.

Definition gemini_config : pydict :=
  <["gemini" := PDict gemini_section]> {[ "ai_engine" := PStr "Gemini" ]}.

(** The same with an empty 'model:' entry, which decodes to None. *)
Definition gemini_section_without_model : pydict :=
  <["model" := PNone]> gemini_section.

Definition gemini_config_without_model : pydict :=
  <["gemini" := PDict gemini_section_without_model]> {[ "ai_engine" := PStr "Gemini" ]}.

Definition gemini_config_text : string :=
  "{" +:+ quoted "ai_engine" +:+ ": " +:+ quoted "Gemini" +:+ ", "
  +:+ quoted "gemini" +:+ ": {" +:+ quoted "api_key" +:+ ": " +:+ quoted "g-key" +:+ ", "
  +:+ quoted "model" +:+ ": null}}".

(** The test platform with another text in [config.yaml]. *)
Definition with_config (text : string) : Platform :=
  with_file demo.platform "config.yaml" (fun _ => inr text).

(** A configuration that names an engine there is none of. *)
Definition unsupported_config : string :=
  "{" +:+ quoted "ai_engine" +:+ ": " +:+ quoted "Claude" +:+ "}".

(** A text file with blanks and line ends only. *)
Definition blank : string := "  " +:+ newline +:+ " " +:+ newline.

End scenarios.
(** * Vocabulary of the statements *)

(** The fields of a validated test case. *)
Definition six_fields : gset string :=
  {[ "feature"; "test_id"; "title"; "steps"; "expected_result"; "priority" ]}.

(** [tc] has the six fields and no other, each with the value the entry
    [d] gives it or, where [d] has none, with the default of position [i]
    (counted from 0). *)
Definition validated_from (i : nat) (d tc : pydict) : Prop :=
  dom tc = six_fields
  ∧ tc !! "feature"
    = Some (default (PStr ("Feature " +:+ fmt_int (Z.of_nat i + 1))) (d !! "feature"))
  ∧ tc !! "test_id"
    = Some (default (PStr ("TC" +:+ fmt_03d (Z.of_nat i + 1))) (d !! "test_id"))
  ∧ tc !! "title"
    = Some (default (PStr ("Test Case " +:+ fmt_int (Z.of_nat i + 1))) (d !! "title"))
  ∧ tc !! "steps" = Some (default (PList []) (d !! "steps"))
  ∧ tc !! "expected_result" = Some (default (PStr "") (d !! "expected_result"))
  ∧ tc !! "priority" = Some (default (PStr "Medium") (d !! "priority")).

(** [tcs] is made from the dictionaries of [parsed], all of them and in
    their order: [idx] lists the positions they come from. *)
Definition kept_in_order (parsed : list pyval) (tcs : list pydict) : Prop :=
  ∃ idx : list nat,
    StronglySorted lt idx
    ∧ (∀ i, i ∈ idx ↔ ∃ d, parsed !! i = Some (PDict d))
    ∧ Forall2 (fun i tc => ∃ d, parsed !! i = Some (PDict d) ∧ validated_from i d tc)
              idx tcs.

(** What a [_parse_response] does with every response, in any state. *)
Definition parse_response_spec (P : Platform)
    (parse : string -> M (list pydict)) : Prop :=
  ∀ (response : string) (s : state),
    let start_idx := find response "[" in
    let end_idx := rfind response "]" + 1 in
    let json_content := slice response start_idx end_idx in
    snd (parse response s) = s
    ∧ match fst (parse response s) with
      | Return tcs =>
          start_idx ≠ -1 ∧ end_idx ≠ 0
          ∧ ∃ parsed, json_loads P json_content = inr (PList parsed)
                      ∧ kept_in_order parsed tcs
      | Raise e =>
          start_idx = -1 ∨ end_idx = 0
          ∨ (∃ e', json_loads P json_content = inl e')
          ∨ (∃ v, json_loads P json_content = inr v ∧ is_list v = false)
      | SystemExit _ => False
      end.

(** Two computations end the same way: with equal values, or both with an
    exception; and they leave the same state. *)
Definition same_result {A} (x y : outcome A * state) : Prop :=
  snd x = snd y
  ∧ match fst x, fst y with
    | Return a, Return b => a = b
    | Raise _, Raise _ => True
    | _, _ => False
    end.

(** ** The validation loop, unrolled *)


  (** The dictionary the loop of [_parse_response] appends for entry [i]. *)
Definition validated (i : Z) (tc : pydict) : pydict :=
    list_to_map [
      ("feature", dict_get tc "feature" (PStr ("Feature " +:+ fmt_int (i + 1))));
      ("test_id", dict_get tc "test_id" (PStr ("TC" +:+ fmt_03d (i + 1))));
      ("title", dict_get tc "title" (PStr ("Test Case " +:+ fmt_int (i + 1))));
      ("steps", dict_get tc "steps" (PList []));
      ("expected_result", dict_get tc "expected_result" (PStr ""));
      ("priority", dict_get tc "priority" (PStr "Medium")) ].

Definition step (acc : list pydict) (p : Z * pyval) : list pydict :=
    let '(i, tc) := p in
    match tc with
    | PDict tc => acc ++ [validated i tc]
    | _ => acc
    end.

  (** The entries from position [off] on: the positions of the
      dictionaries, and what is kept of them. *)
Fixpoint dict_positions (off : nat) (l : list pyval) : list nat :=
    match l with
    | [] => []
    | PDict _ :: r => off :: dict_positions (S off) r
    | _ :: r => dict_positions (S off) r
    end.

Fixpoint kept (off : nat) (l : list pyval) : list pydict :=
    match l with
    | [] => []
    | PDict d :: r => validated (Z.of_nat off) d :: kept (S off) r
    | _ :: r => kept (S off) r
    end.

(** What both methods compute, up to the name in the last message. *)
Definition parse_closed (P : Platform) (engine_name response : string) : outcome (list pydict) :=
  let start_idx := find response "[" in
  let end_idx := rfind response "]" + 1 in
  let wrap msg := Exn Exception ("Error parsing " +:+ engine_name +:+ " response: " +:+ msg) in
  if (start_idx =? -1) || (end_idx =? 0) then
    Raise (wrap "No JSON array found in response")
  else
    match json_loads P (slice response start_idx end_idx) with
    | inl e =>
        if isinstance e JSONDecodeError
        then Raise (Exn Exception ("Failed to parse JSON response: " +:+ exn_msg e))
        else Raise (wrap (exn_msg e))
    | inr (PList l) => Return (kept 0 l)
    | inr _ => Raise (wrap "Response is not a list of test cases")
    end.

(** ** Spreadsheet rows *)

(** [lines] are the steps, one per line, numbered from 1. *)
Definition numbered_lines (P : Platform) (steps : list pyval) (lines : list string) : Prop :=
  length lines = length steps
  ∧ ∀ (j : nat) (step : pyval),
      steps !! j = Some step →
      lines !! j = Some (fmt_int (Z.of_nat j + 1) +:+ ". " +:+ py_str P step).

(** [row] is a row for the test case [tc]: its identifier, feature, title
    and expected result (empty when [tc] has none), the fixed columns, the
    priority and the steps. *)
Definition row_for (P : Platform) (tc row : pydict) : Prop :=
  row !! "Test ID" = Some (default (PStr "") (tc !! "test_id"))
  ∧ row !! "Feature" = Some (default (PStr "") (tc !! "feature"))
  ∧ row !! "Test Case Title" = Some (default (PStr "") (tc !! "title"))
  ∧ row !! "Expected Result" = Some (default (PStr "") (tc !! "expected_result"))
  ∧ row !! "Status" = Some (PStr "Not Executed")
  ∧ row !! "Actual Result" = Some (PStr "")
  ∧ row !! "Notes" = Some (PStr "")
  ∧ (tc !! "priority" = None → row !! "Priority" = Some (PStr "Medium"))
  ∧ (∀ steps, tc !! "steps" = Some (PList steps) →
       ∃ lines, numbered_lines P steps lines
                ∧ row !! "Test Steps" = Some (PStr (join newline lines))).

(** ** File extensions *)

Definition supported (extension : string) : Prop :=
  extension = ".pdf" ∨ extension = ".docx" ∨ extension = ".txt".

(** ** Requests and memory *)

Definition is_request (ev : event) : bool :=
  match ev with
  | EvOpenAICreate _ _ _ _ | EvGeminiGenerate _ _ => true
  | _ => false
  end.

(** An engine object as [__init__] leaves it. *)
Definition openai_ready (s : state) (self : loc) (api_key model : pyval) : Prop :=
  ∃ i, heap s !! self = Some i
       ∧ inst_attrs i !! "client" = Some (AOpenAIClient api_key)
       ∧ inst_attrs i !! "model" = Some (AVal model).

Definition gemini_ready (s : state) (self : loc) (model : pyval) : Prop :=
  ∃ i, heap s !! self = Some i
       ∧ inst_attrs i !! "model" = Some (AGenerativeModel model).

(** Everything in the state but the log: the module-level names, the key
    of the genai package and the objects with their fields. *)
Definition same_memory (s s' : state) : Prop :=
  PDF_AVAILABLE s' = PDF_AVAILABLE s
  ∧ DOCX_AVAILABLE s' = DOCX_AVAILABLE s
  ∧ OPENAI_AVAILABLE s' = OPENAI_AVAILABLE s
  ∧ GEMINI_AVAILABLE s' = GEMINI_AVAILABLE s
  ∧ genai_api_key s' = genai_api_key s
  ∧ heap s' = heap s.

(** The state with [evs] logged after what was logged. *)
Definition logged (evs : list event) (s : state) : state :=
  set_log (fun l => l ++ evs) s.

(** The request the OpenAI engine makes for a requirement text. *)
Definition openai_request (api_key model : pyval) (requirement_text : string) : event :=
  EvOpenAICreate api_key model
    (OpenAIEngine.messages (OpenAIEngine._build_prompt requirement_text)) 0.3%float.

(** The request the Gemini engine makes for a requirement text. *)
Definition gemini_request (model : pyval) (requirement_text : string) : event :=
  EvGeminiGenerate model (GeminiEngine._build_prompt requirement_text).

(** ** The run of [main] *)

(** The lines [main] prints on its way. *)
Definition reading (args : argparse.Namespace) : event :=
  EvPrint ("📖 Reading requirement document: " +:+ args !!! "input_file").

Definition extracted (text_content : string) : event :=
  EvPrint ("✅ Extracted " +:+ fmt_int (py_len text_content)
           +:+ " characters from document").

Definition engine_name (config : pyval) : pyval :=
  match config with
  | PDict d => dict_get d "ai_engine" (PStr "openai")
  | _ => PNone
  end.

Definition using_engine (P : Platform) (config : pyval) : event :=
  EvPrint ("🤖 Using AI engine: " +:+ py_str P (engine_name config)).

Definition generating : event := EvPrint "🧪 Generating test cases...".

Definition generated (testcases : list pydict) : event :=
  EvPrint ("✅ Generated " +:+ fmt_int (Z.of_nat (length testcases)) +:+ " test cases").

Definition saving (args : argparse.Namespace) : event :=
  EvPrint ("💾 Saving test cases to: " +:+ args !!! "output").

Definition saved (args : argparse.Namespace) : event :=
  EvPrint ("✅ Excel file saved successfully: " +:+ path_str (args !!! "output")).

Definition completed : event :=
  EvPrint "🎉 Test case generation completed successfully!".

Definition processing_error (e : exn) : event :=
  EvPrint ("❌ Error during processing: " +:+ exn_msg e).

(** The pipeline from a stage on: what is left of the body of the [try]
    statement when that stage is about to run. *)
Definition from_generation (P : Platform) (args : argparse.Namespace) (text : string)
    (engine : loc) : M unit :=
  testcases ← main.generate_testcases P engine text;
  if negb (truthy (PList (PDict <$> testcases))) then
    print "❌ No test cases were generated.";; sys_exit 1
  else
    print ("✅ Generated " +:+ fmt_int (Z.of_nat (length testcases)) +:+ " test cases");;
    print ("💾 Saving test cases to: " +:+ args !!! "output");;
    export_excel.save_testcases_to_excel P testcases (args !!! "output");;
    print "🎉 Test case generation completed successfully!".

Definition from_construction (P : Platform) (args : argparse.Namespace) (text : string)
    (config : pyval) : M unit :=
  ai_engine ← main.get_ai_engine P config;
  engine_name ← main.py_get config "ai_engine" (PStr "openai");
  print ("🤖 Using AI engine: " +:+ py_str P engine_name);;
  print "🧪 Generating test cases...";;
  from_generation P args text ai_engine.

Definition from_loading (P : Platform) (args : argparse.Namespace) (text : string) : M unit :=
  config ← main.load_config P (args !!! "config");
  from_construction P args text config.

(** [main], started on [argv] in state [s0], enters its [try] statement
    with the arguments [args] in state [s]: the command line parsed and the
    input file exists. *)
Definition enters_try (P : Platform) (argv : list string) (s0 : state)
    (args : argparse.Namespace) (s : state) : Prop :=
  ∃ s1, main.parse_args P main.parser argv s0 = (Return args, s1)
        ∧ path_exists P (log s1) (args !!! "input_file") = inr true
        ∧ s = logged [reading args] s1.

(** The [try] statement entered in state [s], text extraction has returned
    [text], which is not blank, and the configuration is about to be loaded
    in state [s']. *)
Definition at_loading (P : Platform) (args : argparse.Namespace) (s : state)
    (text : string) (s' : state) : Prop :=
  ∃ s1, extract_text.extract_text_from_file P (args !!! "input_file") s = (Return text, s1)
        ∧ truthy (PStr (strip text)) = true
        ∧ s' = logged [extracted text] s1.

(** ... the configuration has been loaded, and the engine is about to be
    constructed. *)
Definition at_construction (P : Platform) (args : argparse.Namespace) (s : state)
    (text : string) (config : pyval) (s' : state) : Prop :=
  ∃ s1, at_loading P args s text s1
        ∧ main.load_config P (args !!! "config") s1 = (Return config, s').

(** ... the engine has been constructed, and the test cases are about to
    be generated. *)
Definition at_generation (P : Platform) (args : argparse.Namespace) (s : state)
    (text : string) (config : pyval) (engine : loc) (s' : state) : Prop :=
  ∃ s2 s3, at_construction P args s text config s2
           ∧ main.get_ai_engine P config s2 = (Return engine, s3)
           ∧ s' = logged [using_engine P config; generating] s3.

(** ... the engine has returned test cases, at least one, and they are
    about to be exported. *)
Definition at_export (P : Platform) (args : argparse.Namespace) (s : state)
    (text : string) (config : pyval) (engine : loc) (testcases : list pydict)
    (s' : state) : Prop :=
  ∃ s3 s4, at_generation P args s text config engine s3
           ∧ main.generate_testcases P engine text s3 = (Return testcases, s4)
           ∧ testcases ≠ []
           ∧ s' = logged [generated testcases; saving args] s4.

(** A stage of the pipeline, the stages before it having returned, raises
    [e] and leaves the state [s'']. *)
Inductive stage_raises (P : Platform) (args : argparse.Namespace) (s : state)
    (e : exn) (s'' : state) : Prop :=
  | text_extraction_raises :
      extract_text.extract_text_from_file P (args !!! "input_file") s = (Raise e, s'') →
      stage_raises P args s e s''
  | config_loading_raises text s' :
      at_loading P args s text s' →
      main.load_config P (args !!! "config") s' = (Raise e, s'') →
      stage_raises P args s e s''
  | engine_construction_raises text config s' :
      at_construction P args s text config s' →
      main.get_ai_engine P config s' = (Raise e, s'') →
      stage_raises P args s e s''
  | testcase_generation_raises text config engine s' :
      at_generation P args s text config engine s' →
      main.generate_testcases P engine text s' = (Raise e, s'') →
      stage_raises P args s e s''
  | excel_export_raises text config engine testcases s' :
      at_export P args s text config engine testcases s' →
      export_excel.save_testcases_to_excel P testcases (args !!! "output") s'
      = (Raise e, s'') →
      stage_raises P args s e s''.

(** An exception [e] is raised during the pipeline of a run that entered
    the [try] statement in state [s]: it leaves a stage, or it is raised
    inside a stage by the operation the stage performs, the reading of the
    input file as UTF-8, the reading of the configuration file or its
    decoding. *)
Inductive raised_in_pipeline (P : Platform) (args : argparse.Namespace) (s : state)
    (e : exn) : Prop :=
  | leaves_a_stage s'' :
      stage_raises P args s e s'' →
      raised_in_pipeline P args s e
  | utf8_read_raises :
      lower P (path_suffix (args !!! "input_file")) = ".txt" →
      read_text P (log s) (args !!! "input_file") UTF8 = inl e →
      raised_in_pipeline P args s e
  | config_read_raises text s' :
      at_loading P args s text s' →
      read_text P (log s') (args !!! "config") UTF8 = inl e →
      raised_in_pipeline P args s e
  | config_decode_raises text s' yaml :
      at_loading P args s text s' →
      read_text P (log s') (args !!! "config") UTF8 = inr yaml →
      yaml_safe_load P yaml = inl e →
      raised_in_pipeline P args s e.

(** The run ends in the handler of [main]: the line that reports an error
    during processing is the last thing done, and the status is 1. *)
Definition ends_in_the_handler (P : Platform) (argv : list string) (s0 : state) : Prop :=
  ∃ e' s', main.main P argv s0 = (SystemExit 1, logged [processing_error e'] s').

(** Every exception raised during the pipeline reaches the handler of
    [main], none being handled, retried or recovered on the way. *)
Definition every_exception_reaches_the_handler (P : Platform) : Prop :=
  ∀ (argv : list string) (s0 : state) (args : argparse.Namespace) (s : state) (e : exn),
    enters_try P argv s0 args s →
    raised_in_pipeline P args s e →
    ends_in_the_handler P argv s0.

(** ** Command lines *)

(** A command line in the plain forms: the input path, and the two options
    in their short or long spelling, each followed by its value. *)
Inductive spelling : Type := Short | Long.

Inductive cli_item : Type :=
  | Input (path : string)
  | Output (sp : spelling) (path : string)
  | Config (sp : spelling) (path : string).

Definition words_of (it : cli_item) : list string :=
  match it with
  | Input path => [path]
  | Output Short path => ["-o"; path]
  | Output Long path => ["--output"; path]
  | Config Short path => ["-c"; path]
  | Config Long path => ["--config"; path]
  end.

Definition command_line (items : list cli_item) : list string :=
  flat_map words_of items.

(** No path of the item begins with a dash. *)
Definition plain_item (it : cli_item) : Prop :=
  match it with
  | Input path | Output _ path | Config _ path =>
      argparse.starts_with_dash path = false
  end.

(** The positional words, in order. *)
Fixpoint inputs (items : list cli_item) : list string :=
  match items with
  | [] => []
  | Input path :: r => path :: inputs r
  | _ :: r => inputs r
  end.

(** The value an option ends up with: its last one on the command line, or
    else [dflt]. *)
Fixpoint output_of (items : list cli_item) (dflt : string) : string :=
  match items with
  | [] => dflt
  | Output _ path :: r => output_of r path
  | _ :: r => output_of r dflt
  end.

Fixpoint config_of (items : list cli_item) (dflt : string) : string :=
  match items with
  | [] => dflt
  | Config _ path :: r => config_of r path
  | _ :: r => config_of r dflt
  end.

(** The namespace after the items, each one stored at its destination. *)
Fixpoint stored (items : list cli_item) (ns : argparse.Namespace) : argparse.Namespace :=
  match items with
  | [] => ns
  | Input path :: r => stored r (<["input_file" := path]> ns)
  | Output _ path :: r => stored r (<["output" := path]> ns)
  | Config _ path :: r => stored r (<["config" := path]> ns)
  end.

(** What an action declares, without its help text. *)
Definition declaration (a : argparse.Action)
    : list string * string * option string * bool :=
  (argparse.option_strings a, argparse.dest a, argparse.default_value a,
   argparse.required a).

(** ** Vocabulary of the further properties *)

(** The character [c] occurs in [s]. *)
Fixpoint occurs (c : ascii) (s : string) : bool :=
  match s with
  | EmptyString => false
  | String a r => Ascii.eqb a c || occurs c r
  end.

(** What [_parse_response] makes of the slice it has cut out. *)
Definition validate_decoded (P : Platform) (engine_name json_content : string)
    : outcome (list pydict) :=
  match json_loads P json_content with
  | inl e =>
      if isinstance e JSONDecodeError
      then Raise (Exn Exception ("Failed to parse JSON response: " +:+ exn_msg e))
      else Raise (Exn Exception ("Error parsing " +:+ engine_name +:+ " response: "
                                 +:+ exn_msg e))
  | inr (PList l) => Return (kept 0 l)
  | inr _ =>
      Raise (Exn Exception ("Error parsing " +:+ engine_name
                            +:+ " response: Response is not a list of test cases"))
  end.

(** How [generate_testcases] ends: with validated test cases, or with an
    exception of class [Exception] whose message begins with [prefix]. *)
Definition surfaces_as (prefix : string) (o : outcome (list pydict)) : Prop :=
  match o with
  | Return testcases => Forall (fun tc => dom tc = six_fields) testcases
  | Raise e => exn_class e = Exception ∧ ∃ msg, exn_msg e = prefix +:+ msg
  | SystemExit _ => False
  end.

(** The outcome of [generate_testcases] from the outcome of
    [_parse_response]: a list goes through, an exception is wrapped. *)
Definition rewrapped (prefix : string) (o : outcome (list pydict))
    : outcome (list pydict) :=
  match o with
  | Return testcases => Return testcases
  | Raise e => Raise (Exn Exception (prefix +:+ exn_msg e))
  | SystemExit c => SystemExit c
  end.

(** The AttributeError of a look-up of [name] on a value that has no such
    attribute. *)
Definition no_attribute (v : pyval) (name : string) : exn :=
  Exn AttributeError
    ("'" +:+ type_name v +:+ "' object has no attribute '" +:+ name +:+ "'").

(** The two engine objects as their constructors build them. *)
Definition openai_instance (api_key model : pyval) : instance :=
  Instance_ COpenAIEngine
    (<["model" := AVal model]> (<["client" := AOpenAIClient api_key]> ∅)).

Definition gemini_instance (model : pyval) : instance :=
  Instance_ CGeminiEngine (<["model" := AGenerativeModel model]> ∅).

(** The state with a new object [obj] in the heap, at the next free place. *)
Definition with_object (obj : instance) (s : state) : state :=
  set_heap (insert (fresh (dom (heap s))) obj) s.

(** Every object there is in [s] is in [s'] what it is in [s]. *)
Definition objects_kept (s s' : state) : Prop :=
  ∀ l : loc, is_Some (heap s !! l) → heap s' !! l = heap s !! l.

(** The ASCII characters for which [str.isspace] holds, and the texts made
    of them alone. *)
Definition ascii_space (c : ascii) : bool :=
  let n := nat_of_ascii c in
  (((9 <=? n) && (n <=? 13)) || ((28 <=? n) && (n <=? 32)))%nat.

Fixpoint only_spaces (s : string) : bool :=
  match s with
  | EmptyString => true
  | String c r => ascii_space c && only_spaces r
  end.

(** What a run does besides printing. *)
Definition is_print (ev : event) : bool :=
  match ev with EvPrint _ => true | _ => false end.

Definition effects (evs : list event) : list event :=
  List.filter (fun ev => negb (is_print ev)) evs.

(** Nothing, one request, or one request and then one write. *)
Definition at_most_request_then_write (evs : list event) : Prop :=
  effects evs = []
  ∨ (∃ request, is_request request = true ∧ effects evs = [request])
  ∨ (∃ request path rows,
       is_request request = true ∧ effects evs = [request; EvExcelWrite path rows]).

(** An outcome that is no exception, and whose exit status, if it is an
    exit, is 1. *)
Definition returns_or_exits_1 {A} (o : outcome A) : Prop :=
  match o with
  | Return _ => True
  | Raise _ => False
  | SystemExit c => c = 1
  end.

(** The engine is one of the two, set up. *)
Definition engine_ready (s : state) (engine : loc) : Prop :=
  (∃ api_key model, class_of engine s = (Return COpenAIEngine, s)
                    ∧ openai_ready s engine api_key model)
  ∨ (∃ model, class_of engine s = (Return CGeminiEngine, s)
              ∧ gemini_ready s engine model).

(** The events [evs] of a piece of a run that ended with [o]: besides
    printing, at most a request and then a write, both of them when it
    returned; an exit has status 1. *)
Definition run_shape {A} (o : outcome A) (evs : list event) : Prop :=
  at_most_request_then_write evs
  ∧ match o with
    | Return _ =>
        ∃ request path rows,
          is_request request = true ∧ effects evs = [request; EvExcelWrite path rows]
    | Raise _ => True
    | SystemExit c => c = 1
    end.

(** The texts [parts] one after the other, each followed by a line end. *)
Fixpoint each_with_newline (parts : list string) : string :=
  match parts with
  | [] => ""
  | part :: rest => part +:+ newline +:+ each_with_newline rest
  end.

(** What reading a document of pages or paragraphs gives: the package
    missing, the reader failing, or the text. *)
Definition document_text (kind package : string) (available : bool)
    (parts : exn + list string) (s : state) : outcome string * state :=
  if available then
    match parts with
    | inr parts => (Return (each_with_newline parts), s)
    | inl e => (Raise (Exn Exception ("Error reading " +:+ kind +:+ " file: " +:+ exn_msg e)), s)
    end
  else
    (Raise (Exn ImportError (package +:+ " is required to read " +:+ kind
                             +:+ " files. Install with: pip install " +:+ package)), s).

(** The columns of the sheet. *)
Definition nine_columns : gset string :=
  {[ "Test ID"; "Feature"; "Test Case Title"; "Test Steps"; "Expected Result";
     "Priority"; "Status"; "Actual Result"; "Notes" ]}.

(** The length of a cell as the loop over a column measures it. *)
Definition cell_length (P : Platform) (value : pyval) : Z := py_len (py_str P value).

(** The defaults of position [i], counted from 0. *)
Definition default_test_id (i : nat) : pyval := PStr ("TC" +:+ fmt_03d (Z.of_nat i + 1)).
Definition default_feature (i : nat) : pyval := PStr ("Feature " +:+ fmt_int (Z.of_nat i + 1)).
Definition default_title (i : nat) : pyval := PStr ("Test Case " +:+ fmt_int (Z.of_nat i + 1)).

(** No dictionary of [parsed] has the field [key]. *)
Definition none_has (key : string) (parsed : list pyval) : Prop :=
  Forall (fun v => match v with PDict d => d !! key = None | _ => True end) parsed.

(** A numeral that does not begin with the digit 0. *)
Definition starts_nonzero (s : string) : Prop :=
  match s with
  | String c _ => c ≠ "0"%char
  | EmptyString => False
  end.

(** [s] without the zeros it begins with. *)
Fixpoint without_leading_zeros (s : string) : string :=
  match s with
  | String c r => if Ascii.eqb c "0" then without_leading_zeros r else s
  | EmptyString => EmptyString
  end.

(** What the service answers to the request of an engine made in state [s]. *)
Definition openai_answer (P : Platform) (s : state) (api_key model : pyval)
    (requirement_text : string) : exn + string :=
  openai_create P (log (logged [openai_request api_key model requirement_text] s))
    api_key model (OpenAIEngine.messages (OpenAIEngine._build_prompt requirement_text))
    0.3%float.

Definition gemini_answer (P : Platform) (s : state) (model : pyval)
    (requirement_text : string) : exn + string :=
  gemini_generate P (log (logged [gemini_request model requirement_text] s))
    (genai_api_key s) model (GeminiEngine._build_prompt requirement_text).

(** * Proofs *)

(** ** Running the monad *)

Lemma bind_run {A B} (m : M A) (f : A -> M B) (s : state) :
  (m ≫= f) s = match m s with
               | (Return a, s') => f a s'
               | (Raise e, s') => (Raise e, s')
               | (SystemExit c, s') => (SystemExit c, s')
               end.
Proof. reflexivity. Qed.

Lemma bind_return_inv {A B} (m : M A) (f : A -> M B) s b s' :
  (m ≫= f) s = (Return b, s') →
  ∃ a s1, m s = (Return a, s1) ∧ f a s1 = (Return b, s').
Proof.
  rewrite bind_run. destruct (m s) as [[a|e|c] s1]; intros H; try discriminate.
  eauto.
Qed.

Lemma try_except_exit {A} (body : M A) handlers s c s' :
  body s = (SystemExit c, s') → try_except body handlers s = (SystemExit c, s').
Proof. unfold try_except. intros ->. reflexivity. Qed.

Lemma try_except_return {A} (body : M A) handlers s a s' :
  body s = (Return a, s') → try_except body handlers s = (Return a, s').
Proof. unfold try_except. intros ->. reflexivity. Qed.

Lemma isinstance_Exception e : isinstance e Exception = true.
Proof. destruct e as [[] ?]; reflexivity. Qed.

(** A single [except Exception] clause handles whatever is raised. *)
Lemma try_except_Exception {A} (body : M A) (h : exn -> M A) s e s' :
  body s = (Raise e, s') →
  try_except body [(Exception, h)] s = h e s'.
Proof.
  unfold try_except. intros ->. simpl. rewrite isinstance_Exception. reflexivity.
Qed.

(** Unfolding the operations of the monad at a state. *)
Ltac run :=
  unfold mbind, M_bind, mret, M_ret, get_state, emit, print, raise, sys_exit,
         lift, ask in *;
  simpl in *.

(** ** Validation of the response *)

Lemma fold_step_kept (l : list pyval) : ∀ off acc,
    fold_left step (imap (fun i x => (Z.of_nat (off + i), x)) l) acc
    = acc ++ kept off l.
  Proof.
    induction l as [|v l IH]; intros off acc; simpl.
    - by rewrite app_nil_r.
    - rewrite (imap_ext _ (fun i x => (Z.of_nat (S off + i), x))).
      2:{ intros i x _. simpl. do 2 f_equal. lia. }
      rewrite IH. rewrite Nat.add_0_r.
      destruct v; simpl; try reflexivity.
      by rewrite <- app_assoc.
  Qed.

Lemma fold_step_enumerate (l : list pyval) :
    fold_left step (enumerate l) [] = kept 0 l.
  Proof. apply (fold_step_kept l 0 []). Qed.

Lemma validated_ok (i : nat) (d : pydict) :
    validated_from i d (validated (Z.of_nat i) d).
  Proof.
    unfold validated_from, validated, dict_get.
    split; [|repeat split; reflexivity].
    apply set_eq. intros k. unfold six_fields.
    rewrite dom_list_to_map_L. simpl. set_solver.
  Qed.

Lemma dict_positions_bounds (l : list pyval) : ∀ off i,
    i ∈ dict_positions off l → (off ≤ i)%nat.
  Proof.
    induction l as [|v l IH]; intros off i; simpl.
    - by intros ?%elem_of_nil.
    - destruct v; try (intros H%IH; lia).
      intros [->|H%IH]%elem_of_cons; lia.
  Qed.

Lemma dict_positions_sorted (l : list pyval) : ∀ off,
    StronglySorted lt (dict_positions off l).
  Proof.
    induction l as [|v l IH]; intros off; simpl; [constructor|].
    destruct v; try apply IH.
    constructor; [apply IH|].
    apply Forall_forall. intros i H%dict_positions_bounds. lia.
  Qed.

Lemma dict_positions_spec (l : list pyval) : ∀ off i,
    i ∈ dict_positions off l
    ↔ (off ≤ i)%nat ∧ ∃ d, l !! (i - off)%nat = Some (PDict d).
  Proof.
    induction l as [|v l IH]; intros off i; simpl.
    - split; [by intros ?%elem_of_nil | by intros [_ [d ?]]].
    - assert (Hrest : i ∈ dict_positions (S off) l
                      ↔ (off < i)%nat ∧ ∃ d, (v :: l) !! (i - off)%nat = Some (PDict d)).
      { rewrite IH. split.
        - intros [Hle [d Hd]]. split; [lia|]. exists d.
          replace (i - off)%nat with (S (i - S off)) by lia. exact Hd.
        - intros [Hlt [d Hd]]. split; [lia|]. exists d.
          replace (i - off)%nat with (S (i - S off)) in Hd by lia. exact Hd. }
      assert (Hhead : ∀ d, (v :: l) !! (i - off)%nat = Some (PDict d) →
                           (off ≤ i)%nat → is_dict v = false → (off < i)%nat).
      { intros d Hd Hle Hv. destruct (decide (i = off)) as [->|]; [|lia].
        rewrite Nat.sub_diag in Hd. simpl in Hd. injection Hd as ->. discriminate. }
      destruct v; try (rewrite Hrest; split;
                       [intros [? ?]; split; [lia|done]
                       |intros [? [d Hd]]; split; [by eapply Hhead|by exists d]]).
      rewrite elem_of_cons, Hrest. split.
      + intros [->|[? ?]]; [|split; [lia|done]].
        split; [lia|]. rewrite Nat.sub_diag. by eexists.
      + intros [Hle [d' Hd]]. destruct (decide (i = off)) as [->|]; [by left|].
        right. split; [lia|by exists d'].
  Qed.

Lemma kept_Forall2 (l : list pyval) : ∀ off,
  Forall2 (fun i tc => (off ≤ i)%nat
                       ∧ ∃ d, l !! (i - off)%nat = Some (PDict d) ∧ validated_from i d tc)
          (dict_positions off l) (kept off l).
Proof.
  induction l as [|v l IH]; intros off; simpl; [constructor|].
  assert (Hrest :
    Forall2 (fun i tc => (off ≤ i)%nat
                         ∧ ∃ d, (v :: l) !! (i - off)%nat = Some (PDict d)
                                ∧ validated_from i d tc)
            (dict_positions (S off) l) (kept (S off) l)).
  { eapply Forall2_impl; [apply IH|].
    intros i tc [Hi [d [Hd Hv]]]. split; [lia|].
    exists d. split; [|done].
    replace (i - off)%nat with (S (i - S off)) by lia. exact Hd. }
  destruct v; try exact Hrest.
  constructor; [|exact Hrest].
  split; [lia|]. exists d. rewrite Nat.sub_diag. split; [done|apply validated_ok].
Qed.

Lemma kept_in_order_kept (l : list pyval) : kept_in_order l (kept 0 l).
  Proof.
    exists (dict_positions 0 l). split; [apply dict_positions_sorted|]. split.
    - intros i. rewrite dict_positions_spec, Nat.sub_0_r. split.
      + by intros [_ ?].
      + intros ?. split; [lia|done].
    - eapply Forall2_impl; [apply kept_Forall2|].
      intros i tc [_ [d [Hd Hv]]]. exists d. by rewrite Nat.sub_0_r in Hd.
  Qed.


(** ** The two [_parse_response] in closed form *)

Section parse_response.
Variable P : Platform.

Lemma openai_parse_closed (response : string) (s : state) :
  OpenAIEngine._parse_response P response s = (parse_closed P "OpenAI" response, s).
Proof.
  unfold OpenAIEngine._parse_response, parse_closed, try_except.
  destruct ((find response "[" =? -1) || (rfind response "]" + 1 =? 0)); [reflexivity|].
  rewrite bind_run.
  destruct (json_loads P _) as [e|v]; simpl.
  - destruct (isinstance e JSONDecodeError); [reflexivity|].
    by rewrite isinstance_Exception.
  - destruct v; try reflexivity.
    unfold mret, M_ret. f_equal. f_equal. apply fold_step_enumerate.
Qed.

Lemma gemini_parse_closed (response : string) (s : state) :
  GeminiEngine._parse_response P response s = (parse_closed P "Gemini" response, s).
Proof.
  unfold GeminiEngine._parse_response, parse_closed, try_except.
  destruct ((find response "[" =? -1) || (rfind response "]" + 1 =? 0)); [reflexivity|].
  rewrite bind_run.
  destruct (json_loads P _) as [e|v]; simpl.
  - destruct (isinstance e JSONDecodeError); [reflexivity|].
    by rewrite isinstance_Exception.
  - destruct v; try reflexivity.
    unfold mret, M_ret. f_equal. f_equal. apply fold_step_enumerate.
Qed.

Lemma parse_closed_spec (engine_name : string)
    (parse : string -> M (list pydict)) :
  (∀ response s, parse response s = (parse_closed P engine_name response, s)) →
  parse_response_spec P parse.
Proof.
  intros Hparse response s. cbv zeta. rewrite Hparse. simpl. split; [reflexivity|].
  unfold parse_closed.
  destruct (find response "[" =? -1) eqn:Hstart; simpl.
  { left. lia. }
  destruct (rfind response "]" + 1 =? 0) eqn:Hend; simpl.
  { right. left. lia. }
  destruct (json_loads P _) as [e|v] eqn:Hloads.
  { destruct (isinstance e JSONDecodeError); right; right; left; by exists e. }
  destruct v;
    try (right; right; right; eexists; split; [reflexivity|reflexivity]).
  split; [lia|]. split; [lia|].
  exists l. split; [reflexivity|apply kept_in_order_kept].
Qed.

Lemma parse_closed_same (a b response : string) (s : state) :
  same_result (parse_closed P a response, s) (parse_closed P b response, s).
Proof.
  split; [reflexivity|]. simpl. unfold parse_closed.
  destruct ((find response "[" =? -1) || (rfind response "]" + 1 =? 0)); [done|].
  destruct (json_loads P _) as [e|v].
  - by destruct (isinstance e JSONDecodeError).
  - by destruct v.
Qed.

End parse_response.

(** The answer of the test service: the text around the array is cut off,
    the number between the two cases is dropped, and the case that has a
    title only takes the defaults of the third position. *)
Example parse_the_answer :
  match fst (OpenAIEngine._parse_response demo.platform demo.answer demo.start) with
  | Return testcases =>
      map (fun tc => (tc !! "feature", tc !! "test_id", tc !! "title",
                      tc !! "priority", size tc))
          testcases
  | _ => []
  end
  = [ (Some (PStr "Login"), Some (PStr "TC001"), Some (PStr "Valid login"),
       Some (PStr "High"), 6%nat);
      (Some (PStr "Feature 3"), Some (PStr "TC003"), Some (PStr "Wrong password"),
       Some (PStr "Medium"), 6%nat) ].
Proof. reflexivity. Qed.

Example parse_no_array :
  fst (GeminiEngine._parse_response demo.platform "I cannot help with that." demo.start)
  = Raise (Exn Exception
             "Error parsing Gemini response: No JSON array found in response").
Proof. reflexivity. Qed.

Example parse_not_json :
  fst (OpenAIEngine._parse_response demo.platform "[see below] and [above]" demo.start)
  = Raise (Exn Exception "Failed to parse JSON response: Expecting value").
Proof. reflexivity. Qed.

Example zero_padding :
  (fmt_03d 7, fmt_03d 42, fmt_03d 100, fmt_03d 1234) = ("007", "042", "100", "1234").
Proof. reflexivity. Qed.

(** C1: for every response string, [_parse_response] of either engine never
    exits and leaves the state as it is; it raises when the string has no
    opening or no closing bracket, when the slice between the first opening
    and the last closing bracket does not decode, or when it decodes to
    something that is not a list, and only then; otherwise it returns one
    dictionary per dictionary of the decoded array, in the same order and
    skipping every other entry, each with exactly the six fields feature,
    test_id, title, steps, expected_result and priority, a field the entry
    lacks taking the default of the entry's position in the array. *)
Theorem parse_response_validates (P : Platform) :
  parse_response_spec P (OpenAIEngine._parse_response P)
  ∧ parse_response_spec P (GeminiEngine._parse_response P).
Proof.
  split.
  - apply (parse_closed_spec P "OpenAI"), openai_parse_closed.
  - apply (parse_closed_spec P "Gemini"), gemini_parse_closed.
Qed.

(** The prompt for a three-letter requirement, measured in bytes. *)
Example prompt_length :
  (String.length (OpenAIEngine._build_prompt "abc"),
   String.length (GeminiEngine._build_prompt "abc")) = (1213%nat, 1213%nat).
Proof. reflexivity. Qed.

(** C3: on every response and in every state the two [_parse_response]
    return equal lists or both raise, and leave the same state; and the two
    [_build_prompt] give the same prompt for every requirement text. *)
Theorem engines_process_alike (P : Platform) :
  (∀ (response : string) (s : state),
     same_result (OpenAIEngine._parse_response P response s)
                 (GeminiEngine._parse_response P response s))
  ∧ (∀ requirement_text : string,
       OpenAIEngine._build_prompt requirement_text
       = GeminiEngine._build_prompt requirement_text).
Proof.
  split.
  - intros response s. rewrite openai_parse_closed, gemini_parse_closed.
    apply parse_closed_same.
  - intros requirement_text. reflexivity.
Qed.

(** ** Rows of the spreadsheet *)

Section export_excel_facts.
Variable P : Platform.

Lemma build_rows_map (testcases : list pydict) :
  export_excel.build_rows P testcases = map (export_excel.make_row P) testcases.
Proof.
  unfold export_excel.build_rows.
  assert (H : ∀ acc, fold_left (fun rows tc => rows ++ [export_excel.make_row P tc]) testcases acc
                     = acc ++ map (export_excel.make_row P) testcases).
  { induction testcases as [|tc l IH]; intros acc; simpl.
    - by rewrite app_nil_r.
    - rewrite IH. by rewrite <- app_assoc. }
  apply (H []).
Qed.

Lemma steps_text_list (tc : pydict) (steps : list pyval) :
  tc !! "steps" = Some (PList steps) →
  ∃ lines, numbered_lines P steps lines
           ∧ export_excel.steps_text P tc = join newline lines.
Proof.
  intros Hsteps. unfold export_excel.steps_text, dict_get. rewrite Hsteps. simpl.
  eexists. split; [|reflexivity]. split.
  - unfold enumerate. by rewrite length_map, length_imap.
  - intros j step Hj. unfold enumerate.
    rewrite list_lookup_fmap, list_lookup_imap, Hj. reflexivity.
Qed.

Lemma make_row_ok (tc : pydict) : row_for P tc (export_excel.make_row P tc).
Proof.
  unfold row_for. repeat split; try reflexivity.
  - intros Hnone. unfold export_excel.make_row, dict_get. rewrite Hnone. reflexivity.
  - intros steps Hsteps. destruct (steps_text_list tc steps Hsteps) as [lines [Hl Ht]].
    exists lines. split; [exact Hl|]. rewrite <- Ht. reflexivity.
Qed.

End export_excel_facts.

(** The rows of the two test cases validated from the answer of the test
    service: the second one has neither steps nor priority. *)
Example rows_of_the_answer :
  match fst (OpenAIEngine._parse_response demo.platform demo.answer demo.start) with
  | Return testcases =>
      map (fun row => (row !! "Test ID", row !! "Test Steps", row !! "Priority",
                       row !! "Status"))
          (export_excel.build_rows demo.platform testcases)
  | _ => []
  end
  = [ (Some (PStr "TC001"),
       Some (PStr ("1. Open the page" +:+ newline +:+ "2. Sign in")),
       Some (PStr "High"), Some (PStr "Not Executed"));
      (Some (PStr "TC003"), Some (PStr ""), Some (PStr "Medium"),
       Some (PStr "Not Executed")) ].
Proof. reflexivity. Qed.

(** C6: on the empty list [save_testcases_to_excel] raises ValueError and
    the state, log included, is what it was, so nothing is written; on a
    list with at least one test case the first thing it does is to hand the
    writer the rows it built, which are as many as the test cases and, at
    each position, a row for the test case of that position: Status is
    'Not Executed', Actual Result and Notes are empty strings, Priority is
    'Medium' when the test case has no priority field, and steps that are a
    list make one line per step, numbered from 1 and joined by newlines. *)
Theorem save_builds_one_row_per_testcase (P : Platform) :
  (∀ (output_path : string) (s : state),
     export_excel.save_testcases_to_excel P [] output_path s
     = (Raise (Exn ValueError "No test cases to export"), s))
  ∧ (∀ (tc0 : pydict) (rest : list pydict) (output_path : string) (s : state),
       let testcases := tc0 :: rest in
       let rows := export_excel.build_rows P testcases in
       (∃ evs, log (snd (export_excel.save_testcases_to_excel P testcases output_path s))
               = log s ++ EvExcelWrite (path_str output_path) rows :: evs)
       ∧ length rows = length testcases
       ∧ ∀ (k : nat) (tc : pydict),
           testcases !! k = Some tc →
           ∃ row, rows !! k = Some row ∧ row_for P tc row).
Proof.
  split; [reflexivity|].
  intros tc0 rest output_path s testcases rows. split; [|split].
  - unfold export_excel.save_testcases_to_excel, export_excel.write_excel.
    fold testcases. fold rows. simpl.
    run.
    match goal with |- context [excel_write P ?h ?p ?r] =>
      destruct (excel_write P h p r) as [e|] end; simpl.
    + by exists [].
    + eexists. rewrite <- app_assoc. reflexivity.
  - subst rows. by rewrite build_rows_map, length_map.
  - intros k tc Hk. subst rows. rewrite build_rows_map, list_lookup_fmap, Hk. simpl.
    eexists. split; [reflexivity|apply make_row_ok].
Qed.

(** ** Text extraction *)

Section extract_text_facts.
Variable P : Platform.

(** Reading a text file: UTF-8 first, latin-1 when that fails to decode. *)
Lemma txt_closed (file_path : string) (s : state) :
  extract_text.extract_text_from_txt P file_path s
  = match read_text P (log s) file_path UTF8 with
    | inr text => (Return text, s)
    | inl e =>
        if isinstance e UnicodeDecodeError then
          match read_text P (log s) file_path Latin1 with
          | inr text => (Return text, s)
          | inl e' =>
              (Raise (Exn Exception ("Error reading TXT file: " +:+ exn_msg e')), s)
          end
        else (Raise (Exn Exception ("Error reading TXT file: " +:+ exn_msg e)), s)
    end.
Proof.
  unfold extract_text.extract_text_from_txt, try_except. run.
  destruct (read_text P (log s) file_path UTF8) as [e|text]; simpl; [|reflexivity].
  destruct (isinstance e UnicodeDecodeError); simpl.
  - destruct (read_text P (log s) file_path Latin1) as [e'|text]; simpl; [|reflexivity].
    by rewrite isinstance_Exception.
  - by rewrite isinstance_Exception.
Qed.

Lemma pdf_no_ValueError (file_path : string) (s s' : state) (e : exn) :
  extract_text.extract_text_from_pdf P file_path s = (Raise e, s') →
  isinstance e ValueError = false.
Proof.
  unfold extract_text.extract_text_from_pdf, try_except. run.
  destruct (PDF_AVAILABLE s); simpl; [|by intros [= <- _]].
  destruct (pdf_pages P (log s) file_path) as [e0|pages]; simpl; [|discriminate].
  rewrite isinstance_Exception. by intros [= <- _].
Qed.

Lemma docx_no_ValueError (file_path : string) (s s' : state) (e : exn) :
  extract_text.extract_text_from_docx P file_path s = (Raise e, s') →
  isinstance e ValueError = false.
Proof.
  unfold extract_text.extract_text_from_docx, try_except. run.
  destruct (DOCX_AVAILABLE s); simpl; [|by intros [= <- _]].
  destruct (docx_paragraphs P (log s) file_path) as [e0|pars]; simpl; [|discriminate].
  rewrite isinstance_Exception. by intros [= <- _].
Qed.

Lemma txt_no_ValueError (file_path : string) (s s' : state) (e : exn) :
  extract_text.extract_text_from_txt P file_path s = (Raise e, s') →
  isinstance e ValueError = false.
Proof.
  rewrite txt_closed.
  destruct (read_text P (log s) file_path UTF8) as [e0|text]; [|discriminate].
  destruct (isinstance e0 UnicodeDecodeError); [|by intros [= <- _]].
  destruct (read_text P (log s) file_path Latin1) as [e'|text]; [|discriminate].
  by intros [= <- _].
Qed.

(** Extraction leaves the state as it is, whatever the file. *)
Lemma extract_state (file_path : string) (s : state) :
  snd (extract_text.extract_text_from_file P file_path s) = s.
Proof.
  unfold extract_text.extract_text_from_file.
  repeat case_match; try reflexivity.
  - unfold extract_text.extract_text_from_pdf, try_except. run.
    destruct (PDF_AVAILABLE s); simpl; [|reflexivity].
    destruct (pdf_pages P (log s) file_path); simpl; [|reflexivity].
    by rewrite isinstance_Exception.
  - unfold extract_text.extract_text_from_docx, try_except. run.
    destruct (DOCX_AVAILABLE s); simpl; [|reflexivity].
    destruct (docx_paragraphs P (log s) file_path); simpl; [|reflexivity].
    by rewrite isinstance_Exception.
  - rewrite txt_closed. repeat case_match; reflexivity.
Qed.

Lemma eqb_false_neq (a b : string) : String.eqb a b = false → a ≠ b.
Proof. intros H ->. by rewrite String.eqb_refl in H. Qed.

End extract_text_facts.

(** C9: [extract_text_from_file] goes by the lowercased suffix of the path
    alone: it reads a PDF, a DOCX or a text file when that extension is
    '.pdf', '.docx' or '.txt', and raises a ValueError exactly when it is
    none of the three; an ASCII suffix is lowercased letter by letter, so
    that '.PDF' selects what '.pdf' selects; and a text file is decoded as
    UTF-8 and, when that raises a UnicodeDecodeError, as latin-1. *)
Theorem extract_dispatches_on_lowercased_suffix (P : Platform) :
  (∀ (file_path : string) (s : state),
     let extension := lower P (path_suffix file_path) in
     (extension = ".pdf" →
        extract_text.extract_text_from_file P file_path s
        = extract_text.extract_text_from_pdf P file_path s)
     ∧ (extension = ".docx" →
        extract_text.extract_text_from_file P file_path s
        = extract_text.extract_text_from_docx P file_path s)
     ∧ (extension = ".txt" →
        extract_text.extract_text_from_file P file_path s
        = extract_text.extract_text_from_txt P file_path s)
     ∧ ((∃ e s', extract_text.extract_text_from_file P file_path s = (Raise e, s')
                 ∧ isinstance e ValueError = true)
        ↔ ¬ supported extension))
  ∧ (∀ suffix : string,
       is_ascii_string suffix = true → lower P suffix = lower_ascii suffix)
  ∧ lower P ".PDF" = ".pdf"
  ∧ (∀ (file_path : string) (s : state),
       extract_text.extract_text_from_txt P file_path s
       = match read_text P (log s) file_path UTF8 with
         | inr text => (Return text, s)
         | inl e =>
             if isinstance e UnicodeDecodeError then
               match read_text P (log s) file_path Latin1 with
               | inr text => (Return text, s)
               | inl e' =>
                   (Raise (Exn Exception ("Error reading TXT file: " +:+ exn_msg e')), s)
               end
             else (Raise (Exn Exception ("Error reading TXT file: " +:+ exn_msg e)), s)
         end).
Proof.
  split; [|split; [|split]].
  - intros file_path s extension.
    unfold extract_text.extract_text_from_file. fold extension.
    split; [by intros ->|]. split; [by intros ->|]. split; [by intros ->|].
    unfold supported.
    destruct (String.eqb extension ".pdf") eqn:Hpdf.
    { apply String.eqb_eq in Hpdf. split; [|tauto].
      intros [e [s' [Hrun He]]]. apply pdf_no_ValueError in Hrun. congruence. }
    destruct (String.eqb extension ".docx") eqn:Hdocx.
    { apply String.eqb_eq in Hdocx. split; [|tauto].
      intros [e [s' [Hrun He]]]. apply docx_no_ValueError in Hrun. congruence. }
    destruct (String.eqb extension ".txt") eqn:Htxt.
    { apply String.eqb_eq in Htxt. split; [|tauto].
      intros [e [s' [Hrun He]]]. apply txt_no_ValueError in Hrun. congruence. }
    apply eqb_false_neq in Hpdf, Hdocx, Htxt. split; [tauto|].
    intros _. eexists _, s. split; reflexivity.
  - intros suffix Hascii. unfold lower. by rewrite Hascii.
  - reflexivity.
  - apply txt_closed.
Qed.

(** The program on a path in upper case, and on a file that is not UTF-8. *)
Example extract_upper_case_txt :
  extract_text.extract_text_from_file demo.platform "SPEC.TXT" demo.start
  = (Return demo.requirement, demo.start).
Proof. reflexivity. Qed.

Example extract_latin1_fallback :
  extract_text.extract_text_from_file demo.platform "legacy.txt" demo.start
  = (Return demo.requirement, demo.start).
Proof. reflexivity. Qed.

Example extract_unsupported :
  extract_text.extract_text_from_file demo.platform "notes.md" demo.start
  = (Raise (Exn ValueError
       "Unsupported file format: .md. Supported formats: .pdf, .docx, .txt"),
     demo.start).
Proof. reflexivity. Qed.

(** ** The engines *)

Section engine_facts.
Variable P : Platform.

Lemma logged_nil (s : state) : logged [] s = s.
Proof. destruct s. unfold logged, set_log. simpl. by rewrite app_nil_r. Qed.

Lemma logged_same_memory (evs : list event) (s : state) : same_memory s (logged evs s).
Proof. by repeat split. Qed.

Lemma same_memory_refl (s : state) : same_memory s s.
Proof. by repeat split. Qed.

Lemma same_memory_trans (s1 s2 s3 : state) :
  same_memory s1 s2 → same_memory s2 s3 → same_memory s1 s3.
Proof. unfold same_memory. intuition congruence. Qed.

Lemma getattr_run (self : loc) (name : string) (s : state) :
  getattr self name s
  = match heap s !! self ≫= fun i => inst_attrs i !! name with
    | Some a => (Return a, s)
    | None => (Raise (Exn AttributeError ("object has no attribute " +:+ name)), s)
    end.
Proof. reflexivity. Qed.

(** A call on an engine that [__init__] has set up logs its request and
    nothing else, however it ends. *)
Lemma openai_generate_ready self text s api_key model :
  openai_ready s self api_key model →
  snd (OpenAIEngine.generate_testcases P self text s)
  = logged [openai_request api_key model text] s.
Proof.
  intros [i [Hi [Hclient Hmodel]]].
  unfold OpenAIEngine.generate_testcases, try_except.
  rewrite bind_run, getattr_run, Hi. simpl. rewrite Hclient.
  rewrite bind_run, getattr_run, Hi. simpl. rewrite Hmodel.
  rewrite bind_run. unfold OpenAIEngine.chat_completions_create.
  rewrite bind_run. unfold emit at 1. cbv beta iota.
  unfold ask, lift.
  match goal with |- context [openai_create P ?h ?k ?m ?ms ?t] =>
    destruct (openai_create P h k m ms t) as [e|content] end.
  - unfold raise. cbv beta iota. simpl List.find. rewrite isinstance_Exception.
    reflexivity.
  - unfold mret, M_ret. cbv beta iota. rewrite openai_parse_closed.
    destruct (parse_closed P "OpenAI" content); try reflexivity.
    simpl List.find. rewrite isinstance_Exception. reflexivity.
Qed.

Lemma gemini_generate_ready self text s model :
  gemini_ready s self model →
  snd (GeminiEngine.generate_testcases P self text s)
  = logged [gemini_request model text] s.
Proof.
  intros [i [Hi Hmodel]].
  unfold GeminiEngine.generate_testcases, try_except.
  rewrite bind_run, getattr_run, Hi. simpl. rewrite Hmodel.
  rewrite bind_run. unfold GeminiEngine.generate_content.
  rewrite bind_run. unfold emit at 1. cbv beta iota.
  rewrite bind_run. unfold get_state at 1. cbv beta iota.
  unfold ask, lift.
  match goal with |- context [gemini_generate P ?h ?k ?m ?p] =>
    destruct (gemini_generate P h k m p) as [e|content] end.
  - unfold raise. cbv beta iota. simpl List.find. rewrite isinstance_Exception.
    reflexivity.
  - unfold mret, M_ret. cbv beta iota. rewrite gemini_parse_closed.
    destruct (parse_closed P "Gemini" content); try reflexivity.
    simpl List.find. rewrite isinstance_Exception. reflexivity.
Qed.

(** On any object at all, a call changes nothing but the log. *)
Lemma openai_generate_memory self text s :
  same_memory s (snd (OpenAIEngine.generate_testcases P self text s)).
Proof.
  destruct (heap s !! self ≫= fun i => inst_attrs i !! "client") as [client|] eqn:Hc.
  2:{ unfold OpenAIEngine.generate_testcases, try_except.
      rewrite bind_run, getattr_run, Hc. simpl. apply same_memory_refl. }
  destruct (heap s !! self ≫= fun i => inst_attrs i !! "model") as [model|] eqn:Hm.
  2:{ unfold OpenAIEngine.generate_testcases, try_except.
      rewrite bind_run, getattr_run, Hc. cbv beta iota.
      rewrite bind_run, getattr_run, Hm. simpl. apply same_memory_refl. }
  destruct (heap s !! self) as [i|] eqn:Hi; [|discriminate]. simpl in Hc, Hm.
  destruct client as [v|api_key|name], model as [m|k|name'];
    try (unfold OpenAIEngine.generate_testcases, try_except;
         rewrite bind_run, getattr_run, Hi; simpl; rewrite Hc;
         rewrite bind_run, getattr_run, Hi; simpl; rewrite Hm;
         simpl; apply same_memory_refl).
  rewrite (openai_generate_ready self text s api_key m).
  - apply logged_same_memory.
  - by exists i.
Qed.

Lemma gemini_generate_memory self text s :
  same_memory s (snd (GeminiEngine.generate_testcases P self text s)).
Proof.
  destruct (heap s !! self ≫= fun i => inst_attrs i !! "model") as [model|] eqn:Hm.
  2:{ unfold GeminiEngine.generate_testcases, try_except.
      rewrite bind_run, getattr_run, Hm. simpl. apply same_memory_refl. }
  destruct (heap s !! self) as [i|] eqn:Hi; [|discriminate]. simpl in Hm.
  destruct model as [m|k|name];
    try (unfold GeminiEngine.generate_testcases, try_except;
         rewrite bind_run, getattr_run, Hi; simpl; rewrite Hm;
         simpl; apply same_memory_refl).
  rewrite (gemini_generate_ready self text s name).
  - apply logged_same_memory.
  - by exists i.
Qed.

(** The constructors leave an engine ready. *)
Lemma openai_new_ready api_key model s self s' :
  OpenAIEngine.new api_key model s = (Return self, s') →
  openai_ready s' self api_key model ∧ log s' = log s.
Proof.
  unfold OpenAIEngine.new, OpenAIEngine.__init__, alloc, setattr. run.
  destruct (OPENAI_AVAILABLE s); simpl; [|discriminate].
  destruct (truthy api_key); simpl; [|discriminate].
  intros [= <- <-]. split; [|reflexivity]. simpl.
  eexists. simpl. rewrite !lookup_alter_eq, lookup_insert_eq. simpl.
  split; [reflexivity|]. simpl. split; reflexivity.
Qed.

Lemma gemini_new_ready api_key model s self s' :
  GeminiEngine.new P api_key model s = (Return self, s') →
  gemini_ready s' self model ∧ log s' = log s.
Proof.
  unfold GeminiEngine.new, GeminiEngine.__init__, GeminiEngine.genai_configure,
    GeminiEngine.GenerativeModel, alloc, setattr. run.
  destruct (GEMINI_AVAILABLE s); simpl; [|discriminate].
  destruct (truthy api_key); simpl; [|discriminate].
  destruct (generative_model P model); simpl; [discriminate|].
  intros [= <- <-]. split; [|reflexivity]. simpl.
  eexists. simpl. rewrite !lookup_alter_eq, lookup_insert_eq. simpl.
  split; reflexivity.
Qed.

End engine_facts.

(** C7: a call of [generate_testcases] on an engine set up by [__init__]
    makes one request: whatever the service answers and however the call
    ends, with a list, with a failed request or with an answer that does not
    parse, the log after the call is the log before it followed by that
    single request, the [chat.completions.create] call of the OpenAI engine
    and the [generate_content] call of the Gemini engine. *)
Theorem generate_makes_one_request (P : Platform) (self : loc)
    (requirement_text : string) (s : state) :
  (∀ api_key model : pyval,
     openai_ready s self api_key model →
     log (snd (OpenAIEngine.generate_testcases P self requirement_text s))
     = log s ++ [openai_request api_key model requirement_text])
  ∧ (∀ model : pyval,
       gemini_ready s self model →
       log (snd (GeminiEngine.generate_testcases P self requirement_text s))
       = log s ++ [gemini_request model requirement_text]).
Proof.
  split.
  - intros api_key model Hready.
    by rewrite (openai_generate_ready P self requirement_text s api_key model Hready).
  - intros model Hready.
    by rewrite (gemini_generate_ready P self requirement_text s model Hready).
Qed.

(** The engine built from the test configuration, first with a service that
    answers and then with one that is down: one request either way. *)
Lemma generate_makes_one_request_witness :
  (log (snd (OpenAIEngine.generate_testcases demo.platform 0%nat demo.requirement
               (snd (OpenAIEngine.new (PStr "sk-test") (PStr "gpt-4") demo.start))))
   = [openai_request (PStr "sk-test") (PStr "gpt-4") demo.requirement])
  ∧ (log (snd (GeminiEngine.generate_testcases demo.offline 0%nat demo.requirement
                 (snd (GeminiEngine.new demo.offline (PStr "key") (PStr "gemini-pro")
                         demo.start))))
     = [gemini_request (PStr "gemini-pro") demo.requirement]).
Proof.
  split.
  - apply (proj1 (generate_makes_one_request demo.platform 0%nat demo.requirement
                    (snd (OpenAIEngine.new (PStr "sk-test") (PStr "gpt-4") demo.start)))).
    apply (openai_new_ready (PStr "sk-test") (PStr "gpt-4") demo.start). reflexivity.
  - apply (proj2 (generate_makes_one_request demo.offline 0%nat demo.requirement
                    (snd (GeminiEngine.new demo.offline (PStr "key") (PStr "gemini-pro")
                         demo.start)))).
    apply (gemini_new_ready demo.offline (PStr "key") (PStr "gemini-pro") demo.start). reflexivity.
Defined.

(** C10: a call of [generate_testcases], on any object and in any state,
    changes nothing but the log: the objects in the heap with their fields
    (client and model of an OpenAI engine, model of a Gemini engine), the
    module-level names and the key of the genai package are after the call
    what they were before it; a second call on the same engine therefore
    starts from the memory the first one started from, and leaves it so. *)
Theorem generate_leaves_memory (P : Platform) (self : loc)
    (text1 text2 : string) (s : state) :
  let s1 := snd (OpenAIEngine.generate_testcases P self text1 s) in
  let s2 := snd (GeminiEngine.generate_testcases P self text1 s) in
  same_memory s s1
  ∧ same_memory s s2
  ∧ same_memory s (snd (OpenAIEngine.generate_testcases P self text2 s1))
  ∧ same_memory s (snd (GeminiEngine.generate_testcases P self text2 s2)).
Proof.
  intros s1 s2.
  assert (H1 : same_memory s s1) by apply openai_generate_memory.
  assert (H2 : same_memory s s2) by apply gemini_generate_memory.
  repeat split; try apply H1; try apply H2.
  all: try (eapply same_memory_trans; [exact H1|apply openai_generate_memory]).
  all: try (eapply same_memory_trans; [exact H2|apply gemini_generate_memory]).
Qed.

(** ** The run of [main] *)

Section main_facts.
Variable P : Platform.

(** [Path(p).exists()] answers, or raises what the file system raised. *)
Lemma exists_run (p : string) (s : state) :
  main.exists_ P p s
  = match path_exists P (log s) p with
    | inr found => (Return found, s)
    | inl e => (Raise e, s)
    end.
Proof.
  unfold main.exists_, ask, lift.
  by destruct (path_exists P (log s) p).
Qed.

Lemma main_enters argv s0 args s :
  enters_try P argv s0 args s →
  main.main P argv s0
  = try_except (main.pipeline P args)
      [(Exception, fun e =>
          print ("❌ Error during processing: " +:+ exn_msg e);; sys_exit 1)] s.
Proof.
  intros [s1 [Hparse [Hexists ->]]].
  unfold main.main. rewrite bind_run, Hparse.
  unfold main.exists_. run. rewrite Hexists. reflexivity.
Qed.

Lemma pipeline_unfold args s :
  main.pipeline P args s
  = match extract_text.extract_text_from_file P (args !!! "input_file") s with
    | (Return text, s1) =>
        if negb (truthy (PStr (strip text))) then
          (SystemExit 1, logged [EvPrint "❌ No text content found in the document."] s1)
        else from_loading P args text (logged [extracted text] s1)
    | (Raise e, s1) => (Raise e, s1)
    | (SystemExit c, s1) => (SystemExit c, s1)
    end.
Proof.
  unfold main.pipeline. rewrite bind_run.
  destruct (extract_text.extract_text_from_file P _ s) as [[text|e|c] s1]; try reflexivity.
  destruct (negb (truthy (PStr (strip text)))); reflexivity.
Qed.

Lemma from_construction_unfold args text config s :
  from_construction P args text config s
  = match main.get_ai_engine P config s with
    | (Return engine, s3) =>
        match config with
        | PDict _ =>
            from_generation P args text engine (logged [using_engine P config; generating] s3)
        | _ => (Raise (Exn AttributeError
                         ("'" +:+ type_name config +:+ "' object has no attribute 'get'")),
                s3)
        end
    | (Raise e, s3) => (Raise e, s3)
    | (SystemExit c, s3) => (SystemExit c, s3)
    end.
Proof.
  unfold from_construction. rewrite bind_run.
  destruct (main.get_ai_engine P config s) as [[engine|e|c] s3]; try reflexivity.
  destruct config; try reflexivity.
  unfold main.py_get. run. unfold logged, set_log. simpl.
  by rewrite <- app_assoc.
Qed.

Lemma from_generation_unfold args text engine s :
  from_generation P args text engine s
  = match main.generate_testcases P engine text s with
    | (Return testcases, s4) =>
        match testcases with
        | [] => (SystemExit 1, logged [EvPrint "❌ No test cases were generated."] s4)
        | _ :: _ =>
            match export_excel.save_testcases_to_excel P testcases (args !!! "output")
                    (logged [generated testcases; saving args] s4) with
            | (Return _, s5) => (Return tt, logged [completed] s5)
            | (Raise e, s5) => (Raise e, s5)
            | (SystemExit c, s5) => (SystemExit c, s5)
            end
        end
    | (Raise e, s4) => (Raise e, s4)
    | (SystemExit c, s4) => (SystemExit c, s4)
    end.
Proof.
  unfold from_generation. rewrite bind_run.
  destruct (main.generate_testcases P engine text s) as [[testcases|e|c] s4];
    try reflexivity.
  destruct testcases as [|tc0 rest]; [reflexivity|].
  cbn [fmap list_fmap truthy negb].
  rewrite bind_run. unfold print at 1, emit at 1. cbv beta iota.
  rewrite bind_run. unfold print at 1, emit at 1. cbv beta iota.
  rewrite bind_run.
  replace (set_log _ (set_log _ s4))
    with (logged [generated (tc0 :: rest); saving args] s4).
  2:{ unfold logged, set_log. simpl. by rewrite <- app_assoc. }
  destruct (export_excel.save_testcases_to_excel P _ _ _) as [[[]|e|c] s5]; reflexivity.
Qed.

(** A configuration that [get_ai_engine] accepts is a dictionary. *)
Lemma get_ai_engine_dict config s engine s' :
  main.get_ai_engine P config s = (Return engine, s') → ∃ d, config = PDict d.
Proof.
  destruct config; try discriminate. eauto.
Qed.

(** When a stage is about to run, what is left of the pipeline is that
    stage and the stages after it. *)
Lemma pipeline_at_loading args s text s' :
  at_loading P args s text s' →
  main.pipeline P args s = from_loading P args text s'.
Proof.
  intros [s1 [Hx [Ht ->]]]. rewrite pipeline_unfold, Hx, Ht. reflexivity.
Qed.

Lemma pipeline_at_construction args s text config s' :
  at_construction P args s text config s' →
  main.pipeline P args s = from_construction P args text config s'.
Proof.
  intros [s1 [Hat Hl]]. rewrite (pipeline_at_loading _ _ _ _ Hat).
  unfold from_loading. rewrite bind_run, Hl. reflexivity.
Qed.

Lemma pipeline_at_generation args s text config engine s' :
  at_generation P args s text config engine s' →
  main.pipeline P args s = from_generation P args text engine s'.
Proof.
  intros [s2 [s3 [Hat [Hg ->]]]]. rewrite (pipeline_at_construction _ _ _ _ _ Hat).
  rewrite from_construction_unfold, Hg.
  destruct (get_ai_engine_dict _ _ _ _ Hg) as [d ->]. reflexivity.
Qed.

Lemma pipeline_at_export args s text config engine testcases s' :
  at_export P args s text config engine testcases s' →
  main.pipeline P args s
  = match export_excel.save_testcases_to_excel P testcases (args !!! "output") s' with
    | (Return _, s5) => (Return tt, logged [completed] s5)
    | (Raise e, s5) => (Raise e, s5)
    | (SystemExit c, s5) => (SystemExit c, s5)
    end.
Proof.
  intros [s3 [s4 [Hat [Hg [Hne ->]]]]]. rewrite (pipeline_at_generation _ _ _ _ _ _ Hat).
  rewrite from_generation_unfold, Hg.
  destruct testcases; [done|reflexivity].
Qed.

(** An exception raised by a stage is what the body of the [try] statement
    raises, in the state the stage left. *)
Lemma stage_raise_is_pipeline_raise args s e s'' :
  stage_raises P args s e s'' → main.pipeline P args s = (Raise e, s'').
Proof.
  intros [Hx | text s' Hat Hl | text config s' Hat Hg
         | text config engine s' Hat Hg | text config engine testcases s' Hat Hs].
  - rewrite pipeline_unfold, Hx. reflexivity.
  - rewrite (pipeline_at_loading _ _ _ _ Hat). unfold from_loading.
    rewrite bind_run, Hl. reflexivity.
  - rewrite (pipeline_at_construction _ _ _ _ _ Hat), from_construction_unfold, Hg.
    reflexivity.
  - rewrite (pipeline_at_generation _ _ _ _ _ _ Hat), from_generation_unfold, Hg.
    reflexivity.
  - rewrite (pipeline_at_export _ _ _ _ _ _ _ Hat), Hs. reflexivity.
Qed.

(** And the body of the [try] statement raises nothing else. *)
Lemma pipeline_raise_is_stage_raise args s e s'' :
  main.pipeline P args s = (Raise e, s'') → stage_raises P args s e s''.
Proof.
  rewrite pipeline_unfold.
  destruct (extract_text.extract_text_from_file P _ s) as [[text|e0|c] s1] eqn:Hx;
    try discriminate.
  2:{ intros [= -> ->]. by apply text_extraction_raises. }
  destruct (truthy (PStr (strip text))) eqn:Ht; [|discriminate]. cbn [negb].
  assert (Hload : at_loading P args s text (logged [extracted text] s1)).
  { exists s1. by rewrite Hx. }
  unfold from_loading. rewrite bind_run.
  destruct (main.load_config P _ _) as [[config|e0|c] s2] eqn:Hl; try discriminate.
  2:{ intros [= -> ->]. by eapply config_loading_raises. }
  assert (Hcons : at_construction P args s text config s2) by (by eexists).
  rewrite from_construction_unfold.
  destruct (main.get_ai_engine P config s2) as [[engine|e0|c] s3] eqn:Hg; try discriminate.
  2:{ intros [= -> ->]. by eapply engine_construction_raises. }
  destruct (get_ai_engine_dict _ _ _ _ Hg) as [d ->].
  assert (Hgen : at_generation P args s text (PDict d) engine
                   (logged [using_engine P (PDict d); generating] s3)).
  { by exists s2, s3. }
  rewrite from_generation_unfold.
  destruct (main.generate_testcases P engine text _) as [[testcases|e0|c] s4] eqn:Hgt;
    try discriminate.
  2:{ intros [= -> ->]. by eapply testcase_generation_raises. }
  destruct testcases as [|tc0 rest]; [discriminate|].
  assert (Hexp : at_export P args s text (PDict d) engine (tc0 :: rest)
                   (logged [generated (tc0 :: rest); saving args] s4)).
  { eexists _, s4. by repeat split. }
  destruct (export_excel.save_testcases_to_excel P _ _ _) as [[[]|e0|c] s5] eqn:Hs;
    try discriminate.
  intros [= -> ->]. by eapply excel_export_raises.
Qed.

End main_facts.

(** C2, as the code has it: once [main] has entered its [try] statement,
    an exception that leaves a stage of the pipeline (text extraction,
    configuration loading, engine construction, test-case generation, Excel
    export), the earlier stages having returned, reaches the one handler of
    [main]: the run ends with status 1, and its final state is the state in
    which the stage raised with the line that reports the error printed
    after it, so that [main] runs nothing again and does nothing else after
    the failure. *)
Theorem main_handles_every_exception (P : Platform) (argv : list string)
    (s0 : state) (args : argparse.Namespace) (s : state) (e : exn) (s'' : state) :
  enters_try P argv s0 args s →
  stage_raises P args s e s'' →
  main.main P argv s0 = (SystemExit 1, logged [processing_error e] s'').
Proof.
  intros Henter Hraise.
  rewrite (main_enters P argv s0 args s Henter).
  rewrite (try_except_Exception _ _ s e s'').
  - reflexivity.
  - by apply stage_raise_is_pipeline_raise.
Qed.

(** C2 as the specification words it, for every exception raised during
    the pipeline, does not hold. Reading [legacy.txt] as UTF-8 raises
    UnicodeDecodeError during text extraction; [extract_text_from_txt]
    catches it and reads the file again as latin-1, and the run goes on and
    returns. A missing configuration file raises FileNotFoundError during
    configuration loading; [load_config] catches it, prints its own line
    and exits, and the handler of [main] prints nothing. *)
Lemma stages_handle_exceptions_themselves :
  read_text demo.platform (log (logged [reading (<["input_file" := "legacy.txt"]> demo.args)]
                                 demo.start))
    "legacy.txt" UTF8
  = inl (Exn UnicodeDecodeError "invalid start byte")
  ∧ fst (main.main demo.platform ["legacy.txt"] demo.start) = Return tt
  ∧ main.main demo.platform ["req.txt"; "-c"; "nowhere.yaml"] demo.start
    = (SystemExit 1,
       logged [EvPrint "❌ Configuration file 'nowhere.yaml' not found."]
         (logged [extracted demo.requirement] (logged [reading demo.args] demo.start)))
  ∧ ¬ every_exception_reaches_the_handler demo.platform.
Proof.
  assert (fst (main.main demo.platform ["legacy.txt"] demo.start) = Return tt) as Hrun
    by reflexivity.
  split; [reflexivity|]. split; [exact Hrun|]. split; [reflexivity|].
  intros Hall.
  destruct (Hall ["legacy.txt"] demo.start (<["input_file" := "legacy.txt"]> demo.args)
              (logged [reading (<["input_file" := "legacy.txt"]> demo.args)] demo.start)
              (Exn UnicodeDecodeError "invalid start byte")) as [e' [s' Hend]].
  - exists demo.start. split; [reflexivity|]. split; reflexivity.
  - apply utf8_read_raises; reflexivity.
  - rewrite Hend in Hrun. discriminate Hrun.
Qed.

(** A run with the service down: the request is made, the exception of the
    engine reaches the handler, and the run ends with status 1. *)
Lemma main_handles_every_exception_witness :
  main.main demo.offline ["req.txt"] demo.start
  = (SystemExit 1,
     logged [processing_error
               (Exn Exception "Error calling OpenAI API: Connection error.")]
       (snd (main.pipeline demo.offline demo.args
               (logged [reading demo.args] demo.start)))).
Proof.
  apply (main_handles_every_exception demo.offline ["req.txt"] demo.start
           demo.args (logged [reading demo.args] demo.start)).
  - exists demo.start. split; [reflexivity|]. split; reflexivity.
  - eapply (testcase_generation_raises demo.offline demo.args _ _ _
              demo.requirement _ 0%nat).
    + eexists _, _. split; [|split; [|reflexivity]].
      * eexists. split.
        -- eexists. split; [reflexivity|]. split; reflexivity.
        -- reflexivity.
      * reflexivity.
    + reflexivity.
Defined.

Section load_config_facts.
Variable P : Platform.

Lemma load_config_found (config_path : string) (s : state) (text : string) (config : pyval) :
  read_text P (log s) config_path UTF8 = inr text →
  yaml_safe_load P text = inr config →
  main.load_config P config_path s = (Return config, s).
Proof.
  intros Hread Hyaml. unfold main.load_config, try_except. run.
  rewrite Hread. simpl. rewrite Hyaml. reflexivity.
Qed.

Lemma load_config_missing (config_path : string) (s : state) (e : exn) :
  read_text P (log s) config_path UTF8 = inl e →
  isinstance e FileNotFoundError = true →
  main.load_config P config_path s
  = (SystemExit 1,
     logged [EvPrint ("❌ Configuration file '" +:+ config_path +:+ "' not found.")] s).
Proof.
  intros Hread Hfnf. unfold main.load_config, try_except. run.
  rewrite Hread. simpl. rewrite Hfnf. reflexivity.
Qed.

Lemma load_config_malformed (config_path : string) (s : state) (text : string) (e : exn) :
  read_text P (log s) config_path UTF8 = inr text →
  yaml_safe_load P text = inl e →
  isinstance e YAMLError = true →
  main.load_config P config_path s
  = (SystemExit 1,
     logged [EvPrint ("❌ Error parsing configuration file: " +:+ exn_msg e)] s).
Proof.
  intros Hread Hyaml Hy. unfold main.load_config, try_except. run.
  rewrite Hread. simpl. rewrite Hyaml. simpl.
  destruct e as [[] msg]; try discriminate. reflexivity.
Qed.

(** When it returns, [load_config] has left the state as it was. *)
Lemma load_config_return_state (config_path : string) (s : state) config s' :
  main.load_config P config_path s = (Return config, s') → s' = s.
Proof.
  unfold main.load_config, try_except. run.
  destruct (read_text P (log s) config_path UTF8) as [e|text]; simpl.
  - destruct (isinstance e FileNotFoundError); simpl; [discriminate|].
    destruct (isinstance e YAMLError); simpl; discriminate.
  - destruct (yaml_safe_load P text) as [e|v]; simpl.
    + destruct (isinstance e FileNotFoundError); simpl; [discriminate|].
      destruct (isinstance e YAMLError); simpl; discriminate.
    + by intros [= _ <-].
Qed.

Lemma main_exit_in_loading argv s0 args s text s' code s'' :
  enters_try P argv s0 args s →
  at_loading P args s text s' →
  main.load_config P (args !!! "config") s' = (SystemExit code, s'') →
  main.main P argv s0 = (SystemExit code, s'').
Proof.
  intros Henter Hat Hexit.
  rewrite (main_enters P argv s0 args s Henter).
  apply try_except_exit.
  rewrite (pipeline_at_loading P _ _ _ _ Hat). unfold from_loading.
  rewrite bind_run, Hexit. reflexivity.
Qed.

End load_config_facts.

(** C8: [load_config] returns what the YAML decoder makes of the file when
    the file can be read and decodes, leaving the state as it is; when
    opening the file raises FileNotFoundError, or the decoder raises a
    YAMLError, it prints its message and exits with status 1; and when that
    happens in a run of [main], inside the [try] statement, the run ends
    with that exit in the state [load_config] left: the handler of [main]
    has not run and has printed nothing. *)
Theorem load_config_exit_passes_the_handler (P : Platform) :
  (∀ (config_path : string) (s : state) (text : string) (config : pyval),
     read_text P (log s) config_path UTF8 = inr text →
     yaml_safe_load P text = inr config →
     main.load_config P config_path s = (Return config, s))
  ∧ (∀ (config_path : string) (s : state) (e : exn),
       read_text P (log s) config_path UTF8 = inl e →
       isinstance e FileNotFoundError = true →
       main.load_config P config_path s
       = (SystemExit 1,
          logged [EvPrint ("❌ Configuration file '" +:+ config_path
                           +:+ "' not found.")] s))
  ∧ (∀ (config_path : string) (s : state) (text : string) (e : exn),
       read_text P (log s) config_path UTF8 = inr text →
       yaml_safe_load P text = inl e →
       isinstance e YAMLError = true →
       main.load_config P config_path s
       = (SystemExit 1,
          logged [EvPrint ("❌ Error parsing configuration file: " +:+ exn_msg e)] s))
  ∧ (∀ (argv : list string) (s0 : state) (args : argparse.Namespace) (s : state)
       (text : string) (s' : state) (code : Z) (s'' : state),
       enters_try P argv s0 args s →
       at_loading P args s text s' →
       main.load_config P (args !!! "config") s' = (SystemExit code, s'') →
       main.main P argv s0 = (SystemExit code, s'')).
Proof.
  split; [apply load_config_found|].
  split; [apply load_config_missing|].
  split; [apply load_config_malformed|].
  apply main_exit_in_loading.
Qed.

(** Two runs of [main] in which [load_config] exits, the file missing and
    the file malformed: the last line printed is its own. *)
Lemma load_config_exit_passes_the_handler_witness :
  main.main demo.platform ["SPEC.TXT"; "-c"; "nope.yaml"] demo.start
  = (SystemExit 1,
     logged [EvPrint "📖 Reading requirement document: SPEC.TXT";
             extracted demo.requirement;
             EvPrint "❌ Configuration file 'nope.yaml' not found."] demo.start)
  ∧ main.main demo.platform ["req.txt"; "--config"; "broken.yaml"] demo.start
    = (SystemExit 1,
       logged [EvPrint "📖 Reading requirement document: req.txt";
               extracted demo.requirement;
               EvPrint "❌ Error parsing configuration file: Expecting value"]
         demo.start).
Proof.
  pose proof (load_config_exit_passes_the_handler demo.platform)
    as [_ [Hmissing [Hmalformed Hmain]]].
  split.
  - eapply (Hmain _ _ (<["config" := "nope.yaml"]> (<["input_file" := "SPEC.TXT"]> demo.args))).
    + exists demo.start. split; [reflexivity|]. split; reflexivity.
    + eexists. split; [reflexivity|]. split; reflexivity.
    + rewrite (Hmissing _ _ (Exn FileNotFoundError "No such file or directory: nope.yaml"));
        reflexivity.
  - eapply (Hmain _ _ (<["config" := "broken.yaml"]> demo.args)).
    + exists demo.start. split; [reflexivity|]. split; reflexivity.
    + eexists. split; [reflexivity|]. split; reflexivity.
    + rewrite (Hmalformed _ _ "{ai_engine" (Exn YAMLError "Expecting value"));
        reflexivity.
Defined.

(** ** Successful runs *)

Section successful_runs.
Variable P : Platform.

Lemma class_of_logged (self : loc) (evs : list event) (s : state) (c : pyclass) :
  class_of self s = (Return c, s) →
  class_of self (logged evs s) = (Return c, logged evs s).
Proof.
  unfold class_of. simpl. destruct (heap s !! self); [|discriminate].
  by intros [= ->].
Qed.

Lemma openai_new_class api_key model s self s' :
  OpenAIEngine.new api_key model s = (Return self, s') →
  class_of self s' = (Return COpenAIEngine, s').
Proof.
  unfold OpenAIEngine.new, OpenAIEngine.__init__, alloc, setattr, class_of. run.
  destruct (OPENAI_AVAILABLE s); simpl; [|discriminate].
  destruct (truthy api_key); simpl; [|discriminate].
  intros [= <- <-]. simpl.
  by rewrite !lookup_alter_eq, lookup_insert_eq.
Qed.

Lemma gemini_new_class api_key model s self s' :
  GeminiEngine.new P api_key model s = (Return self, s') →
  class_of self s' = (Return CGeminiEngine, s').
Proof.
  unfold GeminiEngine.new, GeminiEngine.__init__, GeminiEngine.genai_configure,
    GeminiEngine.GenerativeModel, alloc, setattr, class_of. run.
  destruct (GEMINI_AVAILABLE s); simpl; [|discriminate].
  destruct (truthy api_key); simpl; [|discriminate].
  destruct (generative_model P model); simpl; [discriminate|].
  intros [= <- <-]. simpl.
  by rewrite !lookup_alter_eq, lookup_insert_eq.
Qed.

(** The engine [get_ai_engine] returns is one of the two, set up, and
    constructing it has logged nothing. *)
Lemma get_ai_engine_returns config s engine s' :
  main.get_ai_engine P config s = (Return engine, s') →
  log s' = log s
  ∧ ((∃ api_key model, class_of engine s' = (Return COpenAIEngine, s')
                       ∧ openai_ready s' engine api_key model)
     ∨ (∃ model, class_of engine s' = (Return CGeminiEngine, s')
                 ∧ gemini_ready s' engine model)).
Proof.
  destruct config as [| | | | |l|d]; try discriminate.
  unfold main.get_ai_engine. rewrite bind_run. unfold main.py_get at 1. run.
  destruct (dict_get d "ai_engine" (PStr "openai")) as [| | | |name| |]; try discriminate.
  simpl.
  destruct (String.eqb (lower P name) "openai").
  { destruct (dict_get d "openai" (PDict ∅)) as [| | | | | |oc]; try discriminate. simpl.
    intros Hnew. pose proof (openai_new_ready _ _ _ _ _ Hnew) as [Hready Hlog].
    split; [exact Hlog|]. left. eexists _, _. split; [|exact Hready].
    by eapply openai_new_class. }
  destruct (String.eqb (lower P name) "gemini"); [|discriminate].
  destruct (dict_get d "gemini" (PDict ∅)) as [| | | | | |gc]; try discriminate. simpl.
  intros Hnew. pose proof (gemini_new_ready P _ _ _ _ _ Hnew) as [Hready Hlog].
  split; [exact Hlog|]. right. eexists. split; [|exact Hready].
  by eapply gemini_new_class.
Qed.

Lemma openai_ready_logged evs s self api_key model :
  openai_ready s self api_key model → openai_ready (logged evs s) self api_key model.
Proof. intros H. exact H. Qed.

Lemma gemini_ready_logged evs s self model :
  gemini_ready s self model → gemini_ready (logged evs s) self model.
Proof. intros H. exact H. Qed.

Lemma logged_logged (evs1 evs2 : list event) (s : state) :
  logged evs2 (logged evs1 s) = logged (evs1 ++ evs2) s.
Proof. unfold logged, set_log. simpl. by rewrite app_assoc. Qed.

Lemma log_logged (evs : list event) (s : state) : log (logged evs s) = log s ++ evs.
Proof. reflexivity. Qed.

(** What a successful export logs. *)
Lemma save_returns testcases output_path s s' :
  export_excel.save_testcases_to_excel P testcases output_path s = (Return tt, s') →
  s' = logged [EvExcelWrite (path_str output_path) (export_excel.build_rows P testcases);
               EvPrint ("✅ Excel file saved successfully: " +:+ path_str output_path)] s.
Proof.
  unfold export_excel.save_testcases_to_excel, export_excel.write_excel.
  destruct testcases as [|tc0 rest]; [discriminate|]. run.
  match goal with |- context [excel_write P ?h ?p ?r] =>
    destruct (excel_write P h p r) as [e|] end; simpl; [discriminate|].
  intros [= <-]. unfold logged, set_log. simpl. by rewrite <- app_assoc.
Qed.

End successful_runs.

Section successful_runs_of_main.
Variable P : Platform.

(** The handler of [main] ends the run: a [try] statement that returns has
    its body return. *)
Lemma main_try_returns (body : M unit) s s' :
  try_except body
    [(Exception, fun e =>
        print ("❌ Error during processing: " +:+ exn_msg e);; sys_exit 1)] s
  = (Return tt, s') →
  body s = (Return tt, s').
Proof.
  unfold try_except. destruct (body s) as [[[]|e|c] s1]; try done.
  simpl. rewrite isinstance_Exception. run. discriminate.
Qed.

Lemma main_returns argv s0 s_end :
  main.main P argv s0 = (Return tt, s_end) →
  ∃ args s, enters_try P argv s0 args s
            ∧ main.pipeline P args s = (Return tt, s_end).
Proof.
  unfold main.main. intros Hmain.
  apply bind_return_inv in Hmain as [args [s1 [Hparse Hrest]]].
  apply bind_return_inv in Hrest as [found [s1' [Hfound Hrest]]].
  rewrite exists_run in Hfound.
  destruct (path_exists P (log s1) (args !!! "input_file")) as [e|[]] eqn:Hexists;
    [discriminate| |]; injection Hfound as <- <-; simpl in Hrest; [|discriminate].
  apply main_try_returns in Hrest.
  exists args, (logged [reading args] s1). split; [|exact Hrest].
  exists s1. by repeat split.
Qed.

Lemma pipeline_returns args s s_end :
  main.pipeline P args s = (Return tt, s_end) →
  ∃ text config engine testcases s_x s5,
    at_export P args s text config engine testcases s_x
    ∧ export_excel.save_testcases_to_excel P testcases (args !!! "output") s_x
      = (Return tt, s5)
    ∧ s_end = logged [completed] s5.
Proof.
  rewrite pipeline_unfold.
  destruct (extract_text.extract_text_from_file P _ s) as [[text|e0|c] s1] eqn:Hx;
    try discriminate.
  destruct (truthy (PStr (strip text))) eqn:Ht; [|discriminate]. cbn [negb].
  assert (Hload : at_loading P args s text (logged [extracted text] s1)).
  { exists s1. by rewrite Hx. }
  unfold from_loading. rewrite bind_run.
  destruct (main.load_config P _ _) as [[config|e0|c] s2] eqn:Hl; try discriminate.
  assert (Hcons : at_construction P args s text config s2) by (by eexists).
  rewrite from_construction_unfold.
  destruct (main.get_ai_engine P config s2) as [[engine|e0|c] s3] eqn:Hg; try discriminate.
  destruct (get_ai_engine_dict _ _ _ _ _ Hg) as [d ->].
  assert (Hgen : at_generation P args s text (PDict d) engine
                   (logged [using_engine P (PDict d); generating] s3)).
  { by exists s2, s3. }
  rewrite from_generation_unfold.
  destruct (main.generate_testcases P engine text _) as [[testcases|e0|c] s4] eqn:Hgt;
    try discriminate.
  destruct testcases as [|tc0 rest]; [discriminate|].
  assert (Hexp : at_export P args s text (PDict d) engine (tc0 :: rest)
                   (logged [generated (tc0 :: rest); saving args] s4)).
  { eexists _, s4. by repeat split. }
  destruct (export_excel.save_testcases_to_excel P _ _ _) as [[[]|e0|c] s5] eqn:Hs;
    try discriminate.
  intros [= <-]. eexists _, _, _, _, _, _. split; [exact Hexp|]. split; [exact Hs|done].
Qed.

(** The engine's method returns only after its one request. *)
Lemma main_generate_returns engine text s testcases s' :
  ((∃ api_key model, class_of engine s = (Return COpenAIEngine, s)
                     ∧ openai_ready s engine api_key model)
   ∨ (∃ model, class_of engine s = (Return CGeminiEngine, s)
               ∧ gemini_ready s engine model)) →
  main.generate_testcases P engine text s = (Return testcases, s') →
  ∃ request,
    ((∃ api_key model, request = openai_request api_key model text)
     ∨ (∃ model, request = gemini_request model text))
    ∧ s' = logged [request] s.
Proof.
  unfold main.generate_testcases. rewrite bind_run.
  intros [[api_key [model [-> Hready]]]|[model [-> Hready]]] Hrun.
  - exists (openai_request api_key model text). split; [left; eauto|].
    rewrite <- (openai_generate_ready P engine text s api_key model Hready).
    by rewrite Hrun.
  - exists (gemini_request model text). split; [right; eauto|].
    rewrite <- (gemini_generate_ready P engine text s model Hready).
    by rewrite Hrun.
Qed.

(** The log when the export is about to run. *)
Lemma at_export_log args s text config engine testcases s_x :
  at_export P args s text config engine testcases s_x →
  extract_text.extract_text_from_file P (args !!! "input_file") s = (Return text, s)
  ∧ ∃ request,
      ((∃ api_key model, request = openai_request api_key model text)
       ∨ (∃ model, request = gemini_request model text))
      ∧ log s_x = log s ++ [extracted text; using_engine P config; generating;
                            request; generated testcases; saving args].
Proof.
  intros [s3' [s4 [[s2 [s3 [[s1' [[s1 [Hx [Ht ->]]] Hl]] [Hg ->]]]] [Hgt [Hne ->]]]]].
  pose proof (extract_state P (args !!! "input_file") s) as Hs. rewrite Hx in Hs.
  simpl in Hs. subst s1. split; [exact Hx|].
  apply load_config_return_state in Hl. subst s2.
  apply get_ai_engine_returns in Hg as [Hlog Hready].
  apply main_generate_returns in Hgt as [request [Hreq ->]].
  2:{ destruct Hready as [[k [m [Hc Hr]]]|[m [Hc Hr]]]; [left|right].
      - exists k, m. split; [by apply class_of_logged|exact Hr].
      - exists m. split; [by apply class_of_logged|exact Hr]. }
  exists request. split; [exact Hreq|].
  rewrite !log_logged, Hlog, log_logged, <- !app_assoc. reflexivity.
Qed.

End successful_runs_of_main.

(** C4: in every run of [main] that ends normally, the text the engine is
    called with is the string [extract_text_from_file] returned, so that
    the one request of the run carries the prompt built from that very
    string, and the list [save_testcases_to_excel] is called with is the
    list the engine's [generate_testcases] returned, so that the rows
    written are the rows of that very list; from the [try] statement on the
    run does what the log below says and nothing else. *)
Theorem successful_run_passes_values_through (P : Platform)
    (argv : list string) (s0 s_end : state) :
  main.main P argv s0 = (Return tt, s_end) →
  ∃ (args : argparse.Namespace) (s : state) (text : string) (config : pyval)
    (engine : loc) (testcases : list pydict) (s_g s_g' s_x s_x' : state)
    (request : event),
    enters_try P argv s0 args s
    ∧ extract_text.extract_text_from_file P (args !!! "input_file") s = (Return text, s)
    ∧ main.generate_testcases P engine text s_g = (Return testcases, s_g')
    ∧ export_excel.save_testcases_to_excel P testcases (args !!! "output") s_x
      = (Return tt, s_x')
    ∧ ((∃ api_key model, request = openai_request api_key model text)
       ∨ (∃ model, request = gemini_request model text))
    ∧ log s_end
      = log s ++ [extracted text; using_engine P config; generating; request;
                  generated testcases; saving args;
                  EvExcelWrite (path_str (args !!! "output"))
                               (export_excel.build_rows P testcases);
                  saved args; completed].
Proof.
  intros Hmain.
  apply main_returns in Hmain as [args [s [Henter Hpipe]]].
  apply pipeline_returns in Hpipe
    as [text [config [engine [testcases [s_x [s5 [Hexp [Hsave ->]]]]]]]].
  pose proof (at_export_log P _ _ _ _ _ _ _ Hexp) as [Hx [request [Hreq Hlog]]].
  pose proof Hexp as [s_g [s_g' [_ [Hgen _]]]].
  exists args, s, text, config, engine, testcases, s_g, s_g', s_x, s5, request.
  split; [exact Henter|]. split; [exact Hx|]. split; [exact Hgen|].
  split; [exact Hsave|]. split; [exact Hreq|].
  apply save_returns in Hsave. subst s5.
  rewrite !log_logged, Hlog, <- !app_assoc. reflexivity.
Qed.

(** The run on the test platform. *)
Lemma successful_run_passes_values_through_witness :
  ∃ (args : argparse.Namespace) (s : state) (text : string) (config : pyval)
    (engine : loc) (testcases : list pydict) (s_g s_g' s_x s_x' : state)
    (request : event),
    enters_try demo.platform ["req.txt"] demo.start args s
    ∧ extract_text.extract_text_from_file demo.platform (args !!! "input_file") s
      = (Return text, s)
    ∧ main.generate_testcases demo.platform engine text s_g = (Return testcases, s_g')
    ∧ export_excel.save_testcases_to_excel demo.platform testcases (args !!! "output") s_x
      = (Return tt, s_x')
    ∧ ((∃ api_key model, request = openai_request api_key model text)
       ∨ (∃ model, request = gemini_request model text))
    ∧ log (snd (main.main demo.platform ["req.txt"] demo.start))
      = log s ++ [extracted text; using_engine demo.platform config; generating; request;
                  generated testcases; saving args;
                  EvExcelWrite (path_str (args !!! "output"))
                               (export_excel.build_rows demo.platform testcases);
                  saved args; completed].
Proof.
  apply (successful_run_passes_values_through demo.platform ["req.txt"] demo.start).
  vm_compute. reflexivity.
Defined.

(** ** The command line *)

Section command_line_facts.

Lemma find_option_plain (w : string) :
  argparse.starts_with_dash w = false → argparse.find_option main.parser w = None.
Proof.
  intros Hw. unfold argparse.find_option. cbn.
  repeat case_bool_decide; try reflexivity.
  all: match goal with H : _ ∈ _ |- _ =>
         repeat (apply elem_of_cons in H as [->|H]; [discriminate|]);
         by apply elem_of_nil in H end.
Qed.

Lemma plain_command_line (items : list cli_item) :
  Forall plain_item items →
  forallb (argparse.plain_word main.parser) (command_line items) = true.
Proof.
  induction 1 as [|it items Hit _ IH]; [reflexivity|].
  unfold command_line in *. simpl. rewrite forallb_app, IH, andb_true_r.
  assert (Hplain : ∀ w, argparse.starts_with_dash w = false →
                        argparse.plain_word main.parser w = true).
  { intros w Hw. unfold argparse.plain_word. by rewrite Hw. }
  destruct it as [path|[] path|[] path]; simpl in *; by rewrite (Hplain path Hit).
Qed.

(** With every positional argument filled: any further word is left over. *)
Lemma consume_filled (items : list cli_item) : ∀ left_over ns,
  Forall plain_item items →
  argparse.consume main.parser (command_line items) [] left_over ns
  = if left_over || match inputs items with [] => false | _ => true end
    then inr 2 else inl (stored items ns).
Proof.
  induction items as [|it items IH]; intros left_over ns Hall.
  - simpl. by destruct left_over.
  - apply Forall_cons in Hall as [Hit Hall].
    unfold command_line in *.
    destruct it as [path|[] path|[] path]; simpl in Hit |- *.
    + rewrite (find_option_plain path Hit), (IH true _ Hall). simpl.
      by rewrite orb_true_r.
    + rewrite (find_option_plain path Hit). simpl. by rewrite (IH _ _ Hall).
    + rewrite (find_option_plain path Hit). simpl. by rewrite (IH _ _ Hall).
    + rewrite (find_option_plain path Hit). simpl. by rewrite (IH _ _ Hall).
    + rewrite (find_option_plain path Hit). simpl. by rewrite (IH _ _ Hall).
Qed.

(** With the input path still to come. *)
Lemma consume_unfilled (items : list cli_item) : ∀ ns,
  Forall plain_item items →
  argparse.consume main.parser (command_line items)
    (argparse.positionals main.parser) false ns
  = match inputs items with
    | [_] => inl (stored items ns)
    | _ => inr 2
    end.
Proof.
  induction items as [|it items IH]; intros ns Hall; [reflexivity|].
  apply Forall_cons in Hall as [Hit Hall].
  unfold command_line in *.
  destruct it as [path|[] path|[] path]; simpl in Hit |- *.
  - rewrite (find_option_plain path Hit).
    change (argparse.positionals main.parser) with
      [ {| argparse.option_strings := []; argparse.dest := "input_file";
           argparse.default_value := None; argparse.required := true;
           argparse.help := "Path to the requirement document (PDF, DOCX, or TXT)" |} ].
    cbn [argparse.dest]. rewrite (consume_filled items false _ Hall). simpl.
    by destruct (inputs items).
  - rewrite (find_option_plain path Hit). simpl. by rewrite (IH _ Hall).
  - rewrite (find_option_plain path Hit). simpl. by rewrite (IH _ Hall).
  - rewrite (find_option_plain path Hit). simpl. by rewrite (IH _ Hall).
  - rewrite (find_option_plain path Hit). simpl. by rewrite (IH _ Hall).
Qed.

Lemma stored_input (items : list cli_item) : ∀ ns path,
  inputs items = [path] → stored items ns !! "input_file" = Some path.
Proof.
  assert (Hnone : ∀ items ns, inputs items = [] →
                              stored items ns !! "input_file" = ns !! "input_file").
  { clear. induction items as [|[p|sp p|sp p] items IH]; intros ns Hin; simpl in *;
      try discriminate; try reflexivity.
    - rewrite (IH _ Hin). by rewrite lookup_insert_ne.
    - rewrite (IH _ Hin). by rewrite lookup_insert_ne. }
  induction items as [|[p|sp p|sp p] items IH]; intros ns path Hin; simpl in *;
    try discriminate.
  - injection Hin as -> Hrest. rewrite (Hnone _ _ Hrest). by rewrite lookup_insert_eq.
  - by apply IH.
  - by apply IH.
Qed.

Lemma stored_output (items : list cli_item) : ∀ ns dflt,
  ns !! "output" = Some dflt →
  stored items ns !! "output" = Some (output_of items dflt).
Proof.
  induction items as [|[p|sp p|sp p] items IH]; intros ns dflt Hns; simpl;
    [done|apply IH..].
  - by rewrite lookup_insert_ne.
  - by rewrite lookup_insert_eq.
  - by rewrite lookup_insert_ne.
Qed.

Lemma stored_config (items : list cli_item) : ∀ ns dflt,
  ns !! "config" = Some dflt →
  stored items ns !! "config" = Some (config_of items dflt).
Proof.
  induction items as [|[p|sp p|sp p] items IH]; intros ns dflt Hns; simpl;
    [done|apply IH..].
  - by rewrite lookup_insert_ne.
  - by rewrite lookup_insert_ne.
  - by rewrite lookup_insert_eq.
Qed.

End command_line_facts.

(** C5: the parser of [main] declares three arguments: the positional
    [input_file], which is required, the option -o/--output with default
    'testcases.xlsx' and the option -c/--config with default 'config.yaml',
    neither required.  On a command line in the plain forms, with exactly
    one positional word the arguments are that word as input file, and for
    each option the last value given for it in either spelling, or its
    default when it is omitted; with no positional word, or with more than
    one, the process exits with status 2.  Parsing leaves the state as it
    is. *)
Theorem cli_arguments (P : Platform) :
  map declaration (argparse.actions main.parser)
  = [ ([], "input_file", None, true);
      (["-o"; "--output"], "output", Some "testcases.xlsx", false);
      (["-c"; "--config"], "config", Some "config.yaml", false) ]
  ∧ ∀ (items : list cli_item) (s : state),
      Forall plain_item items →
      match inputs items with
      | [input_file] =>
          ∃ args : argparse.Namespace,
            main.parse_args P main.parser (command_line items) s = (Return args, s)
            ∧ args !! "input_file" = Some input_file
            ∧ args !! "output" = Some (output_of items "testcases.xlsx")
            ∧ args !! "config" = Some (config_of items "config.yaml")
      | _ =>
          main.parse_args P main.parser (command_line items) s = (SystemExit 2, s)
      end.
Proof.
  split; [reflexivity|].
  intros items s Hall.
  unfold main.parse_args. rewrite (plain_command_line items Hall).
  unfold argparse.parse_plain. rewrite (consume_unfilled items _ Hall).
  destruct (inputs items) as [|input_file [|second rest]] eqn:Hin; try reflexivity.
  eexists. split; [reflexivity|]. split; [|split].
  - by apply stored_input.
  - by apply stored_output.
  - by apply stored_config.
Qed.

(** A command line with the options after and before the input path, one
    of them given twice. *)
Lemma cli_arguments_witness :
  ∃ args : argparse.Namespace,
    main.parse_args demo.platform main.parser
      ["-o"; "first.xlsx"; "req.txt"; "--config"; "my.yaml"; "--output"; "out/cases.xlsx"]
      demo.start
    = (Return args, demo.start)
    ∧ args !! "input_file" = Some "req.txt"
    ∧ args !! "output" = Some "out/cases.xlsx"
    ∧ args !! "config" = Some "my.yaml".
Proof.
  apply (proj2 (cli_arguments demo.platform)
           [Output Short "first.xlsx"; Input "req.txt"; Config Long "my.yaml";
            Output Long "out/cases.xlsx"] demo.start).
  repeat constructor.
Defined.

Example cli_defaults :
  fst (main.parse_args demo.platform main.parser ["req.txt"] demo.start)
  = Return demo.args.
Proof. reflexivity. Qed.

Example cli_no_input :
  fst (main.parse_args demo.platform main.parser ["-o"; "x.xlsx"] demo.start)
  = SystemExit 2.
Proof. reflexivity. Qed.

Example cli_two_inputs :
  fst (main.parse_args demo.platform main.parser ["a.txt"; "b.txt"] demo.start)
  = SystemExit 2.
Proof. reflexivity. Qed.

(** * Further properties *)

(** ** More on the validation of the response *)

Section more_on_validation.
Variable P : Platform.

(** Validation changes nothing in a dictionary that has the six fields and
    no other, whatever its position. *)
Lemma validated_id (i : Z) (tc : pydict) :
  dom tc = six_fields → validated i tc = tc.
Proof.
  intros Hdom. apply map_eq. intros k.
  destruct (decide (k ∈ six_fields)) as [Hin|Hout].
  - assert (Hsome : is_Some (tc !! k)) by (apply elem_of_dom; by rewrite Hdom).
    destruct Hsome as [v Hv].
    unfold six_fields in Hin.
    repeat (apply elem_of_union in Hin as [Hin|Hin]);
      apply elem_of_singleton in Hin; subst k;
      unfold validated, dict_get; rewrite Hv; reflexivity.
  - assert (Hnone : tc !! k = None) by (apply not_elem_of_dom; by rewrite Hdom).
    rewrite Hnone. apply not_elem_of_dom.
    rewrite (proj1 (validated_ok 0 ∅)). exact Hout.
Qed.

Lemma kept_valid (tcs : list pydict) : ∀ off,
  Forall (fun tc => dom tc = six_fields) tcs →
  kept off (PDict <$> tcs) = tcs.
Proof.
  induction tcs as [|tc tcs IH]; intros off Hall; [reflexivity|].
  apply Forall_cons in Hall as [Htc Hall]. simpl.
  by rewrite (validated_id _ tc Htc), (IH _ Hall).
Qed.

Lemma kept_length (l : list pyval) : ∀ off,
  length (kept off l) = length (List.filter is_dict l).
Proof.
  induction l as [|v l IH]; intros off; [reflexivity|].
  destruct v; simpl; by rewrite ?IH.
Qed.

Lemma kept_nil (l : list pyval) : ∀ off,
  kept off l = [] ↔ Forall (fun v => is_dict v = false) l.
Proof.
  induction l as [|v l IH]; intros off; [by split|].
  destruct v; simpl; rewrite ?Forall_cons, ?IH; by intuition.
Qed.

Lemma parse_closed_list (engine_name response : string) (parsed : list pyval) :
  find response "[" ≠ -1 →
  rfind response "]" ≠ -1 →
  json_loads P (slice response (find response "[") (rfind response "]" + 1))
  = inr (PList parsed) →
  parse_closed P engine_name response = Return (kept 0 parsed).
Proof.
  intros Hstart Hend Hloads. unfold parse_closed.
  destruct (find response "[" =? -1) eqn:E1; [lia|].
  destruct (rfind response "]" + 1 =? 0) eqn:E2; [lia|].
  simpl. by rewrite Hloads.
Qed.

End more_on_validation.

(** ** Searching and slicing *)

Section searching.

Lemma find_from_absent (c : ascii) (s : string) : ∀ i,
  occurs c s = false → find_from c s i = -1.
Proof.
  induction s as [|a r IH]; intros i; simpl; [done|].
  destruct (Ascii.eqb a c); [discriminate|]. apply IH.
Qed.

Lemma find_from_present (c : ascii) (s : string) : ∀ i,
  occurs c s = true → i ≤ find_from c s i.
Proof.
  induction s as [|a r IH]; intros i; simpl; [discriminate|].
  destruct (Ascii.eqb a c); simpl; [lia|].
  intros H. specialize (IH (i + 1) H). lia.
Qed.

Lemma find_none (s : string) (c : ascii) : find s c = -1 → occurs c s = false.
Proof.
  unfold find. intros H. destruct (occurs c s) eqn:E; [|reflexivity].
  pose proof (find_from_present c s 0 E). lia.
Qed.

(** The first occurrence, after a prefix that has none. *)
Lemma find_from_app (c : ascii) (pre rest : string) : ∀ i,
  occurs c pre = false →
  find_from c (pre +:+ String c rest) i = i + Z.of_nat (String.length pre).
Proof.
  induction pre as [|a r IH]; intros i Hnone; simpl in *.
  - rewrite Ascii.eqb_refl. lia.
  - destruct (Ascii.eqb a c); [discriminate|].
    rewrite (IH (i + 1) Hnone). lia.
Qed.

Lemma rfind_from_absent (c : ascii) (s : string) : ∀ i last,
  occurs c s = false → rfind_from c s i last = last.
Proof.
  induction s as [|a r IH]; intros i last; simpl; [done|].
  destruct (Ascii.eqb a c); [discriminate|]. apply IH.
Qed.

Lemma rfind_from_lower (c : ascii) (s : string) : ∀ i last,
  rfind_from c s i last = last ∨ i ≤ rfind_from c s i last.
Proof.
  induction s as [|a r IH]; intros i last; simpl; [by left|].
  destruct (Ascii.eqb a c).
  - destruct (IH (i + 1) i) as [->|H]; right; lia.
  - destruct (IH (i + 1) last) as [->|H]; [by left|right; lia].
Qed.

Lemma rfind_from_present (c : ascii) (s : string) : ∀ i last,
  occurs c s = true → i ≤ rfind_from c s i last.
Proof.
  induction s as [|a r IH]; intros i last; simpl; [discriminate|].
  destruct (Ascii.eqb a c); simpl.
  - intros _. destruct (rfind_from_lower c r (i + 1) i) as [->|H]; lia.
  - intros H. specialize (IH (i + 1) last H). lia.
Qed.

Lemma rfind_none (s : string) (c : ascii) : rfind s c = -1 → occurs c s = false.
Proof.
  unfold rfind. intros H. destruct (occurs c s) eqn:E; [|reflexivity].
  pose proof (rfind_from_present c s 0 (-1) E). lia.
Qed.

(** The last occurrence, before a suffix that has none. *)
Lemma rfind_from_app (c : ascii) (x suf : string) : ∀ i last,
  occurs c suf = false →
  rfind_from c (x +:+ String c suf) i last = i + Z.of_nat (String.length x).
Proof.
  induction x as [|a r IH]; intros i last Hnone; simpl.
  - rewrite Ascii.eqb_refl, (rfind_from_absent c suf _ _ Hnone). lia.
  - rewrite (IH (i + 1) _ Hnone). lia.
Qed.

Lemma substring_skip (pre s : string) (n : nat) :
  String.substring (String.length pre) n (pre +:+ s) = String.substring 0 n s.
Proof. induction pre as [|a r IH]; [reflexivity|exact IH]. Qed.

Lemma substring_prefix (body suf : string) :
  String.substring 0 (String.length body) (body +:+ suf) = body.
Proof.
  induction body as [|a r IH]; simpl.
  - by destruct suf.
  - by rewrite IH.
Qed.

Lemma length_app (a b : string) :
  String.length (a +:+ b) = (String.length a + String.length b)%nat.
Proof. induction a as [|c r IH]; simpl; [reflexivity|by rewrite IH]. Qed.

Lemma string_app_assoc (a b c : string) : (a +:+ b) +:+ c = a +:+ (b +:+ c).
Proof.
  induction a as [|x r IH]; [reflexivity|].
  change (String x ((r +:+ b) +:+ c) = String x (r +:+ (b +:+ c))). by f_equal.
Qed.

(** A slice that takes [body] out of the text around it. *)
Lemma slice_middle (pre body suf : string) :
  slice (pre +:+ body +:+ suf)
        (Z.of_nat (String.length pre))
        (Z.of_nat (String.length pre) + Z.of_nat (String.length body))
  = body.
Proof.
  unfold slice, clamp_index. rewrite !length_app.
  repeat match goal with |- context [?a <? 0] =>
    destruct (Z.ltb_spec a 0); [lia|] end.
  rewrite !Z.min_l by lia.
  replace (Z.to_nat (Z.of_nat (String.length pre))) with (String.length pre) by lia.
  replace (Z.to_nat _) with (String.length body) by lia.
  by rewrite substring_skip, substring_prefix.
Qed.

(** The indices [_parse_response] computes on a bracketed text with text
    around it, and the slice it takes. *)
Lemma bracketed_slice (pre mid suf : string) :
  find pre "[" = -1 → rfind suf "]" = -1 →
  let response := pre +:+ ("[" +:+ mid +:+ "]") +:+ suf in
  find response "[" ≠ -1
  ∧ rfind response "]" ≠ -1
  ∧ slice response (find response "[") (rfind response "]" + 1) = "[" +:+ mid +:+ "]".
Proof.
  intros Hpre%find_none Hsuf%rfind_none response.
  assert (Hfind : find response "[" = Z.of_nat (String.length pre)).
  { unfold find, response.
    change (pre +:+ ("[" +:+ mid +:+ "]") +:+ suf)
      with (pre +:+ String "[" ((mid +:+ "]") +:+ suf)).
    rewrite (find_from_app "[" pre _ 0 Hpre). lia. }
  assert (Hrfind : rfind response "]"
                   = Z.of_nat (String.length pre) + Z.of_nat (String.length mid) + 1).
  { unfold rfind, response.
    replace (pre +:+ ("[" +:+ mid +:+ "]") +:+ suf)
      with ((pre +:+ "[" +:+ mid) +:+ String "]" suf).
    2:{ rewrite !string_app_assoc. reflexivity. }
    rewrite (rfind_from_app "]" _ suf 0 (-1) Hsuf), !length_app. simpl. lia. }
  rewrite Hfind, Hrfind. split; [lia|]. split; [lia|].
  replace (Z.of_nat (String.length pre) + Z.of_nat (String.length mid) + 1 + 1)
    with (Z.of_nat (String.length pre)
          + Z.of_nat (String.length ("[" +:+ mid +:+ "]"))).
  2:{ rewrite !length_app. change (String.length "[") with 1%nat.
      change (String.length "]") with 1%nat. lia. }
  apply slice_middle.
Qed.

End searching.

(** ** What the validation keeps, counts and ignores *)

Section parse_properties.
Variable P : Platform.

Lemma parse_closed_found (engine_name response : string) :
  find response "[" ≠ -1 →
  rfind response "]" ≠ -1 →
  parse_closed P engine_name response
  = validate_decoded P engine_name
      (slice response (find response "[") (rfind response "]" + 1)).
Proof.
  intros Hstart Hend. unfold parse_closed, validate_decoded.
  destruct (find response "[" =? -1) eqn:E1; [lia|].
  destruct (rfind response "]" + 1 =? 0) eqn:E2; [lia|].
  reflexivity.
Qed.

Lemma string_app_nil_r (a : string) : a +:+ "" = a.
Proof.
  induction a as [|x r IH]; [reflexivity|].
  change (String x (r +:+ "") = String x r). by f_equal.
Qed.

Lemma parse_closed_bracketed (engine_name pre mid suf : string) :
  find pre "[" = -1 → rfind suf "]" = -1 →
  parse_closed P engine_name (pre +:+ ("[" +:+ mid +:+ "]") +:+ suf)
  = validate_decoded P engine_name ("[" +:+ mid +:+ "]").
Proof.
  intros Hpre Hsuf.
  destruct (bracketed_slice pre mid suf Hpre Hsuf) as [Hstart [Hend Hslice]].
  rewrite (parse_closed_found _ _ Hstart Hend). by rewrite Hslice.
Qed.

Lemma parse_closed_bare (engine_name mid : string) :
  parse_closed P engine_name ("[" +:+ mid +:+ "]")
  = validate_decoded P engine_name ("[" +:+ mid +:+ "]").
Proof.
  pose proof (parse_closed_bracketed engine_name "" mid "" eq_refl eq_refl) as H.
  rewrite string_app_nil_r in H. exact H.
Qed.

End parse_properties.

(** X1: text before the first opening bracket and after the last closing
    bracket of a response plays no part: with no opening bracket in the text
    before and no closing bracket in the text after, [_parse_response] of
    either engine does with the whole response what it does with the
    bracketed part alone. *)
Theorem parse_ignores_surrounding_text (P : Platform)
    (pre mid suf : string) (s : state) :
  find pre "[" = -1 →
  rfind suf "]" = -1 →
  OpenAIEngine._parse_response P (pre +:+ ("[" +:+ mid +:+ "]") +:+ suf) s
  = OpenAIEngine._parse_response P ("[" +:+ mid +:+ "]") s
  ∧ GeminiEngine._parse_response P (pre +:+ ("[" +:+ mid +:+ "]") +:+ suf) s
    = GeminiEngine._parse_response P ("[" +:+ mid +:+ "]") s.
Proof.
  intros Hpre Hsuf.
  rewrite !openai_parse_closed, !gemini_parse_closed.
  by rewrite !(parse_closed_bracketed P _ pre mid suf Hpre Hsuf), !parse_closed_bare.
Qed.

Lemma parse_ignores_surrounding_text_witness :
  OpenAIEngine._parse_response demo.platform
    ("Here are your cases: " +:+ ("[" +:+ "{}, 7" +:+ "]") +:+ " Anything else?")
    demo.start
  = OpenAIEngine._parse_response demo.platform ("[" +:+ "{}, 7" +:+ "]") demo.start
  ∧ GeminiEngine._parse_response demo.platform
      ("Here are your cases: " +:+ ("[" +:+ "{}, 7" +:+ "]") +:+ " Anything else?")
      demo.start
    = GeminiEngine._parse_response demo.platform ("[" +:+ "{}, 7" +:+ "]") demo.start.
Proof.
  apply (parse_ignores_surrounding_text demo.platform
           "Here are your cases: " "{}, 7" " Anything else?" demo.start);
    reflexivity.
Defined.

(** X2: when the array in the response decodes to dictionaries that each
    have the six fields and no other, [_parse_response] of either engine
    returns exactly those dictionaries, in their order: validation leaves a
    complete test case as it is, at every position. *)
Theorem parse_returns_complete_testcases_unchanged (P : Platform)
    (response : string) (testcases : list pydict) (s : state) :
  find response "[" ≠ -1 →
  rfind response "]" ≠ -1 →
  json_loads P (slice response (find response "[") (rfind response "]" + 1))
  = inr (PList (PDict <$> testcases)) →
  Forall (fun tc => dom tc = six_fields) testcases →
  OpenAIEngine._parse_response P response s = (Return testcases, s)
  ∧ GeminiEngine._parse_response P response s = (Return testcases, s).
Proof.
  intros Hstart Hend Hloads Hall.
  rewrite openai_parse_closed, gemini_parse_closed.
  rewrite !(parse_closed_list P _ response _ Hstart Hend Hloads).
  by rewrite (kept_valid testcases 0 Hall).
Qed.

Lemma parse_returns_complete_testcases_unchanged_witness :
  OpenAIEngine._parse_response demo.platform scenarios.complete_answer demo.start
  = (Return scenarios.complete_testcases, demo.start)
  ∧ GeminiEngine._parse_response demo.platform scenarios.complete_answer demo.start
    = (Return scenarios.complete_testcases, demo.start).
Proof.
  apply (parse_returns_complete_testcases_unchanged demo.platform
           scenarios.complete_answer scenarios.complete_testcases demo.start).
  - by vm_compute.
  - by vm_compute.
  - vm_compute. reflexivity.
  - repeat constructor.
Defined.

(** X3: when the array decodes, [_parse_response] returns as many test
    cases as the array has dictionaries, and the empty list exactly when it
    has none. *)
Theorem parse_counts_the_dictionaries (P : Platform)
    (response : string) (parsed : list pyval) (s : state) :
  find response "[" ≠ -1 →
  rfind response "]" ≠ -1 →
  json_loads P (slice response (find response "[") (rfind response "]" + 1))
  = inr (PList parsed) →
  ∃ testcases,
    OpenAIEngine._parse_response P response s = (Return testcases, s)
    ∧ GeminiEngine._parse_response P response s = (Return testcases, s)
    ∧ length testcases = length (List.filter is_dict parsed)
    ∧ (testcases = [] ↔ Forall (fun v => is_dict v = false) parsed).
Proof.
  intros Hstart Hend Hloads. exists (kept 0 parsed).
  rewrite openai_parse_closed, gemini_parse_closed.
  rewrite !(parse_closed_list P _ response _ Hstart Hend Hloads).
  split; [reflexivity|]. split; [reflexivity|].
  split; [apply kept_length|apply kept_nil].
Qed.

Lemma parse_counts_the_dictionaries_witness :
  ∃ testcases,
    OpenAIEngine._parse_response demo.platform demo.answer demo.start
    = (Return testcases, demo.start)
    ∧ GeminiEngine._parse_response demo.platform demo.answer demo.start
      = (Return testcases, demo.start)
    ∧ length testcases = length (List.filter is_dict scenarios.parsed_answer)
    ∧ (testcases = [] ↔ Forall (fun v => is_dict v = false) scenarios.parsed_answer).
Proof.
  apply (parse_counts_the_dictionaries demo.platform demo.answer
           scenarios.parsed_answer demo.start).
  - by vm_compute.
  - by vm_compute.
  - vm_compute. reflexivity.
Defined.

Example answer_has_two_dictionaries :
  map is_dict scenarios.parsed_answer = [true; false; true].
Proof. reflexivity. Qed.

(** ** More on the engines *)

Section more_on_engines.
Variable P : Platform.

Lemma kept_all_six (l : list pyval) : ∀ off,
  Forall (fun tc => dom tc = six_fields) (kept off l).
Proof.
  induction l as [|v l IH]; intros off; simpl; [constructor|].
  destruct v; try apply IH.
  constructor; [|apply IH]. apply (validated_ok off d).
Qed.

Lemma parse_closed_surfaces (engine_name response prefix : string) :
  surfaces_as prefix (rewrapped prefix (parse_closed P engine_name response)).
Proof.
  unfold parse_closed.
  destruct ((find response "[" =? -1) || (rfind response "]" + 1 =? 0)).
  { simpl. split; [reflexivity|]. eauto. }
  destruct (json_loads P _) as [e|v].
  { destruct (isinstance e JSONDecodeError); simpl; (split; [reflexivity|eauto]). }
  destruct v; simpl; try (split; [reflexivity|eauto]).
  apply kept_all_six.
Qed.

(** A call on an engine that [__init__] has set up, in full. *)
Lemma openai_generate_run self text s api_key model :
  openai_ready s self api_key model →
  let s1 := logged [openai_request api_key model text] s in
  OpenAIEngine.generate_testcases P self text s
  = match openai_create P (log s1) api_key model
            (OpenAIEngine.messages (OpenAIEngine._build_prompt text)) 0.3%float with
    | inl e => (Raise (Exn Exception ("Error calling OpenAI API: " +:+ exn_msg e)), s1)
    | inr content =>
        (rewrapped "Error calling OpenAI API: " (parse_closed P "OpenAI" content), s1)
    end.
Proof.
  intros [i [Hi [Hclient Hmodel]]] s1.
  unfold OpenAIEngine.generate_testcases, try_except.
  rewrite bind_run, getattr_run, Hi. simpl. rewrite Hclient.
  rewrite bind_run, getattr_run, Hi. simpl. rewrite Hmodel.
  rewrite bind_run. unfold OpenAIEngine.chat_completions_create.
  rewrite bind_run. unfold emit at 1. cbv beta iota.
  unfold ask, lift. subst s1. unfold logged, openai_request. cbn [log set_log].
  match goal with |- context [openai_create P ?h ?k ?m ?ms ?t] =>
    destruct (openai_create P h k m ms t) as [e|content] end.
  - unfold raise. cbv beta iota. simpl List.find. rewrite isinstance_Exception.
    reflexivity.
  - unfold mret, M_ret. cbv beta iota. rewrite openai_parse_closed.
    destruct (parse_closed P "OpenAI" content); try reflexivity.
    simpl List.find. rewrite isinstance_Exception. reflexivity.
Qed.

Lemma gemini_generate_run self text s model :
  gemini_ready s self model →
  let s1 := logged [gemini_request model text] s in
  GeminiEngine.generate_testcases P self text s
  = match gemini_generate P (log s1) (genai_api_key s) model
            (GeminiEngine._build_prompt text) with
    | inl e => (Raise (Exn Exception ("Error calling Gemini API: " +:+ exn_msg e)), s1)
    | inr content =>
        (rewrapped "Error calling Gemini API: " (parse_closed P "Gemini" content), s1)
    end.
Proof.
  intros [i [Hi Hmodel]] s1.
  unfold GeminiEngine.generate_testcases, try_except.
  rewrite bind_run, getattr_run, Hi. simpl. rewrite Hmodel.
  rewrite bind_run. unfold GeminiEngine.generate_content.
  rewrite bind_run. unfold emit at 1. cbv beta iota.
  rewrite bind_run. unfold get_state at 1. cbv beta iota.
  unfold ask, lift. subst s1. unfold logged, gemini_request.
  cbn [log set_log genai_api_key].
  match goal with |- context [gemini_generate P ?h ?k ?m ?p] =>
    destruct (gemini_generate P h k m p) as [e|content] end.
  - unfold raise. cbv beta iota. simpl List.find. rewrite isinstance_Exception.
    reflexivity.
  - unfold mret, M_ret. cbv beta iota. rewrite gemini_parse_closed.
    destruct (parse_closed P "Gemini" content); try reflexivity.
    simpl List.find. rewrite isinstance_Exception. reflexivity.
Qed.

Lemma openai_generate_surfaces self text s :
  surfaces_as "Error calling OpenAI API: "
    (fst (OpenAIEngine.generate_testcases P self text s)).
Proof.
  destruct (heap s !! self ≫= fun i => inst_attrs i !! "client") as [client|] eqn:Hc.
  2:{ unfold OpenAIEngine.generate_testcases, try_except.
      rewrite bind_run, getattr_run, Hc. simpl. split; [reflexivity|eauto]. }
  destruct (heap s !! self ≫= fun i => inst_attrs i !! "model") as [model|] eqn:Hm.
  2:{ unfold OpenAIEngine.generate_testcases, try_except.
      rewrite bind_run, getattr_run, Hc. cbv beta iota.
      rewrite bind_run, getattr_run, Hm. simpl. split; [reflexivity|eauto]. }
  destruct (heap s !! self) as [i|] eqn:Hi; [|discriminate]. simpl in Hc, Hm.
  destruct client as [v|api_key|name], model as [m|k|name'];
    try (unfold OpenAIEngine.generate_testcases, try_except;
         rewrite bind_run, getattr_run, Hi; simpl; rewrite Hc;
         rewrite bind_run, getattr_run, Hi; simpl; rewrite Hm;
         simpl; split; [reflexivity|eauto]).
  rewrite (openai_generate_run self text s api_key m) by (by exists i).
  cbv zeta. destruct (openai_create P _ _ _ _ _) as [e|content]; simpl.
  - split; [reflexivity|eauto].
  - apply parse_closed_surfaces.
Qed.

Lemma gemini_generate_surfaces self text s :
  surfaces_as "Error calling Gemini API: "
    (fst (GeminiEngine.generate_testcases P self text s)).
Proof.
  destruct (heap s !! self ≫= fun i => inst_attrs i !! "model") as [model|] eqn:Hm.
  2:{ unfold GeminiEngine.generate_testcases, try_except.
      rewrite bind_run, getattr_run, Hm. simpl. split; [reflexivity|eauto]. }
  destruct (heap s !! self) as [i|] eqn:Hi; [|discriminate]. simpl in Hm.
  destruct model as [m|k|name];
    try (unfold GeminiEngine.generate_testcases, try_except;
         rewrite bind_run, getattr_run, Hi; simpl; rewrite Hm;
         simpl; split; [reflexivity|eauto]).
  rewrite (gemini_generate_run self text s name) by (by exists i).
  cbv zeta. destruct (gemini_generate P _ _ _ _) as [e|content]; simpl.
  - split; [reflexivity|eauto].
  - apply parse_closed_surfaces.
Qed.

End more_on_engines.

(** X4: however a call of [generate_testcases] goes, on any object and in
    any state, it never exits, a list it returns holds only test cases with
    exactly the six validated fields, and an exception it raises is of class
    Exception with a message that begins with 'Error calling OpenAI API: '
    (OpenAI engine) or 'Error calling Gemini API: ' (Gemini engine). *)
Theorem generate_returns_validated_or_raises_wrapped (P : Platform) (self : loc)
    (requirement_text : string) (s : state) :
  surfaces_as "Error calling OpenAI API: "
    (fst (OpenAIEngine.generate_testcases P self requirement_text s))
  ∧ surfaces_as "Error calling Gemini API: "
      (fst (GeminiEngine.generate_testcases P self requirement_text s)).
Proof.
  split; [apply openai_generate_surfaces|apply gemini_generate_surfaces].
Qed.

(** X5: on an engine set up by [__init__], [generate_testcases] asks the
    service once, with the key and model of the engine and the prompt built
    from the requirement text, and ends as that answer decides: a failed
    request is raised again with its message after the prefix; otherwise
    the result is what [_parse_response] makes of the answer, a list
    being returned as it is and a parse failure being wrapped a second
    time. *)
Theorem generate_is_parse_of_the_answer (P : Platform) (self : loc)
    (requirement_text : string) (s : state) :
  (∀ api_key model : pyval,
     openai_ready s self api_key model →
     let s1 := logged [openai_request api_key model requirement_text] s in
     OpenAIEngine.generate_testcases P self requirement_text s
     = match openai_create P (log s1) api_key model
               (OpenAIEngine.messages (OpenAIEngine._build_prompt requirement_text))
               0.3%float with
       | inl e =>
           (Raise (Exn Exception ("Error calling OpenAI API: " +:+ exn_msg e)), s1)
       | inr content =>
           (rewrapped "Error calling OpenAI API: "
              (fst (OpenAIEngine._parse_response P content s1)), s1)
       end)
  ∧ (∀ model : pyval,
       gemini_ready s self model →
       let s1 := logged [gemini_request model requirement_text] s in
       GeminiEngine.generate_testcases P self requirement_text s
       = match gemini_generate P (log s1) (genai_api_key s) model
                 (GeminiEngine._build_prompt requirement_text) with
         | inl e =>
             (Raise (Exn Exception ("Error calling Gemini API: " +:+ exn_msg e)), s1)
         | inr content =>
             (rewrapped "Error calling Gemini API: "
                (fst (GeminiEngine._parse_response P content s1)), s1)
         end).
Proof.
  split.
  - intros api_key model Hready s1.
    rewrite (openai_generate_run P self requirement_text s api_key model Hready).
    fold s1. destruct (openai_create P _ _ _ _ _); [reflexivity|].
    by rewrite openai_parse_closed.
  - intros model Hready s1.
    rewrite (gemini_generate_run P self requirement_text s model Hready).
    fold s1. destruct (gemini_generate P _ _ _ _); [reflexivity|].
    by rewrite gemini_parse_closed.
Qed.

(** ** Constructing the engines *)

Section constructors.

Lemma with_object_kept (obj : instance) (s : state) : objects_kept s (with_object obj s).
Proof.
  intros l Hl. unfold with_object. simpl. apply lookup_insert_ne.
  intros <-. apply elem_of_dom in Hl. by apply is_fresh in Hl.
Qed.

Lemma with_object_lookup (obj : instance) (s : state) :
  heap (with_object obj s) !! fresh (dom (heap s)) = Some obj.
Proof. unfold with_object. simpl. apply lookup_insert_eq. Qed.

Lemma openai_new_run (api_key model : pyval) (s : state) :
  OpenAIEngine.new api_key model s
  = if negb (OPENAI_AVAILABLE s) then
      (Raise (Exn ImportError
                "OpenAI package is required. Install with: pip install openai"),
       with_object (Instance_ COpenAIEngine ∅) s)
    else if negb (truthy api_key) then
      (Raise (Exn ValueError "OpenAI API key is required"),
       with_object (Instance_ COpenAIEngine ∅) s)
    else
      (Return (fresh (dom (heap s))), with_object (openai_instance api_key model) s).
Proof.
  unfold OpenAIEngine.new, OpenAIEngine.__init__, alloc, setattr. run.
  destruct (OPENAI_AVAILABLE s); simpl; [|reflexivity].
  destruct (truthy api_key); simpl; [|reflexivity].
  unfold with_object, set_heap. simpl. do 2 f_equal.
  by rewrite !alter_insert_eq.
Qed.

Lemma gemini_new_run (P : Platform) (api_key model : pyval) (s : state) :
  GeminiEngine.new P api_key model s
  = if negb (GEMINI_AVAILABLE s) then
      (Raise (Exn ImportError
                "Google Generative AI package is required. Install with: pip install google-generativeai"),
       with_object (Instance_ CGeminiEngine ∅) s)
    else if negb (truthy api_key) then
      (Raise (Exn ValueError "Gemini API key is required"),
       with_object (Instance_ CGeminiEngine ∅) s)
    else
      match generative_model P model with
      | Some e =>
          (Raise e,
           set_genai_api_key (Some api_key) (with_object (Instance_ CGeminiEngine ∅) s))
      | None =>
          (Return (fresh (dom (heap s))),
           set_genai_api_key (Some api_key) (with_object (gemini_instance model) s))
      end.
Proof.
  unfold GeminiEngine.new, GeminiEngine.__init__, GeminiEngine.genai_configure,
    GeminiEngine.GenerativeModel, alloc, setattr. run.
  destruct (GEMINI_AVAILABLE s); simpl; [|reflexivity].
  destruct (truthy api_key); simpl; [|reflexivity].
  destruct (generative_model P model); simpl; [reflexivity|].
  unfold with_object, set_heap, set_genai_api_key. simpl. do 2 f_equal.
  by rewrite !alter_insert_eq.
Qed.

Lemma openai_ready_kept s s' self api_key model :
  objects_kept s s' → openai_ready s self api_key model →
  openai_ready s' self api_key model.
Proof.
  intros Hkept [i [Hi Hattrs]]. exists i. split; [|exact Hattrs].
  rewrite Hkept; [exact Hi|by rewrite Hi].
Qed.

Lemma gemini_ready_kept s s' self model :
  objects_kept s s' → gemini_ready s self model → gemini_ready s' self model.
Proof.
  intros Hkept [i [Hi Hattrs]]. exists i. split; [|exact Hattrs].
  rewrite Hkept; [exact Hi|by rewrite Hi].
Qed.

End constructors.

(** The first engine of each class, built in the starting state, is set up. *)
Lemma openai_built_ready :
  openai_ready scenarios.openai_built 0%nat (PStr "sk-test") (PStr "gpt-4").
Proof. by apply (openai_new_ready (PStr "sk-test") (PStr "gpt-4") demo.start). Qed.

Lemma gemini_built_ready :
  gemini_ready scenarios.gemini_built 0%nat (PStr "gemini-pro").
Proof.
  by apply (gemini_new_ready demo.platform (PStr "g-key") (PStr "gemini-pro") demo.start).
Qed.

(** An answer without an array: the parse failure comes out wrapped twice.
    A service that is down: its message comes out wrapped once. *)
Lemma generate_is_parse_of_the_answer_witness :
  fst (OpenAIEngine.generate_testcases
         (scenarios.with_answer demo.platform (inr "I cannot help with that."))
         0%nat demo.requirement scenarios.openai_built)
  = Raise (Exn Exception
      "Error calling OpenAI API: Error parsing OpenAI response: No JSON array found in response")
  ∧ fst (GeminiEngine.generate_testcases demo.offline 0%nat demo.requirement
           scenarios.gemini_built)
    = Raise (Exn Exception "Error calling Gemini API: 503").
Proof.
  split.
  - rewrite (proj1 (generate_is_parse_of_the_answer
                      (scenarios.with_answer demo.platform (inr "I cannot help with that."))
                      0%nat demo.requirement scenarios.openai_built)
               (PStr "sk-test") (PStr "gpt-4") openai_built_ready).
    reflexivity.
  - rewrite (proj2 (generate_is_parse_of_the_answer demo.offline
                      0%nat demo.requirement scenarios.gemini_built)
               (PStr "gemini-pro") gemini_built_ready).
    reflexivity.
Defined.

(** X6: the constructor [OpenAIEngine(api_key, model)] never exits, logs
    nothing, leaves the key of the genai package and every object there is
    as they are; it raises ImportError when the openai package is missing,
    whatever the key, and otherwise ValueError when the key is false (None,
    empty, zero); when it returns, the engine is a new object whose fields
    are exactly [client], made with the key, and [model]. *)
Theorem openai_constructor (api_key model : pyval) (s : state) :
  let r := OpenAIEngine.new api_key model s in
  objects_kept s (snd r)
  ∧ log (snd r) = log s
  ∧ genai_api_key (snd r) = genai_api_key s
  ∧ match fst r with
    | Return self =>
        OPENAI_AVAILABLE s = true ∧ truthy api_key = true
        ∧ heap s !! self = None
        ∧ heap (snd r) !! self = Some (openai_instance api_key model)
    | Raise e =>
        (OPENAI_AVAILABLE s = false
         ∧ e = Exn ImportError
                 "OpenAI package is required. Install with: pip install openai")
        ∨ (OPENAI_AVAILABLE s = true ∧ truthy api_key = false
           ∧ e = Exn ValueError "OpenAI API key is required")
    | SystemExit _ => False
    end.
Proof.
  cbv zeta. rewrite openai_new_run.
  destruct (OPENAI_AVAILABLE s) eqn:Ha; simpl.
  2:{ split; [apply with_object_kept|]. repeat split. by left. }
  destruct (truthy api_key) eqn:Hk; simpl.
  2:{ split; [apply with_object_kept|]. repeat split. by right. }
  split; [apply with_object_kept|]. repeat split.
  - apply not_elem_of_dom, is_fresh.
  - apply with_object_lookup.
Qed.

(** X7: the constructor [GeminiEngine(api_key, model)] never exits, logs
    nothing and leaves every object there is as it is. It raises
    ImportError when the package is missing, whatever the key, and
    otherwise ValueError when the key is false; in both cases the key
    configured in the genai package stays what it was. With a true key it
    configures the package with that key first, in the place of any key
    configured before, and then constructs the model: when that
    constructor raises (TypeError for a model that is no name, such as
    None), the exception is the outcome and the new key stays configured;
    when it returns, the engine is a new object whose only field is
    [model]: it holds no key of its own. *)
Theorem gemini_constructor (P : Platform) (api_key model : pyval) (s : state) :
  let r := GeminiEngine.new P api_key model s in
  objects_kept s (snd r)
  ∧ log (snd r) = log s
  ∧ match fst r with
    | Return self =>
        GEMINI_AVAILABLE s = true ∧ truthy api_key = true
        ∧ generative_model P model = None
        ∧ heap s !! self = None
        ∧ heap (snd r) !! self = Some (gemini_instance model)
        ∧ genai_api_key (snd r) = Some api_key
    | Raise e =>
        (GEMINI_AVAILABLE s = false
         ∧ e = Exn ImportError
                 "Google Generative AI package is required. Install with: pip install google-generativeai"
         ∧ genai_api_key (snd r) = genai_api_key s)
        ∨ (GEMINI_AVAILABLE s = true ∧ truthy api_key = false
           ∧ e = Exn ValueError "Gemini API key is required"
           ∧ genai_api_key (snd r) = genai_api_key s)
        ∨ (GEMINI_AVAILABLE s = true ∧ truthy api_key = true
           ∧ generative_model P model = Some e
           ∧ genai_api_key (snd r) = Some api_key)
    | SystemExit _ => False
    end.
Proof.
  cbv zeta. rewrite gemini_new_run.
  destruct (GEMINI_AVAILABLE s) eqn:Ha; simpl.
  2:{ split; [apply with_object_kept|]. split; [reflexivity|]. by left. }
  destruct (truthy api_key) eqn:Hk; simpl.
  2:{ split; [apply with_object_kept|]. split; [reflexivity|]. right. by left. }
  destruct (generative_model P model) as [e|] eqn:Hm; simpl.
  { split; [apply (with_object_kept (Instance_ CGeminiEngine ∅) s)|].
    split; [reflexivity|]. right. by right. }
  split; [apply (with_object_kept (gemini_instance model) s)|]. repeat split.
  - apply not_elem_of_dom, is_fresh.
  - apply (with_object_lookup (gemini_instance model) s).
Qed.

(** A second engine whose model is None, as an empty 'model:' entry of the
    configuration gives it: the constructor of the model raises, and the
    key of the first engine has been replaced all the same. *)
Example gemini_model_none :
  let r := GeminiEngine.new demo.platform (PStr "second") PNone scenarios.gemini_built in
  fst r = Raise (Exn (OtherError "TypeError") "argument of type 'NoneType' is not iterable")
  ∧ genai_api_key scenarios.gemini_built = Some (PStr "g-key")
  ∧ genai_api_key (snd r) = Some (PStr "second").
Proof. by repeat split. Qed.

Example falsy_keys :
  map truthy [PNone; PStr ""; PInt 0; PBool false; PList []; PDict ∅; PStr "sk-test"]
  = [false; false; false; false; false; false; true].
Proof. reflexivity. Qed.

(** ** Choosing the engine *)

Section choosing_the_engine.
Variable P : Platform.

Lemma get_ai_engine_run (config : pyval) (s : state) :
  main.get_ai_engine P config s
  = match config with
    | PDict d =>
        match dict_get d "ai_engine" (PStr "openai") with
        | PStr name =>
            if String.eqb (lower P name) "openai" then
              match dict_get d "openai" (PDict ∅) with
              | PDict section =>
                  OpenAIEngine.new (dict_get section "api_key" PNone)
                                   (dict_get section "model" (PStr "gpt-4")) s
              | v => (Raise (no_attribute v "get"), s)
              end
            else if String.eqb (lower P name) "gemini" then
              match dict_get d "gemini" (PDict ∅) with
              | PDict section =>
                  GeminiEngine.new P (dict_get section "api_key" PNone)
                                   (dict_get section "model" (PStr "gemini-pro")) s
              | v => (Raise (no_attribute v "get"), s)
              end
            else
              (SystemExit 1,
               logged [EvPrint ("❌ Unsupported AI engine: " +:+ lower P name)] s)
        | v => (Raise (no_attribute v "lower"), s)
        end
    | _ => (Raise (no_attribute config "get"), s)
    end.
Proof.
  destruct config as [| | | | |l|d]; try reflexivity.
  unfold main.get_ai_engine. rewrite bind_run. unfold main.py_get at 1. run.
  destruct (dict_get d "ai_engine" (PStr "openai")) as [| | | |name| |]; try reflexivity.
  simpl.
  destruct (String.eqb (lower P name) "openai").
  { destruct (dict_get d "openai" (PDict ∅)) as [| | | | | |oc]; reflexivity. }
  destruct (String.eqb (lower P name) "gemini"); [|reflexivity].
  destruct (dict_get d "gemini" (PDict ∅)) as [| | | | | |gc]; reflexivity.
Qed.

(** The engine never raises anything but an exception of its own making,
    and an exit of [get_ai_engine] has status 1. *)
Lemma get_ai_engine_exit (config : pyval) (s : state) c s' :
  main.get_ai_engine P config s = (SystemExit c, s') → c = 1.
Proof.
  rewrite get_ai_engine_run.
  destruct config as [| | | | |l|d]; try discriminate.
  destruct (dict_get d "ai_engine" (PStr "openai")) as [| | | |name| |]; try discriminate.
  destruct (String.eqb (lower P name) "openai").
  { destruct (dict_get d "openai" (PDict ∅)) as [| | | | | |oc]; try discriminate.
    rewrite openai_new_run. repeat case_match; discriminate. }
  destruct (String.eqb (lower P name) "gemini").
  { destruct (dict_get d "gemini" (PDict ∅)) as [| | | | | |gc]; try discriminate.
    rewrite gemini_new_run. repeat case_match; discriminate. }
  by intros [= <- _].
Qed.

End choosing_the_engine.

(** X8: the engine is chosen by the lowercased value of 'ai_engine' alone:
    a configuration without that entry is treated as one that names
    'openai', and two names with the same lowercase form, such as 'OpenAI'
    and 'OPENAI', give the same outcome in every state. *)
Theorem engine_name_defaults_and_ignores_case (P : Platform) (d : pydict) (s : state) :
  (d !! "ai_engine" = None →
   main.get_ai_engine P (PDict d) s
   = main.get_ai_engine P (PDict (<["ai_engine" := PStr "openai"]> d)) s)
  ∧ (∀ name name' : string,
       lower P name = lower P name' →
       main.get_ai_engine P (PDict (<["ai_engine" := PStr name]> d)) s
       = main.get_ai_engine P (PDict (<["ai_engine" := PStr name']> d)) s).
Proof.
  split.
  - intros Hnone. rewrite !get_ai_engine_run. unfold dict_get.
    rewrite Hnone, lookup_insert_eq, !lookup_insert_ne by done. reflexivity.
  - intros name name' Hlower. rewrite !get_ai_engine_run. unfold dict_get.
    rewrite !lookup_insert_eq, !lookup_insert_ne by done. simpl.
    by rewrite Hlower.
Qed.

Lemma engine_name_defaults_and_ignores_case_witness :
  main.get_ai_engine demo.platform (PDict ∅) demo.start
  = main.get_ai_engine demo.platform (PDict (<["ai_engine" := PStr "openai"]> ∅)) demo.start
  ∧ main.get_ai_engine demo.platform (PDict (<["ai_engine" := PStr "OpenAI"]> ∅)) demo.start
    = main.get_ai_engine demo.platform (PDict (<["ai_engine" := PStr "OPENAI"]> ∅)) demo.start.
Proof.
  split.
  - apply (proj1 (engine_name_defaults_and_ignores_case demo.platform ∅ demo.start)).
    reflexivity.
  - apply (proj2 (engine_name_defaults_and_ignores_case demo.platform ∅ demo.start)).
    reflexivity.
Defined.

(** X9: from a configuration that names an engine whose package is
    installed and whose section holds a true 'api_key', [get_ai_engine]
    returns a new engine set up with that key and with the 'model' of the
    section, or 'gpt-4' (OpenAI) and 'gemini-pro' (Gemini) when the section
    has none; it logs nothing and leaves every object there is as it is.
    For the Gemini engine this needs a model that the constructor of the
    generative model accepts, as it does a name: when that constructor
    raises, as on the None of an empty 'model:' entry, [get_ai_engine]
    raises its exception, with nothing logged. *)
Theorem get_ai_engine_builds_the_configured_engine (P : Platform)
    (d section : pydict) (name : string) (api_key : pyval) (s : state) :
  dict_get d "ai_engine" (PStr "openai") = PStr name →
  section !! "api_key" = Some api_key →
  truthy api_key = true →
  (lower P name = "openai" →
   d !! "openai" = Some (PDict section) →
   OPENAI_AVAILABLE s = true →
   ∃ engine s',
     main.get_ai_engine P (PDict d) s = (Return engine, s')
     ∧ heap s !! engine = None
     ∧ openai_ready s' engine api_key (default (PStr "gpt-4") (section !! "model"))
     ∧ objects_kept s s' ∧ log s' = log s)
  ∧ (lower P name = "gemini" →
     d !! "gemini" = Some (PDict section) →
     GEMINI_AVAILABLE s = true →
     generative_model P (default (PStr "gemini-pro") (section !! "model")) = None →
     ∃ engine s',
       main.get_ai_engine P (PDict d) s = (Return engine, s')
       ∧ heap s !! engine = None
       ∧ gemini_ready s' engine (default (PStr "gemini-pro") (section !! "model"))
       ∧ genai_api_key s' = Some api_key
       ∧ objects_kept s s' ∧ log s' = log s)
  ∧ (lower P name = "gemini" →
     d !! "gemini" = Some (PDict section) →
     GEMINI_AVAILABLE s = true →
     ∀ e, generative_model P (default (PStr "gemini-pro") (section !! "model")) = Some e →
          ∃ s', main.get_ai_engine P (PDict d) s = (Raise e, s')
                ∧ genai_api_key s' = Some api_key
                ∧ objects_kept s s' ∧ log s' = log s).
Proof.
  intros Hname Hkey Htrue. split; [|split].
  - intros Hlower Hsection Havail.
    rewrite get_ai_engine_run, Hname, Hlower. simpl.
    unfold dict_get at 1. rewrite Hsection. simpl.
    rewrite openai_new_run, Havail. unfold dict_get. rewrite Hkey. simpl.
    rewrite Htrue. simpl. eexists _, _. split; [reflexivity|].
    split; [apply not_elem_of_dom, is_fresh|].
    split; [|split; [apply with_object_kept|reflexivity]].
    eexists. split; [apply with_object_lookup|]. by split.
  - intros Hlower Hsection Havail Hmodel.
    rewrite get_ai_engine_run, Hname, Hlower. simpl.
    unfold dict_get at 1. rewrite Hsection. simpl.
    rewrite gemini_new_run, Havail. unfold dict_get. rewrite Hkey. simpl.
    rewrite Htrue. simpl. rewrite Hmodel. eexists _, _. split; [reflexivity|].
    split; [apply not_elem_of_dom, is_fresh|].
    split; [|split; [reflexivity|split; [|reflexivity]]].
    + eexists. split; [apply (with_object_lookup (gemini_instance _) s)|]. done.
    + apply (with_object_kept (gemini_instance _) s).
  - intros Hlower Hsection Havail e Hmodel.
    rewrite get_ai_engine_run, Hname, Hlower. simpl.
    unfold dict_get at 1. rewrite Hsection. simpl.
    rewrite gemini_new_run, Havail. unfold dict_get. rewrite Hkey. simpl.
    rewrite Htrue. simpl. rewrite Hmodel. eexists. split; [reflexivity|].
    split; [reflexivity|]. split; [|reflexivity].
    apply (with_object_kept (Instance_ CGeminiEngine ∅) s).
Qed.

(** ** Runs of [main] that fail *)

Section runs_that_fail.
Variable P : Platform.

(** A run that has entered the [try] statement ends as the pipeline does,
    but for an exception, which the handler turns into an exit. *)
Lemma main_of_pipeline argv s0 args s :
  enters_try P argv s0 args s →
  main.main P argv s0
  = match main.pipeline P args s with
    | (Return _, s') => (Return tt, s')
    | (Raise e, s') => (SystemExit 1, logged [processing_error e] s')
    | (SystemExit c, s') => (SystemExit c, s')
    end.
Proof.
  intros Henter. rewrite (main_enters P argv s0 args s Henter).
  destruct (main.pipeline P args s) as [[[]|e|c] s'] eqn:Hp.
  - by apply try_except_return.
  - by rewrite (try_except_Exception _ _ s e s' Hp).
  - by apply try_except_exit.
Qed.

Lemma pipeline_construction_outcome args s text config s' :
  at_construction P args s text config s' →
  (∀ e s'', main.get_ai_engine P config s' = (Raise e, s'') →
            main.pipeline P args s = (Raise e, s''))
  ∧ (∀ c s'', main.get_ai_engine P config s' = (SystemExit c, s'') →
              main.pipeline P args s = (SystemExit c, s'')).
Proof.
  intros Hat. rewrite (pipeline_at_construction P _ _ _ _ _ Hat).
  split; intros x s'' Hg; by rewrite from_construction_unfold, Hg.
Qed.

End runs_that_fail.

Lemma get_ai_engine_builds_the_configured_engine_witness :
  (∃ engine s',
     main.get_ai_engine demo.platform (PDict scenarios.config) demo.start
     = (Return engine, s')
     ∧ heap demo.start !! engine = None
     ∧ openai_ready s' engine (PStr "sk-test")
         (default (PStr "gpt-4") (scenarios.openai_section !! "model"))
     ∧ objects_kept demo.start s' ∧ log s' = log demo.start)
  ∧ (∃ engine s',
       main.get_ai_engine demo.platform (PDict scenarios.gemini_config) demo.start
       = (Return engine, s')
       ∧ heap demo.start !! engine = None
       ∧ gemini_ready s' engine
           (default (PStr "gemini-pro") (scenarios.gemini_section !! "model"))
       ∧ genai_api_key s' = Some (PStr "g-key")
       ∧ objects_kept demo.start s' ∧ log s' = log demo.start)
  ∧ (∃ s',
       main.get_ai_engine demo.platform (PDict scenarios.gemini_config_without_model)
         demo.start
       = (Raise (Exn (OtherError "TypeError")
                   "argument of type 'NoneType' is not iterable"), s')
       ∧ genai_api_key s' = Some (PStr "g-key")
       ∧ objects_kept demo.start s' ∧ log s' = log demo.start).
Proof.
  split; [|split].
  - apply (proj1 (get_ai_engine_builds_the_configured_engine demo.platform
                    scenarios.config scenarios.openai_section "OpenAI" (PStr "sk-test")
                    demo.start eq_refl eq_refl eq_refl));
      reflexivity.
  - apply (proj1 (proj2 (get_ai_engine_builds_the_configured_engine demo.platform
                           scenarios.gemini_config scenarios.gemini_section "Gemini"
                           (PStr "g-key") demo.start eq_refl eq_refl eq_refl)));
      reflexivity.
  - apply (proj2 (proj2 (get_ai_engine_builds_the_configured_engine demo.platform
                           scenarios.gemini_config_without_model
                           scenarios.gemini_section_without_model "Gemini"
                           (PStr "g-key") demo.start eq_refl eq_refl eq_refl)));
      reflexivity.
Defined.

(** X10: when the configuration names an engine that, lowercased, is
    neither 'openai' nor 'gemini', a run of [main] that has got as far as
    constructing the engine prints that the engine is unsupported, with the
    lowercased name, and exits with status 1; the exit passes the handler of
    [main], which prints nothing, and no request is made. *)
Theorem unsupported_engine_ends_the_run (P : Platform) (argv : list string)
    (s0 : state) (args : argparse.Namespace) (s : state) (text : string)
    (d : pydict) (name : string) (s' : state) :
  enters_try P argv s0 args s →
  at_construction P args s text (PDict d) s' →
  dict_get d "ai_engine" (PStr "openai") = PStr name →
  lower P name ≠ "openai" →
  lower P name ≠ "gemini" →
  main.main P argv s0
  = (SystemExit 1,
     logged [EvPrint ("❌ Unsupported AI engine: " +:+ lower P name)] s').
Proof.
  intros Henter Hat Hname Ho Hg.
  rewrite (main_of_pipeline P _ _ _ _ Henter).
  rewrite (proj2 (pipeline_construction_outcome P _ _ _ _ _ Hat) 1
             (logged [EvPrint ("❌ Unsupported AI engine: " +:+ lower P name)] s')).
  - reflexivity.
  - rewrite get_ai_engine_run, Hname.
    apply String.eqb_neq in Ho, Hg. by rewrite Ho, Hg.
Qed.

Lemma unsupported_engine_ends_the_run_witness :
  main.main (scenarios.with_config scenarios.unsupported_config) ["req.txt"] demo.start
  = (SystemExit 1,
     logged [EvPrint ("❌ Unsupported AI engine: "
                      +:+ lower (scenarios.with_config scenarios.unsupported_config) "Claude")]
       (logged [extracted demo.requirement] (logged [reading demo.args] demo.start))).
Proof.
  apply (unsupported_engine_ends_the_run
           (scenarios.with_config scenarios.unsupported_config) ["req.txt"] demo.start
           demo.args (logged [reading demo.args] demo.start) demo.requirement
           {[ "ai_engine" := PStr "Claude" ]} "Claude").
  - exists demo.start. split; [reflexivity|]. split; reflexivity.
  - eexists. split.
    + eexists. split; [reflexivity|]. split; reflexivity.
    + reflexivity.
  - reflexivity.
  - by vm_compute.
  - by vm_compute.
Defined.

(** X11: when the section of the chosen engine has no true 'api_key' (no
    section, no key, or a key that is None or empty), a run of [main] that
    has got as far as constructing the engine, with the package installed,
    ends with status 1 after the handler has printed that the key is
    required; nothing else is logged after the construction began. *)
Theorem missing_api_key_is_reported (P : Platform) (argv : list string)
    (s0 : state) (args : argparse.Namespace) (s : state) (text : string)
    (d section : pydict) (name : string) (s' : state) :
  enters_try P argv s0 args s →
  at_construction P args s text (PDict d) s' →
  dict_get d "ai_engine" (PStr "openai") = PStr name →
  truthy (dict_get section "api_key" PNone) = false →
  (lower P name = "openai" →
   dict_get d "openai" (PDict ∅) = PDict section →
   OPENAI_AVAILABLE s' = true →
   ∃ s'', log s'' = log s'
          ∧ main.main P argv s0
            = (SystemExit 1,
               logged [processing_error (Exn ValueError "OpenAI API key is required")] s''))
  ∧ (lower P name = "gemini" →
     dict_get d "gemini" (PDict ∅) = PDict section →
     GEMINI_AVAILABLE s' = true →
     ∃ s'', log s'' = log s'
            ∧ main.main P argv s0
              = (SystemExit 1,
                 logged [processing_error (Exn ValueError "Gemini API key is required")] s'')).
Proof.
  intros Henter Hat Hname Hfalse. split.
  - intros Hlower Hsection Havail.
    exists (with_object (Instance_ COpenAIEngine ∅) s'). split; [reflexivity|].
    rewrite (main_of_pipeline P _ _ _ _ Henter).
    rewrite (proj1 (pipeline_construction_outcome P _ _ _ _ _ Hat)
               (Exn ValueError "OpenAI API key is required")
               (with_object (Instance_ COpenAIEngine ∅) s')); [reflexivity|].
    rewrite get_ai_engine_run, Hname, Hlower. simpl. rewrite Hsection.
    by rewrite openai_new_run, Havail, Hfalse.
  - intros Hlower Hsection Havail.
    exists (with_object (Instance_ CGeminiEngine ∅) s'). split; [reflexivity|].
    rewrite (main_of_pipeline P _ _ _ _ Henter).
    rewrite (proj1 (pipeline_construction_outcome P _ _ _ _ _ Hat)
               (Exn ValueError "Gemini API key is required")
               (with_object (Instance_ CGeminiEngine ∅) s')); [reflexivity|].
    rewrite get_ai_engine_run, Hname, Hlower. simpl. rewrite Hsection.
    by rewrite gemini_new_run, Havail, Hfalse.
Qed.

(** An empty mapping as configuration: the default engine, and no key. *)
Lemma missing_api_key_is_reported_witness :
  ∃ s'', log s'' = log (logged [extracted demo.requirement]
                          (logged [reading demo.args] demo.start))
         ∧ main.main (scenarios.with_config "{}") ["req.txt"] demo.start
           = (SystemExit 1,
              logged [processing_error (Exn ValueError "OpenAI API key is required")] s'').
Proof.
  assert (Henter : enters_try (scenarios.with_config "{}") ["req.txt"] demo.start
                     demo.args (logged [reading demo.args] demo.start)).
  { exists demo.start. split; [reflexivity|]. split; reflexivity. }
  assert (Hat : at_construction (scenarios.with_config "{}") demo.args
                  (logged [reading demo.args] demo.start) demo.requirement (PDict ∅)
                  (logged [extracted demo.requirement]
                     (logged [reading demo.args] demo.start))).
  { eexists. split.
    - eexists. split; [reflexivity|]. split; reflexivity.
    - reflexivity. }
  assert (Hname : dict_get (∅ : pydict) "ai_engine" (PStr "openai") = PStr "openai")
    by reflexivity.
  assert (Hfalse : truthy (dict_get (∅ : pydict) "api_key" PNone) = false)
    by reflexivity.
  apply (proj1 (missing_api_key_is_reported _ _ _ _ _ _ _ _ _ _
                  Henter Hat Hname Hfalse));
    reflexivity.
Defined.

(** X12: when the configuration file decodes to something that is not a
    mapping (an empty file gives None, a list gives a list), a run of
    [main] that has got as far as constructing the engine ends with status
    1 after the handler has printed the AttributeError raised by the lookup
    of 'ai_engine'; the state is otherwise what it was when the
    construction began. *)
Theorem config_that_is_no_mapping_is_reported (P : Platform) (argv : list string)
    (s0 : state) (args : argparse.Namespace) (s : state) (text : string)
    (config : pyval) (s' : state) :
  enters_try P argv s0 args s →
  at_construction P args s text config s' →
  is_dict config = false →
  ∃ e, exn_class e = AttributeError
       ∧ main.main P argv s0 = (SystemExit 1, logged [processing_error e] s').
Proof.
  intros Henter Hat Hnot.
  exists (no_attribute config "get"). split; [reflexivity|].
  rewrite (main_of_pipeline P _ _ _ _ Henter).
  rewrite (proj1 (pipeline_construction_outcome P _ _ _ _ _ Hat)
             (no_attribute config "get") s'); [reflexivity|].
  rewrite get_ai_engine_run. by destruct config.
Qed.

Lemma config_that_is_no_mapping_is_reported_witness :
  ∃ e, exn_class e = AttributeError
       ∧ main.main (scenarios.with_config "null") ["req.txt"] demo.start
         = (SystemExit 1,
            logged [processing_error e]
              (logged [extracted demo.requirement]
                 (logged [reading demo.args] demo.start))).
Proof.
  apply (config_that_is_no_mapping_is_reported
           (scenarios.with_config "null") ["req.txt"] demo.start
           demo.args (logged [reading demo.args] demo.start) demo.requirement PNone).
  - exists demo.start. split; [reflexivity|]. split; reflexivity.
  - eexists. split.
    + eexists. split; [reflexivity|]. split; reflexivity.
    + reflexivity.
  - reflexivity.
Defined.

(** The line of the handler for an empty configuration file. *)
Example empty_config_line :
  main.main (scenarios.with_config "null") ["req.txt"] demo.start
  = (SystemExit 1,
     logged [EvPrint "❌ Error during processing: 'NoneType' object has no attribute 'get'"]
       (logged [extracted demo.requirement]
          (logged [reading demo.args] demo.start))).
Proof. reflexivity. Qed.

(** The run on a Gemini configuration whose 'model:' entry is empty: the
    constructor of the model raises inside the [try] statement, and the
    handler reports it. *)
Example gemini_without_model_line :
  fst (main.main (scenarios.with_config scenarios.gemini_config_text) ["req.txt"] demo.start)
  = SystemExit 1
  ∧ last (log (snd (main.main (scenarios.with_config scenarios.gemini_config_text)
                      ["req.txt"] demo.start)))
    = Some (EvPrint "❌ Error during processing: argument of type 'NoneType' is not iterable").
Proof. by split. Qed.

(** ** The guards of [main] *)

Section guards.
Variable P : Platform.

Lemma space_prefix_ascii (c : ascii) (r : string) :
  ascii_space c = true → space_prefix (String c r) = 1%nat.
Proof.
  unfold ascii_space, space_prefix. cbn [list_ascii_of_string map].
  intros H.
  assert (Hz : ((9 <=? Z.of_nat (nat_of_ascii c)) && (Z.of_nat (nat_of_ascii c) <=? 13))
               || ((28 <=? Z.of_nat (nat_of_ascii c))
                   && (Z.of_nat (nat_of_ascii c) <=? 32)) = true).
  { apply orb_true_iff in H. apply orb_true_iff.
    destruct H as [H|H]; [left|right]; apply andb_true_iff in H as [H1 H2];
      apply Nat.leb_le in H1, H2; apply andb_true_iff; split; apply Z.leb_le; lia. }
  by rewrite Hz.
Qed.

Lemma lstrip_only_spaces (s : string) : ∀ fuel,
  only_spaces s = true → (String.length s ≤ fuel)%nat → lstrip_fuel fuel s = "".
Proof.
  induction s as [|c r IH]; intros fuel Hs Hfuel.
  - by destruct fuel.
  - simpl in Hs. apply andb_true_iff in Hs as [Hc Hr].
    destruct fuel as [|fuel]; [simpl in Hfuel; lia|].
    cbn [lstrip_fuel]. rewrite (space_prefix_ascii c r Hc). cbn [drop_string].
    apply IH; [exact Hr|simpl in Hfuel; lia].
Qed.

(** A text of ASCII white space is stripped to nothing. *)
Lemma strip_only_spaces (s : string) : only_spaces s = true → strip s = "".
Proof.
  intros Hs. unfold strip, lstrip. by rewrite (lstrip_only_spaces s _ Hs).
Qed.

End guards.

(** X13: when the command line has parsed and the input path does not
    exist, [main] prints that the input file was not found and exits with
    status 1: the state it ends in is the state after parsing with that one
    line, so the file is not read, no configuration is loaded and no request
    is made. *)
Theorem missing_input_ends_the_run (P : Platform) (argv : list string)
    (s0 : state) (args : argparse.Namespace) (s1 : state) :
  main.parse_args P main.parser argv s0 = (Return args, s1) →
  path_exists P (log s1) (args !!! "input_file") = inr false →
  main.main P argv s0
  = (SystemExit 1,
     logged [EvPrint ("❌ Input file '" +:+ args !!! "input_file" +:+ "' not found.")] s1).
Proof.
  intros Hparse Hexists. unfold main.main. rewrite bind_run, Hparse.
  by rewrite bind_run, exists_run, Hexists.
Qed.

Lemma missing_input_ends_the_run_witness :
  main.main demo.platform ["nowhere.txt"; "-o"; "out.xlsx"] demo.start
  = (SystemExit 1, logged [EvPrint "❌ Input file 'nowhere.txt' not found."] demo.start).
Proof.
  rewrite (missing_input_ends_the_run demo.platform ["nowhere.txt"; "-o"; "out.xlsx"]
             demo.start
             (<["output" := "out.xlsx"]> (<["input_file" := "nowhere.txt"]> demo.args))
             demo.start);
    reflexivity.
Defined.

(** X14: when the text extracted from the document is empty or made of
    ASCII white space only (spaces, tabs, line ends), a run of [main] that
    has entered the [try] statement prints that no text content was found
    and exits with status 1, in the state it entered with and that one
    line: the configuration is not loaded and no request is made. *)
Theorem blank_document_ends_the_run (P : Platform) (argv : list string)
    (s0 : state) (args : argparse.Namespace) (s : state) (text : string) (s1 : state) :
  enters_try P argv s0 args s →
  extract_text.extract_text_from_file P (args !!! "input_file") s = (Return text, s1) →
  only_spaces text = true →
  main.main P argv s0
  = (SystemExit 1, logged [EvPrint "❌ No text content found in the document."] s).
Proof.
  intros Henter Hx Hblank.
  pose proof (extract_state P (args !!! "input_file") s) as Hs. rewrite Hx in Hs.
  simpl in Hs. subst s1.
  rewrite (main_of_pipeline P _ _ _ _ Henter), pipeline_unfold, Hx.
  by rewrite (strip_only_spaces text Hblank).
Qed.

(** A text file of blanks, and a PDF without pages. *)
Lemma blank_document_ends_the_run_witness :
  main.main (scenarios.with_file demo.platform "blank.txt" (fun _ => inr scenarios.blank))
    ["blank.txt"] demo.start
  = (SystemExit 1,
     logged [EvPrint "❌ No text content found in the document."]
       (logged [reading (<["input_file" := "blank.txt"]> demo.args)] demo.start))
  ∧ main.main (scenarios.with_document demo.platform "empty.pdf" (inr []) (inr []))
      ["empty.pdf"] demo.start
    = (SystemExit 1,
       logged [EvPrint "❌ No text content found in the document."]
         (logged [reading (<["input_file" := "empty.pdf"]> demo.args)] demo.start)).
Proof.
  split.
  - apply (blank_document_ends_the_run _ _ _
             (<["input_file" := "blank.txt"]> demo.args) _ scenarios.blank
             (logged [reading (<["input_file" := "blank.txt"]> demo.args)] demo.start)).
    + exists demo.start. split; [reflexivity|]. split; reflexivity.
    + reflexivity.
    + reflexivity.
  - apply (blank_document_ends_the_run _ _ _
             (<["input_file" := "empty.pdf"]> demo.args) _ ""
             (logged [reading (<["input_file" := "empty.pdf"]> demo.args)] demo.start)).
    + exists demo.start. split; [reflexivity|]. split; reflexivity.
    + reflexivity.
    + reflexivity.
Defined.

(** X15: when the engine returns the empty list, as it does for an answer
    whose array holds no dictionary, a run of [main] prints that no test
    cases were generated and exits with status 1 in the state the engine
    left, with that one line: [save_testcases_to_excel] is not called and
    nothing is written. *)
Theorem no_testcases_ends_the_run (P : Platform) (argv : list string)
    (s0 : state) (args : argparse.Namespace) (s : state) (text : string)
    (config : pyval) (engine : loc) (s' s'' : state) :
  enters_try P argv s0 args s →
  at_generation P args s text config engine s' →
  main.generate_testcases P engine text s' = (Return [], s'') →
  main.main P argv s0
  = (SystemExit 1, logged [EvPrint "❌ No test cases were generated."] s'').
Proof.
  intros Henter Hat Hgen.
  rewrite (main_of_pipeline P _ _ _ _ Henter).
  by rewrite (pipeline_at_generation P _ _ _ _ _ _ Hat), from_generation_unfold, Hgen.
Qed.

Lemma no_testcases_ends_the_run_witness :
  main.main (scenarios.with_answer demo.platform (inr "[1, 2]")) ["req.txt"] demo.start
  = (SystemExit 1,
     logged [EvPrint "❌ No test cases were generated."]
       (snd (main.generate_testcases
               (scenarios.with_answer demo.platform (inr "[1, 2]")) 0%nat demo.requirement
               (logged [using_engine demo.platform (PDict scenarios.config); generating]
                  (snd (main.get_ai_engine demo.platform (PDict scenarios.config)
                          (logged [extracted demo.requirement]
                             (logged [reading demo.args] demo.start)))))))).
Proof.
  apply (no_testcases_ends_the_run
           (scenarios.with_answer demo.platform (inr "[1, 2]")) ["req.txt"] demo.start
           demo.args (logged [reading demo.args] demo.start) demo.requirement
           (PDict scenarios.config) 0%nat
           (logged [using_engine demo.platform (PDict scenarios.config); generating]
              (snd (main.get_ai_engine demo.platform (PDict scenarios.config)
                      (logged [extracted demo.requirement]
                         (logged [reading demo.args] demo.start)))))).
  - exists demo.start. split; [reflexivity|]. split; reflexivity.
  - eexists _, _. split; [|split; [|reflexivity]].
    + eexists. split.
      * eexists. split; [reflexivity|]. split; reflexivity.
      * reflexivity.
    + reflexivity.
  - reflexivity.
Defined.

(** ** What a run of [main] does, in every case *)

Section every_run.
Variable P : Platform.

Lemma effects_app (a b : list event) : effects (a ++ b) = effects a ++ effects b.
Proof. apply List.filter_app. Qed.

Lemma extract_no_exit (file_path : string) (s : state) c s' :
  extract_text.extract_text_from_file P file_path s ≠ (SystemExit c, s').
Proof.
  unfold extract_text.extract_text_from_file.
  repeat case_match; try discriminate.
  - unfold extract_text.extract_text_from_pdf, try_except. run.
    destruct (PDF_AVAILABLE s); simpl; [|discriminate].
    destruct (pdf_pages P (log s) file_path); simpl; [|discriminate].
    by rewrite isinstance_Exception.
  - unfold extract_text.extract_text_from_docx, try_except. run.
    destruct (DOCX_AVAILABLE s); simpl; [|discriminate].
    destruct (docx_paragraphs P (log s) file_path); simpl; [|discriminate].
    by rewrite isinstance_Exception.
  - rewrite txt_closed. repeat case_match; discriminate.
Qed.

(** How [load_config] ends, and what it logs. *)
Lemma load_config_outcomes (config_path : string) (s : state) :
  match main.load_config P config_path s with
  | (Return _, s') | (Raise _, s') => s' = s
  | (SystemExit c, s') => c = 1 ∧ ∃ line, s' = logged [EvPrint line] s
  end.
Proof.
  unfold main.load_config, try_except. run.
  destruct (read_text P (log s) config_path UTF8) as [e|text]; simpl.
  - destruct (isinstance e FileNotFoundError); simpl; [eauto|].
    destruct (isinstance e YAMLError); simpl; eauto.
  - destruct (yaml_safe_load P text) as [e|v]; simpl; [|reflexivity].
    destruct (isinstance e FileNotFoundError); simpl; [eauto|].
    destruct (isinstance e YAMLError); simpl; eauto.
Qed.

(** How [get_ai_engine] ends, and what it logs. *)
Lemma get_ai_engine_outcomes (config : pyval) (s : state) :
  match main.get_ai_engine P config s with
  | (Return engine, s') => log s' = log s ∧ engine_ready s' engine
  | (Raise _, s') => log s' = log s
  | (SystemExit c, s') => c = 1 ∧ ∃ line, log s' = log s ++ [EvPrint line]
  end.
Proof.
  destruct (main.get_ai_engine P config s) as [[engine|e|c] s'] eqn:Hg.
  - apply get_ai_engine_returns in Hg as [Hlog Hready]. by split.
  - rewrite get_ai_engine_run in Hg.
    destruct config as [| | | | |l|d]; try (by injection Hg as _ <-).
    destruct (dict_get d "ai_engine" (PStr "openai")) as [| | | |name| |];
      try (by injection Hg as _ <-).
    destruct (String.eqb (lower P name) "openai").
    { destruct (dict_get d "openai" (PDict ∅)) as [| | | | | |oc];
        try (by injection Hg as _ <-).
      rewrite openai_new_run in Hg. repeat case_match; by injection Hg as _ <-. }
    destruct (String.eqb (lower P name) "gemini"); [|discriminate].
    destruct (dict_get d "gemini" (PDict ∅)) as [| | | | | |gc];
      try (by injection Hg as _ <-).
    rewrite gemini_new_run in Hg. repeat case_match; by injection Hg as _ <-.
  - split; [by eapply get_ai_engine_exit|].
    rewrite get_ai_engine_run in Hg.
    destruct config as [| | | | |l|d]; try discriminate.
    destruct (dict_get d "ai_engine" (PStr "openai")) as [| | | |name| |]; try discriminate.
    destruct (String.eqb (lower P name) "openai").
    { destruct (dict_get d "openai" (PDict ∅)) as [| | | | | |oc]; try discriminate.
      rewrite openai_new_run in Hg. repeat case_match; discriminate. }
    destruct (String.eqb (lower P name) "gemini").
    { destruct (dict_get d "gemini" (PDict ∅)) as [| | | | | |gc]; try discriminate.
      rewrite gemini_new_run in Hg. repeat case_match; discriminate. }
    injection Hg as _ <-. by eexists.
Qed.

(** A call through an engine that is set up: one request, and no exit. *)
Lemma main_generate_outcomes (engine : loc) (text : string) (s : state) :
  engine_ready s engine →
  ∃ request, is_request request = true
    ∧ snd (main.generate_testcases P engine text s) = logged [request] s
    ∧ ∀ c, fst (main.generate_testcases P engine text s) ≠ SystemExit c.
Proof.
  unfold main.generate_testcases. rewrite bind_run.
  intros [[api_key [model [-> Hready]]]|[model [-> Hready]]].
  - exists (openai_request api_key model text). split; [reflexivity|].
    split; [by apply openai_generate_ready|].
    intros c Hc. pose proof (openai_generate_surfaces P engine text s) as H.
    by rewrite Hc in H.
  - exists (gemini_request model text). split; [reflexivity|].
    split; [by apply gemini_generate_ready|].
    intros c Hc. pose proof (gemini_generate_surfaces P engine text s) as H.
    by rewrite Hc in H.
Qed.

(** How [save_testcases_to_excel] ends on a list that is not empty. *)
Lemma save_outcomes (tc0 : pydict) (rest : list pydict) (output_path : string) (s : state) :
  let write := EvExcelWrite (path_str output_path)
                 (export_excel.build_rows P (tc0 :: rest)) in
  match export_excel.save_testcases_to_excel P (tc0 :: rest) output_path s with
  | (Return _, s') => ∃ line, s' = logged [write; EvPrint line] s
  | (Raise _, s') => s' = logged [write] s
  | (SystemExit _, _) => False
  end.
Proof.
  unfold export_excel.save_testcases_to_excel, export_excel.write_excel. run.
  match goal with |- context [excel_write P ?h ?p ?r] =>
    destruct (excel_write P h p r) as [e|] end; simpl; [reflexivity|].
  eexists. unfold logged, set_log. simpl. by rewrite <- app_assoc.
Qed.

Lemma engine_ready_logged (evs : list event) (s : state) (engine : loc) :
  engine_ready s engine → engine_ready (logged evs s) engine.
Proof.
  intros [[api_key [model [Hc Hr]]]|[model [Hc Hr]]]; [left|right].
  - exists api_key, model. split; [by apply class_of_logged|exact Hr].
  - exists model. split; [by apply class_of_logged|exact Hr].
Qed.

Lemma request_is_no_print (ev : event) : is_request ev = true → is_print ev = false.
Proof. by destruct ev. Qed.

Lemma effects_request (request : event) (evs : list event) :
  is_request request = true → effects (request :: evs) = request :: effects evs.
Proof.
  intros H. unfold effects. simpl. by rewrite (request_is_no_print _ H).
Qed.

Lemma from_generation_shape args text engine s :
  engine_ready s engine →
  ∃ evs, log (snd (from_generation P args text engine s)) = log s ++ evs
         ∧ run_shape (fst (from_generation P args text engine s)) evs.
Proof.
  intros Hready. rewrite from_generation_unfold.
  destruct (main_generate_outcomes engine text s Hready) as [request [Hreq [Hsnd Hno]]].
  destruct (main.generate_testcases P engine text s) as [[testcases|e|c] s4];
    simpl in Hsnd, Hno; subst s4.
  - destruct testcases as [|tc0 rest].
    + exists [request; EvPrint "❌ No test cases were generated."].
      split; [simpl; by rewrite <- app_assoc|].
      split; [|reflexivity]. right. left. exists request.
      split; [exact Hreq|]. by rewrite effects_request.
    + pose proof (save_outcomes tc0 rest (args !!! "output")
                    (logged [generated (tc0 :: rest); saving args] (logged [request] s)))
        as Hsave.
      cbv zeta in Hsave.
      destruct (export_excel.save_testcases_to_excel P (tc0 :: rest) _ _)
        as [[[]|e|c] s5]; [| |done].
      * destruct Hsave as [line ->].
        eexists [request; generated (tc0 :: rest); saving args; EvExcelWrite _ _;
                 EvPrint line; completed].
        split; [simpl; by rewrite <- !app_assoc|].
        split.
        -- right. right. eexists request, _, _.
           split; [exact Hreq|]. by rewrite effects_request.
        -- eexists request, _, _.
           split; [exact Hreq|]. by rewrite effects_request.
      * subst s5.
        eexists [request; generated (tc0 :: rest); saving args; EvExcelWrite _ _].
        split; [simpl; by rewrite <- !app_assoc|].
        split; [|done]. right. right. eexists request, _, _.
        split; [exact Hreq|]. by rewrite effects_request.
  - exists [request]. split; [reflexivity|].
    split; [|done]. right. left. exists request.
    split; [exact Hreq|]. by rewrite effects_request.
  - by destruct (Hno c).
Qed.

(** Prints before a piece of a run leave its shape as it is. *)
Lemma run_shape_prints {A} (o : outcome A) (prints evs : list event) :
  effects prints = [] → run_shape o evs → run_shape o (prints ++ evs).
Proof.
  intros Hp [Hat Ho]. unfold run_shape, at_most_request_then_write.
  rewrite effects_app, Hp. done.
Qed.

Lemma run_shape_quiet {A} (o : outcome A) (evs : list event) :
  effects evs = [] → returns_or_exits_1 o ∨ (∃ e, o = Raise e) →
  (∀ v, o ≠ Return v) → run_shape o evs.
Proof.
  intros He Ho Hr. split; [by left|].
  destruct o as [v|e|c]; [by destruct (Hr v)|done|].
  destruct Ho as [Ho|[e He']]; [exact Ho|discriminate].
Qed.

Lemma from_construction_shape args text config s :
  ∃ evs, log (snd (from_construction P args text config s)) = log s ++ evs
         ∧ run_shape (fst (from_construction P args text config s)) evs.
Proof.
  rewrite from_construction_unfold.
  pose proof (get_ai_engine_outcomes config s) as Hg.
  destruct (main.get_ai_engine P config s) as [[engine|e|c] s3].
  - destruct Hg as [Hlog Hready].
    destruct config as [| | | | |l|d];
      try (exists []; split; [simpl; by rewrite app_nil_r|];
           apply run_shape_quiet; [done|right; by eexists|done]).
    destruct (from_generation_shape args text engine
                (logged [using_engine P (PDict d); generating] s3))
      as [evs [Hevs Hshape]]; [by apply engine_ready_logged|].
    exists ([using_engine P (PDict d); generating] ++ evs).
    split.
    + rewrite Hevs. simpl. rewrite Hlog. by rewrite <- app_assoc.
    + by apply run_shape_prints.
  - exists []. split; [simpl; by rewrite app_nil_r|].
    apply run_shape_quiet; [done|right; by eexists|done].
  - destruct Hg as [-> [line Hline]]. exists [EvPrint line].
    split; [exact Hline|]. apply run_shape_quiet; [done|by left|done].
Qed.

Lemma from_loading_shape args text s :
  ∃ evs, log (snd (from_loading P args text s)) = log s ++ evs
         ∧ run_shape (fst (from_loading P args text s)) evs.
Proof.
  unfold from_loading. rewrite bind_run.
  pose proof (load_config_outcomes (args !!! "config") s) as Hl.
  destruct (main.load_config P (args !!! "config") s) as [[config|e|c] s2].
  - subst s2. apply from_construction_shape.
  - subst s2. exists []. split; [simpl; by rewrite app_nil_r|].
    apply run_shape_quiet; [done|right; by eexists|done].
  - destruct Hl as [-> [line ->]]. exists [EvPrint line].
    split; [reflexivity|]. apply run_shape_quiet; [done|by left|done].
Qed.

Lemma pipeline_shape args s :
  ∃ evs, log (snd (main.pipeline P args s)) = log s ++ evs
         ∧ run_shape (fst (main.pipeline P args s)) evs.
Proof.
  rewrite pipeline_unfold.
  pose proof (extract_state P (args !!! "input_file") s) as Hs.
  pose proof (extract_no_exit (args !!! "input_file") s) as Hno.
  destruct (extract_text.extract_text_from_file P (args !!! "input_file") s)
    as [[text|e|c] s1]; simpl in Hs; subst s1.
  - destruct (negb (truthy (PStr (strip text)))).
    + eexists [EvPrint _]. split; [reflexivity|].
      apply run_shape_quiet; [done|by left|done].
    + destruct (from_loading_shape args text (logged [extracted text] s))
        as [evs [Hevs Hshape]].
      exists ([extracted text] ++ evs). split.
      * rewrite Hevs. simpl. by rewrite <- app_assoc.
      * by apply run_shape_prints.
  - exists []. split; [simpl; by rewrite app_nil_r|].
    apply run_shape_quiet; [done|right; by eexists|done].
  - by destruct (Hno c s).
Qed.

(** [parse_args] prints, and returns or exits. *)
Lemma print_lines_run (lines : list string) (s : state) :
  fold_left (fun (m : M unit) line => m;; print line) lines (mret tt) s
  = (Return tt, logged (EvPrint <$> lines) s).
Proof.
  assert (∀ (m : M unit) evs,
            m s = (Return tt, logged evs s) →
            fold_left (fun (m : M unit) line => m;; print line) lines m s
            = (Return tt, logged (evs ++ (EvPrint <$> lines)) s)) as H.
  { induction lines as [|line lines IH]; intros m evs Hm; simpl.
    - by rewrite app_nil_r.
    - rewrite (IH _ (evs ++ [EvPrint line])).
      + by rewrite <- app_assoc.
      + rewrite bind_run, Hm. unfold print, emit, logged, set_log. simpl.
        by rewrite app_assoc. }
  rewrite (H _ []); [done|]. by rewrite logged_nil.
Qed.

Lemma effects_prints (lines : list string) : effects (EvPrint <$> lines) = [].
Proof. by induction lines. Qed.

Lemma parse_args_outcomes (argv : list string) (s0 : state) :
  ∃ lines, snd (main.parse_args P main.parser argv s0) = logged (EvPrint <$> lines) s0
           ∧ ∀ e, fst (main.parse_args P main.parser argv s0) ≠ Raise e.
Proof.
  unfold main.parse_args.
  destruct (forallb (argparse.plain_word main.parser) argv).
  - exists []. rewrite logged_nil.
    destruct (argparse.parse_plain main.parser argv); by split.
  - destruct (argparse_other P main.parser argv) as [printed r].
    exists printed. rewrite bind_run, print_lines_run.
    destruct r; by split.
Qed.

(** The run of [main] as a whole. *)
Lemma main_shape (argv : list string) (s0 : state) :
  ∃ evs, log (snd (main.main P argv s0)) = log s0 ++ evs
         ∧ at_most_request_then_write evs
         ∧ (∀ v, fst (main.main P argv s0) = Return v →
              ∃ request path rows,
                is_request request = true
                ∧ effects evs = [request; EvExcelWrite path rows])
         ∧ (∀ args s1, main.parse_args P main.parser argv s0 = (Return args, s1) →
              match path_exists P (log s1) (args !!! "input_file") with
              | inr _ => returns_or_exits_1 (fst (main.main P argv s0))
              | inl e => main.main P argv s0 = (Raise e, s1)
              end).
Proof.
  destruct (parse_args_outcomes argv s0) as [lines [Hsnd Hno]].
  destruct (main.parse_args P main.parser argv s0) as [[args|e|c] s1] eqn:Hparse;
    simpl in Hsnd, Hno; [|by destruct (Hno e)|].
  2:{ unfold main.main. rewrite bind_run, Hparse. simpl.
      exists (EvPrint <$> lines). subst s1.
      split; [reflexivity|]. split; [left; apply effects_prints|].
      repeat split; try done. }
  destruct (path_exists P (log s1) (args !!! "input_file")) as [e|[]] eqn:Hexists.
  - assert (main.main P argv s0 = (Raise e, s1)) as Hmain.
    { unfold main.main. by rewrite bind_run, Hparse, bind_run, exists_run, Hexists. }
    rewrite Hmain. exists (EvPrint <$> lines). subst s1. simpl.
    split; [reflexivity|]. split; [left; apply effects_prints|].
    split; [done|]. intros args' s1' [= <- <-]. by rewrite Hexists.
  - rewrite (main_of_pipeline P argv s0 args (logged [reading args] s1)).
    2:{ exists s1. by repeat split. }
    destruct (pipeline_shape args (logged [reading args] s1)) as [evs [Hevs [Hat Ho]]].
    destruct (main.pipeline P args (logged [reading args] s1)) as [[[]|e|c] s'];
      simpl in Hevs, Ho |- *.
    + exists ((EvPrint <$> lines) ++ [reading args] ++ evs).
      rewrite Hevs. subst s1. simpl. rewrite <- !app_assoc.
      split; [reflexivity|].
      unfold at_most_request_then_write.
      assert (effects ((EvPrint <$> lines) ++ reading args :: evs) = effects evs) as ->.
      { by rewrite effects_app, effects_prints. }
      repeat split; try done.
      intros args' s1' [= <- <-]. by rewrite Hexists.
    + exists ((EvPrint <$> lines) ++ [reading args] ++ evs ++ [processing_error e]).
      rewrite Hevs. subst s1. simpl. rewrite <- !app_assoc.
      split; [reflexivity|].
      unfold at_most_request_then_write.
      assert (effects ((EvPrint <$> lines) ++ reading args :: evs ++ [processing_error e])
              = effects evs) as ->.
      { rewrite effects_app, effects_prints. simpl.
        change (reading args :: evs ++ [processing_error e])
          with ([reading args] ++ evs ++ [processing_error e]).
        rewrite !effects_app. simpl. by rewrite app_nil_r. }
      repeat split; try done.
      intros args' s1' [= <- <-]. by rewrite Hexists.
    + exists ((EvPrint <$> lines) ++ [reading args] ++ evs).
      rewrite Hevs. subst s1. simpl. rewrite <- !app_assoc.
      split; [reflexivity|].
      unfold at_most_request_then_write.
      assert (effects ((EvPrint <$> lines) ++ reading args :: evs) = effects evs) as ->.
      { by rewrite effects_app, effects_prints. }
      repeat split; try done.
      intros args' s1' [= <- <-]. by rewrite Hexists.
  - unfold main.main. rewrite bind_run, Hparse, bind_run, exists_run, Hexists. simpl.
    eexists ((EvPrint <$> lines) ++ [EvPrint _]). subst s1. simpl.
    rewrite <- app_assoc. split; [reflexivity|].
    unfold at_most_request_then_write. rewrite effects_app, effects_prints.
    split; [by left|]. split; [done|].
    intros args' s1' [= <- <-]. by rewrite Hexists.
Qed.

(** A failure to read or to decode the configuration that is neither of
    the two that [load_config] handles. *)
Lemma load_config_other (config_path : string) (s : state) (e : exn) :
  (read_text P (log s) config_path UTF8 = inl e
   ∨ ∃ text, read_text P (log s) config_path UTF8 = inr text
             ∧ yaml_safe_load P text = inl e) →
  isinstance e FileNotFoundError = false →
  isinstance e YAMLError = false →
  main.load_config P config_path s = (Raise e, s).
Proof.
  intros Hfail Hfnf Hyaml. unfold main.load_config, try_except. run.
  destruct Hfail as [->|[text [-> Hdecode]]]; simpl.
  - by rewrite Hfnf, Hyaml.
  - rewrite Hdecode. simpl. by rewrite Hfnf, Hyaml.
Qed.

End every_run.

(** ** Every run of [main] *)

(** X16: how a run of [main] ends once the command line has been parsed.
    The test whether the input file exists stands before the [try]
    statement: when [Path.exists] raises (the OSError of a name that is too
    long or of a directory that may not be searched), that exception leaves
    [main], with nothing printed. When it answers, the run returns or exits
    with status 1, whatever the files, the packages and the services do
    after that: every guard and every exception of a stage ends in the one
    status 1, no exception leaves [main], and no other status occurs. *)
Theorem main_returns_or_exits_with_status_1 (P : Platform) (argv : list string)
    (s0 : state) (args : argparse.Namespace) (s1 : state) :
  main.parse_args P main.parser argv s0 = (Return args, s1) →
  match path_exists P (log s1) (args !!! "input_file") with
  | inr _ => returns_or_exits_1 (fst (main.main P argv s0))
  | inl e => main.main P argv s0 = (Raise e, s1)
  end.
Proof.
  intros Hparse.
  destruct (main_shape P argv s0) as [evs [_ [_ [_ Hend]]]].
  by apply Hend.
Qed.

(** A run with the service down, and a run on a path the file system
    refuses to look at. *)
Lemma main_returns_or_exits_with_status_1_witness :
  returns_or_exits_1 (fst (main.main demo.offline ["req.txt"; "-o"; "out.xlsx"] demo.start))
  ∧ main.main
      (scenarios.with_exists_error demo.platform "locked/req.txt"
         (Exn OSError "[Errno 13] Permission denied: 'locked/req.txt'"))
      ["locked/req.txt"] demo.start
    = (Raise (Exn OSError "[Errno 13] Permission denied: 'locked/req.txt'"), demo.start).
Proof.
  split.
  - assert (main.parse_args demo.offline main.parser ["req.txt"; "-o"; "out.xlsx"]
              demo.start
            = (Return (<["output" := "out.xlsx"]> demo.args), demo.start)) as Hparse
      by reflexivity.
    exact (main_returns_or_exits_with_status_1 _ _ _ _ _ Hparse).
  - assert (main.parse_args
              (scenarios.with_exists_error demo.platform "locked/req.txt"
                 (Exn OSError "[Errno 13] Permission denied: 'locked/req.txt'"))
              main.parser ["locked/req.txt"] demo.start
            = (Return (<["input_file" := "locked/req.txt"]> demo.args), demo.start))
      as Hparse by reflexivity.
    exact (main_returns_or_exits_with_status_1 _ _ _ _ _ Hparse).
Defined.

(** X17: of the things a run of [main] does to the world besides
    printing (requests to a service and exports of a workbook), it does at
    most two, in this order: one request to the service of the engine, and
    one export. A run that returns has done both. So no run asks the
    service twice, and none exports a workbook without having asked. *)
Theorem run_makes_at_most_one_request_then_one_write (P : Platform)
    (argv : list string) (s0 : state) :
  ∃ evs, log (snd (main.main P argv s0)) = log s0 ++ evs
         ∧ at_most_request_then_write evs
         ∧ (∀ v, fst (main.main P argv s0) = Return v →
              ∃ request path rows,
                is_request request = true
                ∧ effects evs = [request; EvExcelWrite path rows]).
Proof.
  destruct (main_shape P argv s0) as [evs [Hlog [Hat [Hret _]]]].
  exists evs. by repeat split.
Qed.

(** X18: [load_config] handles a missing file and a YAML error only. Any
    other failure to read or to decode the configuration (a file that is
    not UTF-8, one that may not be read) leaves [load_config] as the
    exception it is, with nothing printed, and the handler of [main]
    reports it: the run ends with status 1 after the line of the handler. *)
Theorem other_config_failures_reach_the_handler (P : Platform) (argv : list string)
    (s0 : state) (args : argparse.Namespace) (s : state) (text : string)
    (s' : state) (e : exn) :
  enters_try P argv s0 args s →
  at_loading P args s text s' →
  (read_text P (log s') (args !!! "config") UTF8 = inl e
   ∨ ∃ yaml, read_text P (log s') (args !!! "config") UTF8 = inr yaml
             ∧ yaml_safe_load P yaml = inl e) →
  isinstance e FileNotFoundError = false →
  isinstance e YAMLError = false →
  main.load_config P (args !!! "config") s' = (Raise e, s')
  ∧ main.main P argv s0 = (SystemExit 1, logged [processing_error e] s').
Proof.
  intros Henter Hat Hfail Hfnf Hyaml.
  pose proof (load_config_other P _ _ _ Hfail Hfnf Hyaml) as Hload.
  split; [exact Hload|].
  rewrite (main_of_pipeline P _ _ _ _ Henter), (pipeline_at_loading P _ _ _ _ Hat).
  unfold from_loading. by rewrite bind_run, Hload.
Qed.

Lemma other_config_failures_reach_the_handler_witness :
  let P := scenarios.with_file demo.platform "config.yaml"
             (fun _ => inl (Exn UnicodeDecodeError "invalid start byte")) in
  let s' := logged [extracted demo.requirement] (logged [reading demo.args] demo.start) in
  main.load_config P (demo.args !!! "config") s'
  = (Raise (Exn UnicodeDecodeError "invalid start byte"), s')
  ∧ main.main P ["req.txt"] demo.start
    = (SystemExit 1,
       logged [processing_error (Exn UnicodeDecodeError "invalid start byte")] s').
Proof.
  apply (other_config_failures_reach_the_handler
           (scenarios.with_file demo.platform "config.yaml"
              (fun _ => inl (Exn UnicodeDecodeError "invalid start byte")))
           ["req.txt"] demo.start demo.args
           (logged [reading demo.args] demo.start) demo.requirement).
  - exists demo.start. split; [reflexivity|]. split; reflexivity.
  - eexists. split; [reflexivity|]. split; reflexivity.
  - left. reflexivity.
  - reflexivity.
  - reflexivity.
Defined.

(** ** PDF and DOCX documents *)

Section documents.
Variable P : Platform.

Lemma accumulate_lines (parts : list string) : ∀ acc : string,
  fold_left (fun text_content part => text_content +:+ (part +:+ newline)) parts acc
  = acc +:+ each_with_newline parts.
Proof.
  induction parts as [|part rest IH]; intros acc; cbn [fold_left each_with_newline].
  - by rewrite string_app_nil_r.
  - rewrite IH. by rewrite !string_app_assoc.
Qed.

Lemma pdf_closed (file_path : string) (s : state) :
  extract_text.extract_text_from_pdf P file_path s
  = document_text "PDF" "PyPDF2" (PDF_AVAILABLE s) (pdf_pages P (log s) file_path) s.
Proof.
  unfold extract_text.extract_text_from_pdf, document_text, try_except. run.
  destruct (PDF_AVAILABLE s); simpl; [|reflexivity].
  destruct (pdf_pages P (log s) file_path) as [e|pages]; simpl.
  - by rewrite isinstance_Exception.
  - by rewrite accumulate_lines.
Qed.

Lemma docx_closed (file_path : string) (s : state) :
  extract_text.extract_text_from_docx P file_path s
  = document_text "DOCX" "python-docx" (DOCX_AVAILABLE s)
      (docx_paragraphs P (log s) file_path) s.
Proof.
  unfold extract_text.extract_text_from_docx, document_text, try_except. run.
  destruct (DOCX_AVAILABLE s); simpl; [|reflexivity].
  destruct (docx_paragraphs P (log s) file_path) as [e|pars]; simpl.
  - by rewrite isinstance_Exception.
  - by rewrite accumulate_lines.
Qed.

Lemma only_spaces_app (a b : string) :
  only_spaces (a +:+ b) = only_spaces a && only_spaces b.
Proof.
  induction a as [|c r IH]; [reflexivity|].
  change (ascii_space c && only_spaces (r +:+ b)
          = ascii_space c && only_spaces r && only_spaces b).
  by rewrite IH, andb_assoc.
Qed.

Lemma only_spaces_lines (parts : list string) :
  forallb only_spaces parts = true → only_spaces (each_with_newline parts) = true.
Proof.
  induction parts as [|part rest IH]; [reflexivity|].
  intros H. simpl in H. apply andb_true_iff in H as [Hp Hr].
  cbn [each_with_newline]. rewrite !only_spaces_app, Hp, (IH Hr). reflexivity.
Qed.

Lemma py_len_app (a b : string) : py_len (a +:+ b) = py_len a + py_len b.
Proof.
  induction a as [|c r IH]; [reflexivity|].
  change (String c r +:+ b) with (String c (r +:+ b)). cbn [py_len]. rewrite IH. lia.
Qed.

Lemma py_len_lines (parts : list string) :
  py_len (each_with_newline parts)
  = fold_right (fun part n => py_len part + 1 + n) 0 parts.
Proof.
  induction parts as [|part rest IH]; [reflexivity|].
  cbn [each_with_newline fold_right]. rewrite !py_len_app, IH.
  change (py_len newline) with 1. lia.
Qed.

End documents.

(** X19: [extract_text_from_pdf] and [extract_text_from_docx] in closed
    form. When the package is missing they raise ImportError before the
    file is touched, whatever the file is. Otherwise a failure to open or
    to read the document is raised again as a plain Exception whose text is
    the text of the failure after 'Error reading PDF file: ' or 'Error
    reading DOCX file: ', so the class of the failure is lost. Otherwise
    the text is the pages (the paragraphs) in order, each followed by a
    line end, also the last one; its length is the sum of their lengths
    and one more for each. The state is left as it is in every case. *)
Theorem documents_give_their_parts_line_by_line (P : Platform)
    (file_path : string) (s : state) :
  extract_text.extract_text_from_pdf P file_path s
  = document_text "PDF" "PyPDF2" (PDF_AVAILABLE s) (pdf_pages P (log s) file_path) s
  ∧ extract_text.extract_text_from_docx P file_path s
    = document_text "DOCX" "python-docx" (DOCX_AVAILABLE s)
        (docx_paragraphs P (log s) file_path) s
  ∧ ∀ parts : list string,
      py_len (each_with_newline parts)
      = fold_right (fun part n => py_len part + 1 + n) 0 parts.
Proof.
  split; [apply pdf_closed|]. split; [apply docx_closed|]. apply py_len_lines.
Qed.

(** A document of two pages, one that cannot be opened, and a missing
    package asked for a file that does not exist. *)
Example two_pages :
  extract_text.extract_text_from_file
    (scenarios.with_document demo.platform "spec.PDF" (inr ["Login"; "Logout"]) (inr []))
    "spec.PDF" demo.start
  = (Return ("Login" +:+ newline +:+ "Logout" +:+ newline), demo.start).
Proof. reflexivity. Qed.

Example damaged_docx :
  extract_text.extract_text_from_file demo.platform "spec.docx" demo.start
  = (Raise (Exn Exception "Error reading DOCX file: not a DOCX file"), demo.start).
Proof. reflexivity. Qed.

(** X20: a PDF whose pages all extract to nothing or to white space, as
    the pages of a scanned document do, and a DOCX whose paragraphs are all
    blank, end the run: [main] prints that no text content was found and
    exits with status 1, without loading the configuration and without a
    request. The same holds for a document with no page and no paragraph. *)
Theorem blank_pages_end_the_run (P : Platform) (argv : list string) (s0 : state)
    (args : argparse.Namespace) (s : state) (parts : list string) :
  enters_try P argv s0 args s →
  (lower P (path_suffix (args !!! "input_file")) = ".pdf"
   ∧ PDF_AVAILABLE s = true
   ∧ pdf_pages P (log s) (args !!! "input_file") = inr parts)
  ∨ (lower P (path_suffix (args !!! "input_file")) = ".docx"
     ∧ DOCX_AVAILABLE s = true
     ∧ docx_paragraphs P (log s) (args !!! "input_file") = inr parts) →
  forallb only_spaces parts = true →
  main.main P argv s0
  = (SystemExit 1, logged [EvPrint "❌ No text content found in the document."] s).
Proof.
  intros Henter Hdoc Hblank.
  rewrite (main_of_pipeline P _ _ _ _ Henter), pipeline_unfold.
  assert (extract_text.extract_text_from_file P (args !!! "input_file") s
          = (Return (each_with_newline parts), s)) as ->.
  { unfold extract_text.extract_text_from_file.
    destruct Hdoc as [[-> [Hav Hparts]]|[-> [Hav Hparts]]]; simpl.
    - rewrite pdf_closed, Hav, Hparts. reflexivity.
    - rewrite docx_closed, Hav, Hparts. reflexivity. }
  by rewrite (strip_only_spaces _ (only_spaces_lines parts Hblank)).
Qed.

Lemma blank_pages_end_the_run_witness :
  main.main (scenarios.with_document demo.platform "scan.pdf" (inr [""; " "; ""]) (inr []))
    ["scan.pdf"] demo.start
  = (SystemExit 1,
     logged [EvPrint "❌ No text content found in the document."]
       (logged [reading (<["input_file" := "scan.pdf"]> demo.args)] demo.start)).
Proof.
  apply (blank_pages_end_the_run _ _ _
           (<["input_file" := "scan.pdf"]> demo.args) _ [""; " "; ""]).
  - exists demo.start. split; [reflexivity|]. split; reflexivity.
  - left. split; [reflexivity|]. split; reflexivity.
  - reflexivity.
Defined.

(** ** More on the spreadsheet *)

Section more_on_export.
Variable P : Platform.

Lemma py_len_nonneg (s : string) : 0 ≤ py_len s.
Proof.
  induction s as [|c r IH]; [done|]. cbn [py_len].
  destruct (Z.land (Z.of_nat (nat_of_ascii c)) 192 =? 128); lia.
Qed.

(** The loop over the cells of a column, started at [acc]. *)
Lemma max_length_from (column : list pyval) : ∀ acc : Z,
  let m := fold_left
             (fun max_length value =>
                if py_len (py_str P value) >? max_length then py_len (py_str P value)
                else max_length)
             column acc in
  acc ≤ m
  ∧ (∀ v, v ∈ column → cell_length P v ≤ m)
  ∧ (m = acc ∨ ∃ v, v ∈ column ∧ m = cell_length P v).
Proof.
  unfold cell_length.
  induction column as [|value column IH]; intros acc; cbn [fold_left].
  - split; [lia|]. split; [|by left]. intros v Hv. by apply elem_of_nil in Hv.
  - cbv zeta in IH.
    destruct (Z.gtb_spec (py_len (py_str P value)) acc) as [Hgt|Hle].
    + destruct (IH (py_len (py_str P value))) as [Hacc [Hall Hatt]].
      split; [lia|]. split.
      * intros v Hv. apply elem_of_cons in Hv as [->|Hv]; [exact Hacc|by apply Hall].
      * right. destruct Hatt as [->|[v [Hv ->]]].
        -- exists value. split; [by left|reflexivity].
        -- exists v. split; [by right|reflexivity].
    + destruct (IH acc) as [Hacc [Hall Hatt]].
      split; [exact Hacc|]. split.
      * intros v Hv. apply elem_of_cons in Hv as [->|Hv]; [lia|by apply Hall].
      * destruct Hatt as [->|[v [Hv ->]]]; [by left|].
        right. exists v. split; [by right|reflexivity].
Qed.

Lemma max_length_is_the_maximum (column : list pyval) :
  0 ≤ export_excel.max_length P column
  ∧ (∀ v, v ∈ column → cell_length P v ≤ export_excel.max_length P column)
  ∧ (column = []
     ∨ ∃ v, v ∈ column ∧ export_excel.max_length P column = cell_length P v).
Proof.
  destruct (max_length_from column 0) as [H0 [Hall Hatt]].
  split; [exact H0|]. split; [exact Hall|].
  destruct column as [|value column]; [by left|]. right.
  destruct Hatt as [Hz|Hatt]; [|exact Hatt].
  exists value. split; [by left|].
  unfold export_excel.max_length. rewrite Hz.
  pose proof (Hall value (list_elem_of_here value column)) as Hle.
  unfold export_excel.max_length in Hle. rewrite Hz in Hle.
  pose proof (py_len_nonneg (py_str P value)). unfold cell_length in *. lia.
Qed.

Lemma make_row_columns (tc : pydict) : dom (export_excel.make_row P tc) = nine_columns.
Proof.
  apply set_eq. intros k. unfold export_excel.make_row, nine_columns.
  rewrite dom_list_to_map_L. simpl. set_solver.
Qed.

Lemma six_fields_lookup (tc : pydict) (k : string) :
  dom tc = six_fields → k ∈ six_fields → ∃ v, tc !! k = Some v.
Proof.
  intros Hdom Hk. apply (elem_of_dom (D := gset string)). by rewrite Hdom.
Qed.

End more_on_export.

(** X21: every row [save_testcases_to_excel] builds has the same nine
    columns, whatever fields the test case has, and its Test Steps cell is
    a string. For a test case with the six fields, as the engines return
    them, none of the defaults of the export applies: the identifier, the
    feature, the title, the expected result and the priority are the values
    of the fields, and the steps are the numbered lines when the field is a
    list and the [str] of the field when it is anything else. *)
Theorem rows_have_nine_columns (P : Platform) (tc : pydict) :
  let row := export_excel.make_row P tc in
  dom row = nine_columns
  ∧ (∃ text, row !! "Test Steps" = Some (PStr text))
  ∧ (dom tc = six_fields →
     row !! "Test ID" = tc !! "test_id"
     ∧ row !! "Feature" = tc !! "feature"
     ∧ row !! "Test Case Title" = tc !! "title"
     ∧ row !! "Expected Result" = tc !! "expected_result"
     ∧ row !! "Priority" = tc !! "priority"
     ∧ ∃ steps, tc !! "steps" = Some steps
         ∧ row !! "Test Steps"
           = Some (PStr match steps with
                        | PList l =>
                            join newline
                              (map (fun '(i, step) =>
                                      fmt_int (i + 1) +:+ ". " +:+ py_str P step)
                                   (enumerate l))
                        | _ => py_str P steps
                        end)).
Proof.
  intros row. split; [apply make_row_columns|]. split; [by eexists|].
  intros Hdom.
  assert (∀ k, k ∈ six_fields → ∃ v, tc !! k = Some v) as Hsix
    by (intros k; by apply six_fields_lookup).
  destruct (Hsix "test_id") as [v1 H1]; [unfold six_fields; set_solver|].
  destruct (Hsix "feature") as [v2 H2]; [unfold six_fields; set_solver|].
  destruct (Hsix "title") as [v3 H3]; [unfold six_fields; set_solver|].
  destruct (Hsix "expected_result") as [v4 H4]; [unfold six_fields; set_solver|].
  destruct (Hsix "priority") as [v5 H5]; [unfold six_fields; set_solver|].
  destruct (Hsix "steps") as [v6 H6]; [unfold six_fields; set_solver|].
  subst row. unfold export_excel.make_row, export_excel.steps_text, dict_get.
  rewrite H1, H2, H3, H4, H5, H6.
  repeat (split; [reflexivity|]).
  exists v6. split; [reflexivity|]. by destruct v6.
Qed.

Lemma rows_have_nine_columns_witness :
  let tc := scenarios.complete_testcases !!! 0%nat in
  let row := export_excel.make_row demo.platform tc in
  row !! "Test ID" = tc !! "test_id"
  ∧ row !! "Priority" = tc !! "priority".
Proof.
  intros tc row.
  destruct (rows_have_nine_columns demo.platform tc) as [_ [_ H]].
  destruct H as [H1 [_ [_ [_ [H5 _]]]]]; [by vm_compute|].
  split; [exact H1|exact H5].
Defined.

(** X22: the width a column is set to is the length of its longest cell
    and 2 more, but never more than 50: it lies between 2 and 50, no cell
    asks for more than it unless it is capped at 50, and it is what one of
    the cells asks for (a column always has its header cell). *)
Theorem column_width_fits_the_longest_cell_up_to_50 (P : Platform)
    (column : list pyval) :
  let width := export_excel.adjusted_width P column in
  2 ≤ width ≤ 50
  ∧ (∀ v, v ∈ column → Z.min (cell_length P v + 2) 50 ≤ width)
  ∧ (column = [] ∨ ∃ v, v ∈ column ∧ width = Z.min (cell_length P v + 2) 50).
Proof.
  intros width. subst width. unfold export_excel.adjusted_width.
  destruct (max_length_is_the_maximum P column) as [H0 [Hall Hatt]].
  split; [lia|]. split.
  - intros v Hv. specialize (Hall v Hv). lia.
  - destruct Hatt as [->|[v [Hv ->]]]; [by left|]. right. by exists v.
Qed.

Example widths :
  map (export_excel.adjusted_width demo.platform)
    [ [PStr "Test ID"; PStr "TC001"; PStr "TC002"];
      [PStr "Notes"; PNone; PNone];
      [PStr "Test Case Title";
       PStr "Verify user can update profile information after the password has expired"] ]
  = [9; 7; 50].
Proof. reflexivity. Qed.

(** X23: the module run as a script exports three sample test cases to
    'sample_testcases.xlsx'. The samples have the six fields of a test case
    the engines return, so their rows use no default; the rows are those of
    TC001, TC002 and TC003 with four numbered steps each; and the run
    writes them once and then prints its two lines, or ends with the
    exception of the writer right after the write: it never ends with the
    ValueError of an empty list. *)
Theorem sample_script_writes_three_rows (P : Platform) (s : state) :
  let rows := export_excel.build_rows P export_excel.create_sample_testcases in
  let write := EvExcelWrite "sample_testcases.xlsx" rows in
  Forall (fun tc => dom tc = six_fields) export_excel.create_sample_testcases
  ∧ map (fun row => row !! "Test ID") rows
    = [Some (PStr "TC001"); Some (PStr "TC002"); Some (PStr "TC003")]
  ∧ Forall (fun row => ∃ l1 l2 l3 l4,
              row !! "Test Steps"
              = Some (PStr (join newline
                  ["1. " +:+ l1; "2. " +:+ l2; "3. " +:+ l3; "4. " +:+ l4]))) rows
  ∧ match export_excel.__main__ P s with
    | (Return _, s') =>
        s' = logged [write;
                     EvPrint "✅ Excel file saved successfully: sample_testcases.xlsx";
                     EvPrint "Sample Excel file created for testing purposes."] s
    | (Raise e, s') =>
        s' = logged [write] s
        ∧ excel_write P (log s ++ [write]) "sample_testcases.xlsx" rows = Some e
    | (SystemExit _, _) => False
    end.
Proof.
  intros rows write. split; [|split; [|split]].
  - repeat constructor.
  - reflexivity.
  - subst rows. rewrite build_rows_map.
    repeat constructor; by eexists _, _, _, _.
  - unfold export_excel.__main__, export_excel.save_testcases_to_excel,
      export_excel.write_excel.
    change (path_str "sample_testcases.xlsx") with "sample_testcases.xlsx".
    fold rows. fold write. run.
    destruct (excel_write P (log s ++ [write]) "sample_testcases.xlsx" rows) as [e|] eqn:Hw;
      simpl.
    + by split.
    + unfold logged, set_log. simpl. by rewrite <- !app_assoc.
Qed.

(** ** The defaults of the validation *)

Section defaults.
Variable P : Platform.

Lemma pretty_N_go_starts_nonzero (x : N) : ∀ s : string,
  (0 < x)%N → starts_nonzero (pretty_N_go x s).
Proof.
  induction (N.lt_wf_0 x) as [x _ IH]. intros s Hx.
  rewrite pretty_N_go_step by done.
  destruct (decide (x `div` 10 = 0)%N) as [Hq|Hq].
  - rewrite Hq, pretty_N_go_0. simpl.
    assert (x < 10)%N as Hlt by (by apply N.div_small_iff in Hq).
    rewrite N.mod_small by done.
    assert (x = 1 ∨ x = 2 ∨ x = 3 ∨ x = 4 ∨ x = 5 ∨ x = 6 ∨ x = 7 ∨ x = 8 ∨ x = 9)%N
      as Hcases by lia.
    repeat (destruct Hcases as [->|Hcases]); try subst x; by compute.
  - apply IH; [by apply N.div_lt|]. by apply N.neq_0_lt_0.
Qed.

Lemma fmt_int_starts_nonzero (n : Z) : 0 < n → starts_nonzero (fmt_int n).
Proof.
  destruct n as [|p|p]; [lia| |lia]. intros _.
  unfold fmt_int, pretty, pretty_Z, pretty, pretty_positive, pretty, pretty_N.
  rewrite decide_False by done. by apply pretty_N_go_starts_nonzero.
Qed.

Lemma zeros_succ (k : nat) :
  String.concat "" (repeat "0" (S k)) = String "0" (String.concat "" (repeat "0" k)).
Proof. by destruct k. Qed.

Lemma without_leading_zeros_pad (k : nat) (s : string) :
  starts_nonzero s →
  without_leading_zeros (String.concat "" (repeat "0" k) +:+ s) = s.
Proof.
  intros Hs. induction k as [|k IH].
  - destruct s as [|c r]; [done|]. simpl in Hs |- *.
    by rewrite (proj2 (Ascii.eqb_neq c "0") Hs).
  - rewrite zeros_succ. exact IH.
Qed.

Lemma fmt_03d_inj (a b : Z) : 0 < a → 0 < b → fmt_03d a = fmt_03d b → a = b.
Proof.
  intros Ha Hb H.
  apply (f_equal without_leading_zeros) in H. unfold fmt_03d in H.
  rewrite !without_leading_zeros_pad in H by (by apply fmt_int_starts_nonzero).
  unfold fmt_int in H. by apply (inj (pretty : Z → string)) in H.
Qed.

Lemma default_test_id_inj (i j : nat) : default_test_id i = default_test_id j → i = j.
Proof.
  unfold default_test_id. intros [= H]. apply fmt_03d_inj in H; lia.
Qed.

Lemma default_feature_inj (i j : nat) : default_feature i = default_feature j → i = j.
Proof.
  unfold default_feature. intros [= H]. unfold fmt_int in H.
  change (pretty (Z.of_nat i + 1) = pretty (Z.of_nat j + 1)) in H.
  apply (inj (pretty : Z → string)) in H. lia.
Qed.

Lemma default_title_inj (i j : nat) : default_title i = default_title j → i = j.
Proof.
  unfold default_title. intros [= H]. unfold fmt_int in H.
  change (pretty (Z.of_nat i + 1) = pretty (Z.of_nat j + 1)) in H.
  apply (inj (pretty : Z → string)) in H. lia.
Qed.

Lemma dict_positions_NoDup (l : list pyval) : ∀ off, NoDup (dict_positions off l).
Proof.
  induction l as [|v l IH]; intros off; simpl; [constructor|].
  destruct v; try apply IH.
  constructor; [|apply IH].
  intros Hin. apply dict_positions_bounds in Hin. lia.
Qed.

Lemma none_has_cons (key : string) (v : pyval) (l : list pyval) :
  none_has key (v :: l) → none_has key l.
Proof. intros H. by apply Forall_cons in H as [_ H]. Qed.

(** Where no dictionary has the field, the results hold the defaults of
    the positions of the dictionaries. *)
Lemma kept_defaults (l : list pyval) : ∀ off,
  (none_has "test_id" l →
   (fun tc : pydict => tc !! "test_id") <$> kept off l
   = (fun i => Some (default_test_id i)) <$> dict_positions off l)
  ∧ (none_has "feature" l →
     (fun tc : pydict => tc !! "feature") <$> kept off l
     = (fun i => Some (default_feature i)) <$> dict_positions off l)
  ∧ (none_has "title" l →
     (fun tc : pydict => tc !! "title") <$> kept off l
     = (fun i => Some (default_title i)) <$> dict_positions off l).
Proof.
  induction l as [|v l IH]; intros off; [by repeat split|].
  destruct (IH (S off)) as [IH1 [IH2 IH3]].
  destruct v as [| | | | | |d]; cbn [kept dict_positions];
    try (split; [|split]; intros H; apply none_has_cons in H; by auto).
  rewrite !fmap_cons.
  split; [|split]; intros H; apply Forall_cons in H as [Hd H]; cbn beta iota in Hd.
  - rewrite (IH1 H). f_equal. unfold validated, dict_get. rewrite Hd. reflexivity.
  - rewrite (IH2 H). f_equal. unfold validated, dict_get. rewrite Hd. reflexivity.
  - rewrite (IH3 H). f_equal. unfold validated, dict_get. rewrite Hd. reflexivity.
Qed.

Lemma defaults_NoDup {A} (f : nat → A) (l : list nat) :
  (∀ i j, f i = f j → i = j) → NoDup l → NoDup ((fun i => Some (f i)) <$> l).
Proof.
  intros Hinj Hl. apply NoDup_fmap_2; [|exact Hl].
  intros i j [= H]. by apply Hinj.
Qed.

End defaults.

(** X24: when no dictionary of the decoded array has a test identifier,
    the identifiers [_parse_response] gives out are pairwise different:
    TC001, TC002 and so on by the position in the array, past TC999 as
    well, where the numeral gets longer. The same holds for the features
    and for the titles it gives out where no dictionary has one. *)
Theorem default_identifiers_are_distinct (P : Platform)
    (response : string) (parsed : list pyval) (s : state) :
  find response "[" ≠ -1 →
  rfind response "]" ≠ -1 →
  json_loads P (slice response (find response "[") (rfind response "]" + 1))
  = inr (PList parsed) →
  ∃ testcases,
    OpenAIEngine._parse_response P response s = (Return testcases, s)
    ∧ GeminiEngine._parse_response P response s = (Return testcases, s)
    ∧ (none_has "test_id" parsed →
       NoDup ((fun tc : pydict => tc !! "test_id") <$> testcases))
    ∧ (none_has "feature" parsed →
       NoDup ((fun tc : pydict => tc !! "feature") <$> testcases))
    ∧ (none_has "title" parsed →
       NoDup ((fun tc : pydict => tc !! "title") <$> testcases)).
Proof.
  intros Hstart Hend Hloads. exists (kept 0 parsed).
  rewrite openai_parse_closed, gemini_parse_closed.
  rewrite !(parse_closed_list P _ response _ Hstart Hend Hloads).
  split; [reflexivity|]. split; [reflexivity|].
  destruct (kept_defaults parsed 0) as [H1 [H2 H3]].
  split; [|split]; intros H.
  - rewrite (H1 H).
    apply defaults_NoDup; [apply default_test_id_inj|apply dict_positions_NoDup].
  - rewrite (H2 H).
    apply defaults_NoDup; [apply default_feature_inj|apply dict_positions_NoDup].
  - rewrite (H3 H).
    apply defaults_NoDup; [apply default_title_inj|apply dict_positions_NoDup].
Qed.

Lemma default_identifiers_are_distinct_witness :
  ∃ testcases,
    OpenAIEngine._parse_response demo.platform "[{}, 7, {}]" demo.start
    = (Return testcases, demo.start)
    ∧ (fun tc : pydict => tc !! "test_id") <$> testcases
      = [Some (PStr "TC001"); Some (PStr "TC003")]
    ∧ NoDup ((fun tc : pydict => tc !! "test_id") <$> testcases).
Proof.
  destruct (default_identifiers_are_distinct demo.platform "[{}, 7, {}]"
              [PDict ∅; PInt 7; PDict ∅] demo.start)
    as [testcases [Hopenai [_ [Hid _]]]];
    [by vm_compute|by vm_compute|vm_compute; reflexivity|].
  exists testcases. split; [exact Hopenai|]. split.
  - assert (Return (A := list pydict) testcases
            = fst (OpenAIEngine._parse_response demo.platform "[{}, 7, {}]" demo.start))
      as Hfst by (by rewrite Hopenai).
    vm_compute in Hfst. injection Hfst as ->. reflexivity.
  - apply Hid. repeat constructor.
Defined.

(** The padding stops at three digits. *)
Example identifiers_around_a_thousand :
  map (fun i => default_test_id i) [0; 8; 9; 98; 99; 998; 999]%nat
  = map PStr ["TC001"; "TC009"; "TC010"; "TC099"; "TC100"; "TC999"; "TC1000"].
Proof. reflexivity. Qed.

(** ** What [main] reports *)

Section reports.
Variable P : Platform.

Lemma main_generation_raises argv s0 args s text config engine s' e s4 :
  enters_try P argv s0 args s →
  at_generation P args s text config engine s' →
  main.generate_testcases P engine text s' = (Raise e, s4) →
  main.main P argv s0 = (SystemExit 1, logged [processing_error e] s4).
Proof.
  intros Henter Hat Hg.
  rewrite (main_of_pipeline P _ _ _ _ Henter), (pipeline_at_generation P _ _ _ _ _ _ Hat).
  by rewrite from_generation_unfold, Hg.
Qed.

Lemma main_generate_openai engine text s :
  class_of engine s = (Return COpenAIEngine, s) →
  main.generate_testcases P engine text s
  = OpenAIEngine.generate_testcases P engine text s.
Proof. intros Hc. unfold main.generate_testcases. by rewrite bind_run, Hc. Qed.

Lemma main_generate_gemini engine text s :
  class_of engine s = (Return CGeminiEngine, s) →
  main.generate_testcases P engine text s
  = GeminiEngine.generate_testcases P engine text s.
Proof. intros Hc. unfold main.generate_testcases. by rewrite bind_run, Hc. Qed.

Lemma logged_two (ev1 ev2 : event) (s : state) :
  logged [ev2] (logged [ev1] s) = logged [ev1; ev2] s.
Proof. by rewrite logged_logged. Qed.

End reports.

(** X25: an input file that exists but whose lowercased suffix is none of
    '.pdf', '.docx' and '.txt' (also a path with no suffix) ends the run
    with status 1 after the handler has printed that the format is not
    supported, with the suffix and the three formats; the file is not
    opened, the configuration is not loaded and no request is made. *)
Theorem unsupported_format_is_reported (P : Platform) (argv : list string)
    (s0 : state) (args : argparse.Namespace) (s : state) :
  enters_try P argv s0 args s →
  ¬ supported (lower P (path_suffix (args !!! "input_file"))) →
  main.main P argv s0
  = (SystemExit 1,
     logged [processing_error
               (Exn ValueError
                  ("Unsupported file format: "
                   +:+ lower P (path_suffix (args !!! "input_file"))
                   +:+ ". Supported formats: .pdf, .docx, .txt"))] s).
Proof.
  intros Henter Hnot.
  rewrite (main_of_pipeline P _ _ _ _ Henter), pipeline_unfold.
  unfold extract_text.extract_text_from_file.
  destruct (String.eqb _ ".pdf") eqn:Hpdf.
  { apply String.eqb_eq in Hpdf. destruct Hnot. by left. }
  destruct (String.eqb _ ".docx") eqn:Hdocx.
  { apply String.eqb_eq in Hdocx. destruct Hnot. right. by left. }
  destruct (String.eqb _ ".txt") eqn:Htxt.
  { apply String.eqb_eq in Htxt. destruct Hnot. right. by right. }
  reflexivity.
Qed.

Lemma unsupported_format_is_reported_witness :
  main.main (scenarios.with_file demo.platform "notes.md" (fun _ => inr "# Notes"))
    ["notes.md"] demo.start
  = (SystemExit 1,
     logged [EvPrint ("❌ Error during processing: Unsupported file format: .md. "
                      +:+ "Supported formats: .pdf, .docx, .txt")]
       (logged [reading (<["input_file" := "notes.md"]> demo.args)] demo.start)).
Proof.
  rewrite (unsupported_format_is_reported
             (scenarios.with_file demo.platform "notes.md" (fun _ => inr "# Notes"))
             ["notes.md"] demo.start (<["input_file" := "notes.md"]> demo.args)
             (logged [reading (<["input_file" := "notes.md"]> demo.args)] demo.start)).
  - reflexivity.
  - exists demo.start. split; [reflexivity|]. split; reflexivity.
  - vm_compute. intros [H|[H|H]]; discriminate H.
Defined.

(** X26: when the request to the service fails, a run of [main] that has
    got as far as the generation ends with status 1: after the request the
    handler prints the text of the failure behind 'Error calling OpenAI
    API: ' or 'Error calling Gemini API: ', and that is all; nothing is
    written and no second request is made. *)
Theorem service_failure_is_reported (P : Platform) (argv : list string)
    (s0 : state) (args : argparse.Namespace) (s : state) (text : string)
    (config : pyval) (engine : loc) (s' : state) (e : exn) :
  enters_try P argv s0 args s →
  at_generation P args s text config engine s' →
  (∀ api_key model : pyval,
     class_of engine s' = (Return COpenAIEngine, s') →
     openai_ready s' engine api_key model →
     openai_answer P s' api_key model text = inl e →
     main.main P argv s0
     = (SystemExit 1,
        logged [openai_request api_key model text;
                processing_error
                  (Exn Exception ("Error calling OpenAI API: " +:+ exn_msg e))] s'))
  ∧ (∀ model : pyval,
       class_of engine s' = (Return CGeminiEngine, s') →
       gemini_ready s' engine model →
       gemini_answer P s' model text = inl e →
       main.main P argv s0
       = (SystemExit 1,
          logged [gemini_request model text;
                  processing_error
                    (Exn Exception ("Error calling Gemini API: " +:+ exn_msg e))] s')).
Proof.
  intros Henter Hat. split.
  - intros api_key model Hclass Hready Hanswer.
    rewrite <- logged_two.
    apply (main_generation_raises P _ _ _ _ _ _ _ _ _ _ Henter Hat).
    rewrite (main_generate_openai P _ _ _ Hclass).
    rewrite (openai_generate_run P _ _ _ _ _ Hready). cbv zeta.
    unfold openai_answer in Hanswer. by rewrite Hanswer.
  - intros model Hclass Hready Hanswer.
    rewrite <- logged_two.
    apply (main_generation_raises P _ _ _ _ _ _ _ _ _ _ Henter Hat).
    rewrite (main_generate_gemini P _ _ _ Hclass).
    rewrite (gemini_generate_run P _ _ _ _ Hready). cbv zeta.
    unfold gemini_answer in Hanswer. by rewrite Hanswer.
Qed.

(** X27: when the service answers but [_parse_response] raises on the
    answer (no JSON array in it, an array that does not decode, a value
    that is no list), a run of [main] that has got as far as the generation
    ends with status 1: after the request the handler prints the message of
    that exception behind the prefix of the engine, so an answer without an
    array is reported as 'Error calling OpenAI API: Error parsing OpenAI
    response: No JSON array found in response'. Nothing is written. *)
Theorem unusable_answer_is_reported (P : Platform) (argv : list string)
    (s0 : state) (args : argparse.Namespace) (s : state) (text : string)
    (config : pyval) (engine : loc) (s' : state) (content : string) (e : exn) :
  enters_try P argv s0 args s →
  at_generation P args s text config engine s' →
  (∀ api_key model : pyval,
     class_of engine s' = (Return COpenAIEngine, s') →
     openai_ready s' engine api_key model →
     openai_answer P s' api_key model text = inr content →
     fst (OpenAIEngine._parse_response P content s') = Raise e →
     main.main P argv s0
     = (SystemExit 1,
        logged [openai_request api_key model text;
                processing_error
                  (Exn Exception ("Error calling OpenAI API: " +:+ exn_msg e))] s'))
  ∧ (∀ model : pyval,
       class_of engine s' = (Return CGeminiEngine, s') →
       gemini_ready s' engine model →
       gemini_answer P s' model text = inr content →
       fst (GeminiEngine._parse_response P content s') = Raise e →
       main.main P argv s0
       = (SystemExit 1,
          logged [gemini_request model text;
                  processing_error
                    (Exn Exception ("Error calling Gemini API: " +:+ exn_msg e))] s')).
Proof.
  intros Henter Hat. split.
  - intros api_key model Hclass Hready Hanswer Hparse.
    rewrite <- logged_two.
    apply (main_generation_raises P _ _ _ _ _ _ _ _ _ _ Henter Hat).
    rewrite (main_generate_openai P _ _ _ Hclass).
    rewrite (openai_generate_run P _ _ _ _ _ Hready). cbv zeta.
    unfold openai_answer in Hanswer. rewrite Hanswer.
    rewrite openai_parse_closed in Hparse. simpl in Hparse. by rewrite Hparse.
  - intros model Hclass Hready Hanswer Hparse.
    rewrite <- logged_two.
    apply (main_generation_raises P _ _ _ _ _ _ _ _ _ _ Henter Hat).
    rewrite (main_generate_gemini P _ _ _ Hclass).
    rewrite (gemini_generate_run P _ _ _ _ Hready). cbv zeta.
    unfold gemini_answer in Hanswer. rewrite Hanswer.
    rewrite gemini_parse_closed in Hparse. simpl in Hparse. by rewrite Hparse.
Qed.

(** The test run at the point where the engine is about to be called. *)
Definition generation_begins : state :=
  logged [using_engine demo.platform (PDict scenarios.config); generating]
    (snd (main.get_ai_engine demo.platform (PDict scenarios.config)
            (logged [extracted demo.requirement]
               (logged [reading demo.args] demo.start)))).

Lemma test_run_at_generation (P : Platform) :
  argparse_other P = argparse_other demo.platform →
  unicode_lower P = unicode_lower demo.platform →
  yaml_safe_load P = yaml_safe_load demo.platform →
  py_repr P = py_repr demo.platform →
  path_exists P = path_exists demo.platform →
  read_text P = read_text demo.platform →
  enters_try P ["req.txt"] demo.start demo.args (logged [reading demo.args] demo.start)
  ∧ at_generation P demo.args (logged [reading demo.args] demo.start)
      demo.requirement (PDict scenarios.config) 0%nat generation_begins.
Proof.
  destruct P as [lo ao jl yl pr pe rt pp dp ew oc gm gg]. simpl.
  intros -> -> -> -> -> ->. split.
  - exists demo.start. split; [reflexivity|]. split; reflexivity.
  - eexists _, _. split; [|split; [|reflexivity]].
    + eexists. split.
      * eexists. split; [reflexivity|]. split; reflexivity.
      * reflexivity.
    + reflexivity.
Qed.

(** The service is down. *)
Lemma service_failure_is_reported_witness :
  main.main demo.offline ["req.txt"] demo.start
  = (SystemExit 1,
     logged [openai_request (PStr "sk-test") (PStr "gpt-4") demo.requirement;
             processing_error
               (Exn Exception ("Error calling OpenAI API: " +:+ "Connection error."))]
       generation_begins).
Proof.
  destruct (test_run_at_generation demo.offline
              eq_refl eq_refl eq_refl eq_refl eq_refl eq_refl) as [Henter Hat].
  apply (proj1 (service_failure_is_reported demo.offline ["req.txt"] demo.start
                  demo.args (logged [reading demo.args] demo.start) demo.requirement
                  (PDict scenarios.config) 0%nat generation_begins
                  (Exn (OtherError "APIConnectionError") "Connection error.")
                  Henter Hat)).
  - reflexivity.
  - eexists. split; [reflexivity|]. split; reflexivity.
  - reflexivity.
Defined.

(** The service declines to answer with an array. *)
Lemma unusable_answer_is_reported_witness :
  main.main (scenarios.with_answer demo.platform (inr "I cannot help with that."))
    ["req.txt"] demo.start
  = (SystemExit 1,
     logged [openai_request (PStr "sk-test") (PStr "gpt-4") demo.requirement;
             processing_error
               (Exn Exception
                  ("Error calling OpenAI API: "
                   +:+ "Error parsing OpenAI response: No JSON array found in response"))]
       generation_begins).
Proof.
  destruct (test_run_at_generation
              (scenarios.with_answer demo.platform (inr "I cannot help with that."))
              eq_refl eq_refl eq_refl eq_refl eq_refl eq_refl) as [Henter Hat].
  apply (proj1 (unusable_answer_is_reported
                  (scenarios.with_answer demo.platform (inr "I cannot help with that."))
                  ["req.txt"] demo.start
                  demo.args (logged [reading demo.args] demo.start) demo.requirement
                  (PDict scenarios.config) 0%nat generation_begins
                  "I cannot help with that."
                  (Exn Exception
                     "Error parsing OpenAI response: No JSON array found in response")
                  Henter Hat) (PStr "sk-test") (PStr "gpt-4")).
  - reflexivity.
  - eexists. split; [reflexivity|]. split; reflexivity.
  - reflexivity.
  - reflexivity.
Defined.
